(** * LibSagerNetCore: the TUN-to-proxy bridge (tun.go) and its per-app
    traffic accounting (stats.go), embedded in Rocq.

    The Go code is translated function by function.  Machine integers are
    [Z] with the wrap-around written out, the [map[uint16]*appStats] and the
    [sync.Map] of the NAT table are [gmap]s, the [*appStats] entries live in
    an explicit heap so that the pointers held by [statsConn] and
    [statsPacketConn] alias the entries of the map, and the calls to the
    collaborators (dispatcher, listener, TUN side, logger) are recorded in a
    trace. *)

From Stdlib Require Import ZArith Lia List.
From stdpp Require Import base option list gmap fin_maps strings pretty.

Local Open Scope Z_scope.

(** ** Go's fixed-width integers *)

Module GoInt.

(** Conversion to an unsigned type keeps the low bits. *)
Definition uint16 (x : Z) : Z := x mod 2 ^ 16.
Definition uint32 (x : Z) : Z := x mod 2 ^ 32.
Definition uint64 (x : Z) : Z := x mod 2 ^ 64.

(** Conversion to a signed type keeps the low bits and reads them in
    two's complement. *)
Definition int32 (x : Z) : Z := (x + 2 ^ 31) mod 2 ^ 32 - 2 ^ 31.
Definition int64 (x : Z) : Z := (x + 2 ^ 63) mod 2 ^ 64 - 2 ^ 63.

Definition is_uint16 (x : Z) : Prop := 0 <= x < 2 ^ 16.
Definition is_uint32 (x : Z) : Prop := 0 <= x < 2 ^ 32.
Definition is_uint64 (x : Z) : Prop := 0 <= x < 2 ^ 64.
Definition is_int32 (x : Z) : Prop := - 2 ^ 31 <= x < 2 ^ 31.
Definition is_int64 (x : Z) : Prop := - 2 ^ 63 <= x < 2 ^ 63.

End GoInt.
Import GoInt.

(** ** stats.go: the records *)

(** [type AppStats struct]: the record handed to the listener. *)
Record AppStats := mkAppStats {
  Uid : Z;            (* int32 *)
  TcpConn : Z;        (* int32 *)
  UdpConn : Z;        (* int32 *)
  TcpConnTotal : Z;   (* int32 *)
  UdpConnTotal : Z;   (* int32 *)
  Uplink : Z;         (* int64 *)
  Downlink : Z;       (* int64 *)
  UplinkTotal : Z;    (* int64 *)
  DownlinkTotal : Z;  (* int64 *)
  DeactivateAt : Z    (* int32 *)
}.

(** [type appStats struct]: the internal entry. *)
Record appStats := mkappStats {
  tcpConn : Z;        (* int32 *)
  udpConn : Z;        (* int32 *)
  tcpConnTotal : Z;   (* uint32 *)
  udpConnTotal : Z;   (* uint32 *)
  uplink : Z;         (* uint64 *)
  downlink : Z;       (* uint64 *)
  uplinkTotal : Z;    (* uint64 *)
  downlinkTotal : Z;  (* uint64 *)
  deactivateAt : Z    (* int64 *)
}.

(** [&appStats{}] *)
Definition appStats_zero : appStats := mkappStats 0 0 0 0 0 0 0 0 0.

Global Instance appStats_inhabited : Inhabited appStats :=
  populate appStats_zero.

(** Entries are only ever handled through [*appStats]; [loc] is such a
    pointer and [ptr] is the address of one field of an entry, as in
    [&stats.uplink]. *)
Definition loc := positive.

Inductive field :=
  | F_tcpConn | F_udpConn | F_tcpConnTotal | F_udpConnTotal
  | F_uplink | F_downlink | F_uplinkTotal | F_downlinkTotal
  | F_deactivateAt.

Definition ptr : Type := loc * field.

Definition get_field (f : field) (s : appStats) : Z :=
  match f with
  | F_tcpConn => tcpConn s
  | F_udpConn => udpConn s
  | F_tcpConnTotal => tcpConnTotal s
  | F_udpConnTotal => udpConnTotal s
  | F_uplink => uplink s
  | F_downlink => downlink s
  | F_uplinkTotal => uplinkTotal s
  | F_downlinkTotal => downlinkTotal s
  | F_deactivateAt => deactivateAt s
  end.

Definition set_field (f : field) (v : Z) (s : appStats) : appStats :=
  let '(mkappStats a b c d e g h i j) := s in
  match f with
  | F_tcpConn => mkappStats v b c d e g h i j
  | F_udpConn => mkappStats a v c d e g h i j
  | F_tcpConnTotal => mkappStats a b v d e g h i j
  | F_udpConnTotal => mkappStats a b c v e g h i j
  | F_uplink => mkappStats a b c d v g h i j
  | F_downlink => mkappStats a b c d e v h i j
  | F_uplinkTotal => mkappStats a b c d e g v i j
  | F_downlinkTotal => mkappStats a b c d e g h v j
  | F_deactivateAt => mkappStats a b c d e g h i v
  end.

Global Instance field_eq_dec : EqDecision field.
Proof. solve_decision. Defined.

(** ** The values exchanged with the collaborators *)

(** [err.Error()] *)
Definition error : Type := string.

(** [[]byte] *)
Definition bytes : Type := list Byte.byte.

Definition len (b : bytes) : Z := Z.of_nat (length b).

(** [v2rayNet.Address] is an interface of the dispatcher's library; the
    handlers only observe [String()], [IP().String()] and
    [Family().IsIPv6()]. *)
Record Address := mkAddress {
  Address_String : string;
  Address_IP : string;
  Address_IsIPv6 : bool
}.

Inductive Network := Network_TCP | Network_UDP.

Record Destination := mkDestination {
  Dest_Network : Network;
  Dest_Address : Address;
  Dest_Port : Z
}.

(** [Destination.NetAddr()]: ["address:port"]. *)
Definition NetAddr (d : Destination) : string :=
  (Address_String (Dest_Address d) +:+ ":" +:+ pretty (Dest_Port d))%string.

(** [*net.UDPAddr] *)
Record UDPAddr := mkUDPAddr { UDP_IP : string; UDP_Port : Z }.

(** A [net.Addr] interface value: a [*net.UDPAddr] or some other
    implementation; [None] is the nil interface. *)
Inductive Addr :=
  | Addr_UDP (a : UDPAddr)
  | Addr_other (s : string).

(** [session.Inbound], the fields the handlers set. *)
Record Inbound := mkInbound {
  Source : option Destination;
  Tag : string;
  Inbound_Uid : Z;              (* uint32 *)
  AppStatus : list string;
  SkipFakeDNS : bool
}.

(** [session.SniffingRequest] *)
Record SniffingRequest := mkSniffingRequest {
  Enabled : bool;
  MetadataOnly : bool;
  RouteOnly : bool;
  OverrideDestinationForProtocol : list string
}.

(** The [context.Context] handed to the dispatcher, by what was attached
    to it: the core instance ([core.WithContext]), the inbound
    ([session.ContextWithInbound]) and the content
    ([session.ContextWithContent]). *)
Record Context := mkContext {
  ctx_core : bool;
  ctx_inbound : option Inbound;
  ctx_content : option SniffingRequest
}.

Definition context_Background : Context := mkContext false None None.
Definition core_WithContext (ctx : Context) : Context :=
  mkContext true (ctx_inbound ctx) (ctx_content ctx).
Definition session_ContextWithInbound (ctx : Context) (i : Inbound) : Context :=
  mkContext (ctx_core ctx) (Some i) (ctx_content ctx).
Definition session_ContextWithContent (ctx : Context) (r : SniffingRequest) : Context :=
  mkContext (ctx_core ctx) (ctx_inbound ctx) (Some r).

(** [type UidInfo struct] *)
Record UidInfo := mkUidInfo { Label : string; PackageName : string }.

Definition appStatusForeground : string := "foreground".
Definition appStatusBackground : string := "background".

(** ** stats.go: the wrappers *)

(** Connections of the TUN side and of the dispatcher are external
    objects, known by an identifier. *)
Definition connId := positive.
Definition condId := positive.

(** [type statsConn struct { net.Conn; uplink *uint64; downlink *uint64 }] *)
Record statsConn (C : Type) := mkstatsConn {
  Conn : C;
  sc_uplink : ptr;
  sc_downlink : ptr
}.
Arguments mkstatsConn {C} _ _ _.
Arguments Conn {C} _.
Arguments sc_uplink {C} _.
Arguments sc_downlink {C} _.

(** [type statsPacketConn struct { packetConn; uplink *uint64; downlink *uint64 }] *)
Record statsPacketConn (C : Type) := mkstatsPacketConn {
  packetConn : C;
  spc_uplink : ptr;
  spc_downlink : ptr
}.
Arguments mkstatsPacketConn {C} _ _ _.
Arguments packetConn {C} _.
Arguments spc_uplink {C} _.
Arguments spc_downlink {C} _.

(** A [net.Conn] value in [NewConnection] is the conn of the TUN or that
    conn wrapped; a [packetConn] value in [NewPacket] and in the NAT table
    is the conn of the dispatcher or that conn wrapped. *)
Definition netConn : Type := connId + statsConn connId.
Definition packetConnV : Type := connId + statsPacketConn connId.

(** ** tun.go: the bridge *)

(** An item of the [sync.Map] of the NAT table. *)
Inductive natItem :=
  | ItemConn (pc : packetConnV)
  | ItemCond (c : condId).

(** [type natTable struct { mapping sync.Map }] *)
Record natTable := mknatTable { mapping : gmap string natItem }.

(** [type Tun2ray struct].  [t_appStats] is the field [appStats] (the
    name is taken by the entry type); a nil map and an empty map read and
    iterate alike, and the code writes the map only when [trafficStats]
    is set, where the constructor made it.  [access], [dev], [v2ray] and
    [pcap] are the lock and the collaborators. *)
Record Tun2ray := mkTun2ray {
  router : string;
  udpTable : natTable;
  fakedns : bool;
  sniffing : bool;
  overrideDestination : bool;
  debug : bool;
  dumpUid : bool;
  trafficStats : bool;
  t_appStats : gmap Z loc
}.

(** What [closeIgnore] is given. *)
Inductive resource :=
  | Res_conn (c : netConn)
  | Res_linkReader (c : connId)
  | Res_linkWriter (c : netConn)
  | Res_packetConn (c : packetConnV)
  | Res_closer (c : connId).

(** The calls into the collaborators, in the order they happen. *)
Inductive event :=
  | EvUpdateStats (s : AppStats)
  | EvErrorf (fmt : string) (err : error)
  | EvInfof (fmt : string) (args : list string)
  | EvDispatchLink (ctx : Context) (dest : Destination) (conn : netConn)
  | EvCopy (conn : netConn)
  | EvDialUDP (ctx : Context) (dest : Destination) (timeout : Z)
  | EvWriteTo (c : connId) (data : bytes) (addr : UDPAddr)
  | EvWriteBack (data : bytes) (addr : option UDPAddr)
  | EvConnClose (c : connId)
  | EvClose (r : resource)
  | EvWait (c : condId)
  | EvBroadcast (c : condId).

(** The answers of an external conn: the results of its successive calls.
    A conn whose script is used up reports an error on reads and takes
    every write. *)
Record connScript := mkconnScript {
  on_Read : list (Z * option error);
  on_Write : list (Z * option error);
  on_readFrom : list (bytes * option Addr * option error);
  on_WriteTo : list (Z * option error)
}.

(** The answers of the other collaborators: [uidDumper], [os.Getuid], the
    package variables [foregroundUid] and [foregroundImeUid], the
    dispatcher ([t.v2ray.dispatcher.DispatchLink] and [t.v2ray.dialUDP],
    by the error they return) and [time.Now().Unix()]. *)
Record Env := mkEnv {
  DumpUid : bool -> bool -> string -> Z -> string -> Z -> Z * option error;
  GetUidInfo : Z -> option UidInfo;
  Getuid : Z;
  foregroundUid : Z;      (* uint16 *)
  foregroundImeUid : Z;   (* uint16 *)
  DispatchLink : Context -> Destination -> option error;
  dialUDP : Context -> Destination -> Z -> option error;
  Now_Unix : Z
}.

(** The state the code runs in. *)
Record World := mkWorld {
  tun : Tun2ray;
  mem : gmap loc appStats;
  net : gmap connId connScript;
  nextConn : connId;
  nextCond : condId;
  trace : list event
}.

Definition set_tun (f : Tun2ray -> Tun2ray) (w : World) : World :=
  mkWorld (f (tun w)) (mem w) (net w) (nextConn w) (nextCond w) (trace w).
Definition set_mem (f : gmap loc appStats -> gmap loc appStats) (w : World) : World :=
  mkWorld (tun w) (f (mem w)) (net w) (nextConn w) (nextCond w) (trace w).
Definition set_net (f : gmap connId connScript -> gmap connId connScript) (w : World) : World :=
  mkWorld (tun w) (mem w) (f (net w)) (nextConn w) (nextCond w) (trace w).
Definition set_trace (f : list event -> list event) (w : World) : World :=
  mkWorld (tun w) (mem w) (net w) (nextConn w) (nextCond w) (f (trace w)).

Definition set_appStats (f : gmap Z loc -> gmap Z loc) (t : Tun2ray) : Tun2ray :=
  mkTun2ray (router t) (udpTable t) (fakedns t) (sniffing t)
    (overrideDestination t) (debug t) (dumpUid t) (trafficStats t)
    (f (t_appStats t)).
Definition set_udpTable (f : gmap string natItem -> gmap string natItem)
    (t : Tun2ray) : Tun2ray :=
  mkTun2ray (router t) (mknatTable (f (mapping (udpTable t)))) (fakedns t)
    (sniffing t) (overrideDestination t) (debug t) (dumpUid t)
    (trafficStats t) (t_appStats t).

(** Code runs as a state transformer that may panic ([None]). *)
Definition M (A : Type) : Type := World -> option (A * World).

Global Instance M_ret : MRet M := fun A a w => Some (a, w).
Global Instance M_bind : MBind M := fun A B f m w =>
  match m w with
  | Some (a, w') => f a w'
  | None => None
  end.

Definition panic {A} : M A := fun _ => None.
Definition getW : M World := fun w => Some (w, w).
Definition modifyW (f : World -> World) : M unit := fun w => Some (tt, f w).
Definition emit (e : event) : M unit := modifyW (set_trace (fun tr => tr ++ [e])).

(** [for _, x := range l { body }], with the variables the body
    assigns as the accumulator. *)
Fixpoint forRange {A S} (l : list A) (acc : S) (body : S -> A -> M S) : M S :=
  match l with
  | [] => mret acc
  | x :: l' => acc' ← body acc x; forRange l' acc' body
  end.

(** A plain read of the entry behind a pointer. *)
Definition deref (l : loc) : M appStats := fun w =>
  match mem w !! l with
  | Some s => Some (s, w)
  | None => None
  end.

(** ** sync/atomic *)

(** One atomic access to the word at [p]: [f] maps the old value to the
    result and the new value. *)
Definition atomically {A} (p : ptr) (f : Z -> A * Z) : M A := fun w =>
  match mem w !! p.1 with
  | Some s =>
      let '(a, v) := f (get_field p.2 s) in
      Some (a, set_mem (insert p.1 (set_field p.2 v s)) w)
  | None => None
  end.

Definition atomic_LoadInt32 (p : ptr) : M Z :=
  atomically p (fun v => (v, v)).
Definition atomic_AddInt32 (p : ptr) (delta : Z) : M Z :=
  atomically p (fun v => (int32 (v + delta), int32 (v + delta))).
Definition atomic_AddUint32 (p : ptr) (delta : Z) : M Z :=
  atomically p (fun v => (uint32 (v + delta), uint32 (v + delta))).
Definition atomic_AddUint64 (p : ptr) (delta : Z) : M Z :=
  atomically p (fun v => (uint64 (v + delta), uint64 (v + delta))).
Definition atomic_StoreUint64 (p : ptr) (val : Z) : M unit :=
  atomically p (fun _ => (tt, val)).
Definition atomic_StoreInt64 (p : ptr) (val : Z) : M unit :=
  atomically p (fun _ => (tt, val)).
Definition atomic_SwapUint64 (p : ptr) (new : Z) : M Z :=
  atomically p (fun old => (old, new)).

(** ** stats.go: the registry *)

(** [func (t *Tun2ray) GetTrafficStatsEnabled() bool] *)
Definition GetTrafficStatsEnabled : M bool :=
  w ← getW; mret (trafficStats (tun w)).

(** The body of the first loop of [ResetAppTraffics], for the entry
    [stat] of [uid]; [toDel] is the slice being built. *)
Definition ResetAppTraffics_body (toDel : list Z) (e : Z * loc) : M (list Z) :=
  let '(uid, stat) := e in
  _ ← atomic_StoreUint64 (stat, F_uplink) 0;
  _ ← atomic_StoreUint64 (stat, F_downlink) 0;
  _ ← atomic_StoreUint64 (stat, F_uplinkTotal) 0;
  _ ← atomic_StoreUint64 (stat, F_downlinkTotal) 0;
  s ← deref stat;
  if decide (int32 (tcpConn s + udpConn s) = 0)
  then mret (toDel ++ [uid])
  else mret toDel.

(** [func (t *Tun2ray) ResetAppTraffics()].  The two passes run under
    [t.access.RLock] and [t.access.Lock]; a Go map is ranged over in an
    unspecified order, here the order of [map_to_list]. *)
Definition ResetAppTraffics : M unit :=
  w ← getW;
  if negb (trafficStats (tun w)) then mret tt else
  toDel ← forRange (map_to_list (t_appStats (tun w))) [] ResetAppTraffics_body;
  if decide (0 < length toDel)%nat then
    forRange toDel tt
      (fun _ uid => modifyW (set_tun (set_appStats (delete uid))))
  else mret tt.

(** The body of the loop of [ReadAppTraffics]; [stats] is the slice being
    built. *)
Definition ReadAppTraffics_body (stats : list AppStats) (e : Z * loc)
    : M (list AppStats) :=
  let '(uid, stat) := e in
  s ← deref stat;
  let export0 := mkAppStats (int32 uid) (tcpConn s) (udpConn s)
                   (int32 (tcpConnTotal s)) (int32 (udpConnTotal s))
                   0 0 0 0 (int32 (deactivateAt s)) in
  uplink ← atomic_SwapUint64 (stat, F_uplink) 0;
  uplinkTotal ← atomic_AddUint64 (stat, F_uplinkTotal) uplink;
  downlink ← atomic_SwapUint64 (stat, F_downlink) 0;
  downlinkTotal ← atomic_AddUint64 (stat, F_downlinkTotal) downlink;
  let export := mkAppStats (Uid export0) (TcpConn export0)
                  (UdpConn export0) (TcpConnTotal export0)
                  (UdpConnTotal export0)
                  (int64 uplink) (int64 downlink)
                  (int64 uplinkTotal) (int64 downlinkTotal)
                  (DeactivateAt export0) in
  mret (stats ++ [export]).

(** [func (t *Tun2ray) ReadAppTraffics(listener TrafficListener) error];
    the calls [listener.UpdateStats(stat)] go to the trace. *)
Definition ReadAppTraffics : M (option error) :=
  w ← getW;
  if negb (trafficStats (tun w)) then mret None else
  stats ← forRange (map_to_list (t_appStats (tun w))) [] ReadAppTraffics_body;
  _ ← forRange stats tt (fun _ stat => emit (EvUpdateStats stat));
  mret None.

(** ** stats.go: the wrappers' methods *)

(** [net.Conn], by the methods the code calls.  [Read(b)] is given
    [len(b)]. *)
Class NetConn (C : Type) := {
  Read : C -> Z -> M (Z * option error);
  Write : C -> bytes -> M (Z * option error);
  Close : C -> M (option error)
}.

(** [packetConn]: [net.PacketConn] and the package's own [readFrom]. *)
Class PacketConn (C : Type) := {
  ReadFrom : C -> Z -> M (Z * option Addr * option error);
  readFrom : C -> M (bytes * option Addr * option error);
  WriteTo : C -> bytes -> UDPAddr -> M (Z * option error);
  PacketClose : C -> M (option error)
}.

(** [func (c *statsConn) Read(b []byte) (n int, err error)]: the deferred
    add runs with the [n] of the inner read, whatever [err] is. *)
Definition statsConn_Read `{NetConn C} (c : statsConn C) (b : Z)
    : M (Z * option error) :=
  '(n, err) ← Read (Conn c) b;
  _ ← atomic_AddUint64 (sc_uplink c) (uint64 n);
  mret (n, err).

(** [func (c *statsConn) Write(b []byte) (n int, err error)] *)
Definition statsConn_Write `{NetConn C} (c : statsConn C) (b : bytes)
    : M (Z * option error) :=
  '(n, err) ← Write (Conn c) b;
  _ ← atomic_AddUint64 (sc_downlink c) (uint64 n);
  mret (n, err).

(** [func (c statsPacketConn) ReadFrom(p []byte) (n int, addr net.Addr, err error)] *)
Definition statsPacketConn_ReadFrom `{PacketConn C} (c : statsPacketConn C)
    (p : Z) : M (Z * option Addr * option error) :=
  '(n, addr, err) ← ReadFrom (packetConn c) p;
  _ ← (if decide (err = None)
       then _ ← atomic_AddUint64 (spc_downlink c) (uint64 n); mret tt
       else mret tt);
  mret (n, addr, err).

(** [func (c statsPacketConn) readFrom() (p []byte, addr net.Addr, err error)] *)
Definition statsPacketConn_readFrom `{PacketConn C} (c : statsPacketConn C)
    : M (bytes * option Addr * option error) :=
  '(p, addr, err) ← readFrom (packetConn c);
  _ ← (if decide (err = None)
       then _ ← atomic_AddUint64 (spc_downlink c) (uint64 (len p)); mret tt
       else mret tt);
  mret (p, addr, err).

(** [func (c statsPacketConn) WriteTo(p []byte, addr net.Addr) (n int, err error)] *)
Definition statsPacketConn_WriteTo `{PacketConn C} (c : statsPacketConn C)
    (p : bytes) (addr : UDPAddr) : M (Z * option error) :=
  '(n, err) ← WriteTo (packetConn c) p addr;
  _ ← (if decide (err = None)
       then _ ← atomic_AddUint64 (spc_uplink c) (uint64 n); mret tt
       else mret tt);
  mret (n, err).

(** The methods not overridden are those of the embedded conn. *)
Global Instance statsConn_NetConn `{NetConn C} : NetConn (statsConn C) := {
  Read := statsConn_Read;
  Write := statsConn_Write;
  Close c := Close (Conn c)
}.

Global Instance statsPacketConn_PacketConn `{PacketConn C}
    : PacketConn (statsPacketConn C) := {
  ReadFrom := statsPacketConn_ReadFrom;
  readFrom := statsPacketConn_readFrom;
  WriteTo := statsPacketConn_WriteTo;
  PacketClose c := PacketClose (packetConn c)
}.

(** ** The external conns *)

Definition script_of (c : connId) (w : World) : connScript :=
  default (mkconnScript [] [] [] []) (net w !! c).

Definition conn_Read (c : connId) (b : Z) : M (Z * option error) := fun w =>
  let sc := script_of c w in
  match on_Read sc with
  | r :: rest =>
      Some (r, set_net (insert c (mkconnScript rest (on_Write sc)
                                    (on_readFrom sc) (on_WriteTo sc))) w)
  | [] => Some ((0, Some "EOF"%string), w)
  end.

Definition conn_Write (c : connId) (b : bytes) : M (Z * option error) := fun w =>
  let sc := script_of c w in
  match on_Write sc with
  | r :: rest =>
      Some (r, set_net (insert c (mkconnScript (on_Read sc) rest
                                    (on_readFrom sc) (on_WriteTo sc))) w)
  | [] => Some ((len b, None), w)
  end.

Definition conn_readFrom (c : connId)
    : M (bytes * option Addr * option error) := fun w =>
  let sc := script_of c w in
  match on_readFrom sc with
  | r :: rest =>
      Some (r, set_net (insert c (mkconnScript (on_Read sc) (on_Write sc)
                                    rest (on_WriteTo sc))) w)
  | [] => Some (([], None, Some "closed"%string), w)
  end.

Definition conn_ReadFrom (c : connId) (p : Z)
    : M (Z * option Addr * option error) :=
  '(data, addr, err) ← conn_readFrom c;
  mret (len data, addr, err).

Definition conn_WriteTo_result (c : connId) (p : bytes)
    : M (Z * option error) := fun w =>
  let sc := script_of c w in
  match on_WriteTo sc with
  | r :: rest =>
      Some (r, set_net (insert c (mkconnScript (on_Read sc) (on_Write sc)
                                    (on_readFrom sc) rest)) w)
  | [] => Some ((len p, None), w)
  end.

Definition conn_WriteTo (c : connId) (p : bytes) (addr : UDPAddr)
    : M (Z * option error) :=
  _ ← emit (EvWriteTo c p addr);
  conn_WriteTo_result c p.

Definition conn_Close (c : connId) : M (option error) :=
  _ ← emit (EvConnClose c); mret None.

Global Instance connId_NetConn : NetConn connId := {
  Read := conn_Read;
  Write := conn_Write;
  Close := conn_Close
}.

Global Instance connId_PacketConn : PacketConn connId := {
  ReadFrom := conn_ReadFrom;
  readFrom := conn_readFrom;
  WriteTo := conn_WriteTo;
  PacketClose := conn_Close
}.

(** An interface value is one of its implementations; a call goes to the
    method of the dynamic type. *)
Global Instance sum_NetConn `{NetConn A, NetConn B} : NetConn (A + B) := {
  Read c b := match c with inl a => Read a b | inr x => Read x b end;
  Write c b := match c with inl a => Write a b | inr x => Write x b end;
  Close c := match c with inl a => Close a | inr x => Close x end
}.

Global Instance sum_PacketConn `{PacketConn A, PacketConn B}
    : PacketConn (A + B) := {
  ReadFrom c p :=
    match c with inl a => ReadFrom a p | inr x => ReadFrom x p end;
  readFrom c :=
    match c with inl a => readFrom a | inr x => readFrom x end;
  WriteTo c p addr :=
    match c with inl a => WriteTo a p addr | inr x => WriteTo x p addr end;
  PacketClose c :=
    match c with inl a => PacketClose a | inr x => PacketClose x end
}.

(** The wrappers as the handlers build them for the entry [stats]:
    [&statsConn{conn, &stats.uplink, &stats.downlink}] and
    [&statsPacketConn{conn, &stats.uplink, &stats.downlink}]. *)
Definition new_statsConn (conn : connId) (stats : loc) : statsConn connId :=
  mkstatsConn conn (stats, F_uplink) (stats, F_downlink).

Definition new_statsPacketConn (conn : connId) (stats : loc)
    : statsPacketConn connId :=
  mkstatsPacketConn conn (stats, F_uplink) (stats, F_downlink).

(** ** tun.go: the NAT table *)

(** [func (t *natTable) Set(key string, pc net.PacketConn)] *)
Definition natTable_Set (key : string) (pc : packetConnV) : M unit :=
  modifyW (set_tun (set_udpTable (insert key (ItemConn pc)))).

(** [func (t *natTable) Get(key string) net.PacketConn]; the type
    assertion of the item to a conn panics on a cond. *)
Definition natTable_Get (key : string) : M (option packetConnV) :=
  w ← getW;
  match mapping (udpTable (tun w)) !! key with
  | None => mret None
  | Some (ItemConn pc) => mret (Some pc)
  | Some (ItemCond _) => panic
  end.

(** [func (t *natTable) GetOrCreateLock(key string)], which returns the
    cond and [loaded]: a new cond is made, then [LoadOrStore] keeps the
    item already under the key or stores the new one; the type assertion
    of the item to a cond panics on a conn. *)
Definition natTable_GetOrCreateLock (key : string) : M (condId * bool) :=
  w ← getW;
  let new := nextCond w in
  _ ← modifyW (fun w => mkWorld (tun w) (mem w) (net w) (nextConn w)
                          (Pos.succ (nextCond w)) (trace w));
  match mapping (udpTable (tun w)) !! key with
  | Some (ItemCond c) => mret (c, true)
  | Some (ItemConn _) => panic
  | None =>
      _ ← modifyW (set_tun (set_udpTable (insert key (ItemCond new))));
      mret (new, false)
  end.

(** [func (t *natTable) Delete(key string)] *)
Definition natTable_Delete (key : string) : M unit :=
  modifyW (set_tun (set_udpTable (delete key))).

(** ** tun.go: what the two handlers share *)

(** Modelled from the spec: [closeIgnore] is defined in another file of
    the package; by section 7 of the specification, "closes are idempotent
    and swallow errors".  It closes each of its arguments in turn and
    returns nothing. *)
Definition closeIgnore (rs : list resource) : M unit :=
  forRange rs tt (fun _ r => emit (EvClose r)).

(** The entry of [uid], made under the write lock if the lookup under the
    read lock found none (lines 207-218 and 362-373). *)
Definition lookup_or_create_stats (uid : Z) : M loc :=
  w ← getW;
  match t_appStats (tun w) !! uid with
  | Some stats => mret stats
  | None =>
      w ← getW;
      match t_appStats (tun w) !! uid with
      | Some stats => mret stats
      | None =>
          let stats := fresh (dom (mem w)) in
          _ ← modifyW (set_mem (insert stats appStats_zero));
          _ ← modifyW (set_tun (set_appStats (insert uid stats)));
          mret stats
      end
  end.

(** The deferred function of a handler: [mine] is the live count of the
    handler's protocol, [other] the other one. *)
Definition release_stats (env : Env) (stats : loc) (mine other : field)
    : M unit :=
  n ← atomic_AddInt32 (stats, mine) (-1);
  m ← atomic_LoadInt32 (stats, other);
  if decide (int32 (n + m) = 0)
  then atomic_StoreInt64 (stats, F_deactivateAt) (Now_Unix env)
  else mret tt.

(** [session.SniffingRequest] of a flow that is not DNS; [protocols] is
    what [t.sniffing] appends. *)
Definition sniffingRequest (t : Tun2ray) (protocols : list string)
    : SniffingRequest :=
  mkSniffingRequest true (fakedns t && negb (sniffing t))
    (negb (overrideDestination t))
    ((if fakedns t then ["fakedns"%string] else []) ++
     (if sniffing t then protocols else [])).

Definition with_sniffing (t : Tun2ray) (isDns : bool)
    (protocols : list string) (ctx : Context) : Context :=
  if negb isDns && (sniffing t || fakedns t)
  then session_ContextWithContent ctx (sniffingRequest t protocols)
  else ctx.

Definition appStatus_of (env : Env) (uid : Z) : string :=
  if decide (uid = foregroundUid env \/ uid = foregroundImeUid env)
  then appStatusForeground else appStatusBackground.

(** What the UID lookup leaves in [uid], [self] and [inbound]. *)
Record uidResult := mkuidResult {
  r_uid : Z;
  r_self : bool;
  r_inbound : Inbound
}.

(** ** tun.go: NewConnection *)

(** Lines 155-184. *)
Definition NewConnection_uid (env : Env) (t : Tun2ray)
    (source destination : Destination) (inbound : Inbound) : M uidResult :=
  if dumpUid t || trafficStats t then
    let '(u, err) :=
      DumpUid env (Address_IsIPv6 (Dest_Address destination)) false
        (Address_IP (Dest_Address source)) (int32 (Dest_Port source))
        (Address_IP (Dest_Address destination))
        (int32 (Dest_Port destination)) in
    match err with
    | None =>
        let uid := uint16 u in
        let self := bool_decide (0 < uid) && bool_decide (uid = Getuid env) in
        _ ← (if debug t && negb self && bool_decide (10000 <= uid) then
               match GetUidInfo env (int32 uid) with
               | None =>
                   emit (EvInfof "[TCP] %s ==> %s"
                           [NetAddr source; NetAddr destination])
               | Some info =>
                   emit (EvInfof "[TCP][%s (%d/%s)] %s ==> %s"
                           [Label info; pretty uid; PackageName info;
                            NetAddr source; NetAddr destination])
               end
             else mret tt);
        let uid := if decide (uid < 10000) then 1000 else uid in
        mret (mkuidResult uid self
                (mkInbound (Source inbound) (Tag inbound) (uint32 uid)
                   (AppStatus inbound ++ [appStatus_of env uid])
                   (SkipFakeDNS inbound)))
    | Some _ => mret (mkuidResult 0 false inbound)
    end
  else mret (mkuidResult 0 false inbound).

(** [buf.Copy(buf.NewReader(conn), input)] is the dispatcher library's:
    it reads from [conn] until a read fails.  A used-up script fails the
    read, so the loop makes at most one read more than the script is long;
    [buf_Copy] gives it that many rounds and the loop never uses them up
    (lemma [copy_reads_returns]). *)
Fixpoint copy_reads (fuel : nat) (conn : netConn) : M unit :=
  match fuel with
  | O => panic
  | S fuel' =>
      '(n, err) ← Read conn 8192;
      match err with
      | Some _ => mret tt
      | None => copy_reads fuel' conn
      end
  end.

Definition buf_Copy (inner : connId) (conn : netConn) : M unit :=
  w ← getW;
  _ ← emit (EvCopy conn);
  copy_reads (S (length (on_Read (script_of inner w)))) conn.

(** [func (t *Tun2ray) NewConnection(source, destination v2rayNet.Destination, conn net.Conn)] *)
Definition NewConnection (env : Env) (source destination : Destination)
    (conn : connId) : M unit :=
  w ← getW;
  let t := tun w in
  let isDns :=
    bool_decide (Address_String (Dest_Address destination) = router t) in
  let inbound :=
    mkInbound (Some source) (if isDns then "dns-in" else "socks") 0 [] false in
  r ← NewConnection_uid env t source destination inbound;
  let ctx := core_WithContext context_Background in
  let ctx := session_ContextWithInbound ctx (r_inbound r) in
  let ctx := with_sniffing t isDns ["http"; "tls"]%string ctx in
  '(conn', stats) ←
    (if trafficStats t && negb (r_self r) && negb isDns then
       stats ← lookup_or_create_stats (r_uid r);
       _ ← atomic_AddInt32 (stats, F_tcpConn) 1;
       _ ← atomic_AddUint32 (stats, F_tcpConnTotal) 1;
       _ ← atomic_StoreInt64 (stats, F_deactivateAt) 0;
       mret (inr (new_statsConn conn stats) : netConn, Some stats)
     else mret (inl conn : netConn, None));
  _ ← emit (EvDispatchLink ctx destination conn');
  _ ← (match DispatchLink env ctx destination with
       | Some err => emit (EvErrorf "[TCP] dispatchLink failed: %s" err)
       | None => buf_Copy conn conn'
       end);
  _ ← closeIgnore [Res_conn conn'; Res_linkReader conn; Res_linkWriter conn'];
  match stats with
  | Some stats => release_stats env stats F_tcpConn F_udpConn
  | None => mret tt
  end.

(** ** tun.go: NewPacket *)

(** Lines 295-334. *)
Definition NewPacket_uid (env : Env) (t : Tun2ray)
    (source destination : Destination) (isDns : bool) (inbound : Inbound)
    : M uidResult :=
  if dumpUid t || trafficStats t then
    let '(u, err) :=
      DumpUid env (Address_IsIPv6 (Dest_Address source)) true
        (Address_String (Dest_Address source)) (int32 (Dest_Port source))
        (Address_String (Dest_Address destination))
        (int32 (Dest_Port destination)) in
    match err with
    | None =>
        let uid := uint16 u in
        let self := bool_decide (0 < uid) && bool_decide (uid = Getuid env) in
        _ ← (if debug t && negb self && bool_decide (1000 <= uid) then
               let tag := (if negb isDns then "UDP" else "DNS")%string in
               match GetUidInfo env (int32 uid) with
               | None =>
                   emit (EvInfof "[%s] %s ==> %s"
                           [tag; NetAddr source; NetAddr destination])
               | Some info =>
                   emit (EvInfof "[%s][%s (%d/%s)] %s ==> %s"
                           [tag; Label info; pretty uid; PackageName info;
                            NetAddr source; NetAddr destination])
               end
             else mret tt);
        let uid := if decide (uid < 10000) then 1000 else uid in
        mret (mkuidResult uid self
                (mkInbound (Source inbound) (Tag inbound) (uint32 uid)
                   (AppStatus inbound ++ [appStatus_of env uid])
                   (SkipFakeDNS inbound)))
    | Some _ => mret (mkuidResult 0 false inbound)
    end
  else mret (mkuidResult 0 false inbound).

(** The closure [sendTo] of [NewPacket]. *)
Definition sendTo (natKey : string) (destination : Destination)
    (data : bytes) : M bool :=
  conn ← natTable_Get natKey;
  match conn with
  | None => mret false
  | Some conn =>
      '(_, err) ← WriteTo conn data
                    (mkUDPAddr (Address_IP (Dest_Address destination))
                       (Dest_Port destination));
      _ ← (match err with
           | Some _ => _ ← PacketClose conn; mret tt
           | None => mret tt
           end);
      mret true
  end.

(** [addr.( *net.UDPAddr)] with its [ok]. *)
Definition as_UDPAddr (addr : option Addr) : option UDPAddr :=
  match addr with
  | Some (Addr_UDP a) => Some a
  | _ => None
  end.

(** The [writeBack] argument of [NewPacket], a callback into the TUN: the
    call goes to the trace and [result] is what the TUN answers. *)
Definition writeBack (result : bytes -> option UDPAddr -> Z * option error)
    (buffer : bytes) (addr : option UDPAddr) : M (Z * option error) :=
  _ ← emit (EvWriteBack buffer addr);
  mret (result buffer addr).

(** The loop of lines 389-405.  An upstream conn whose script is used up
    fails [readFrom], so the loop makes at most one round more than the
    script is long; [NewPacket_serve] gives it that many rounds and the
    loop never uses them up (lemma [read_loop_returns]). *)
Fixpoint read_loop (fuel : nat) (conn : packetConnV) (isDns : bool)
    (wb : bytes -> option UDPAddr -> Z * option error) : M unit :=
  match fuel with
  | O => panic
  | S fuel' =>
      '(buffer, addr, err) ← readFrom conn;
      match err with
      | Some _ => mret tt
      | None =>
          let addr := if isDns then None else addr in
          '(_, err) ← writeBack wb buffer (as_UDPAddr addr);
          match err with
          | Some _ => mret tt
          | None => read_loop fuel' conn isDns wb
          end
      end
  end.

(** The arguments of one call of [NewPacket]. *)
Record packetArgs := mkpacketArgs {
  a_source : Destination;
  a_destination : Destination;
  a_data : bytes;
  a_writeBack : bytes -> option UDPAddr -> Z * option error;
  a_closer : connId
}.

Definition natKey_of (a : packetArgs) : string := NetAddr (a_source a).
Definition lockKey_of (a : packetArgs) : string :=
  (natKey_of a +:+ "-lock")%string.

(** What [dialUDP] gave and what the lines before it computed. *)
Record dialed := mkdialed {
  d_conn : connId;
  d_isDns : bool;
  d_uid : Z;
  d_self : bool
}.

(** Lines 279-280: the owner of the lock deletes it and wakes the
    waiters. *)
Definition NewPacket_unlock (a : packetArgs) (cond : condId) : M unit :=
  _ ← natTable_Delete (lockKey_of a);
  emit (EvBroadcast cond).

(** Lines 282-359: the context and the dial; [None] is the return after a
    failed dial.  The conn of the dispatcher is a new external conn. *)
Definition NewPacket_dial (env : Env) (a : packetArgs) : M (option dialed) :=
  w ← getW;
  let t := tun w in
  let isDns :=
    bool_decide (Address_String (Dest_Address (a_destination a)) = router t) in
  let inbound :=
    mkInbound (Some (a_source a)) (if isDns then "dns-in" else "socks")
      0 [] false in
  r ← NewPacket_uid env t (a_source a) (a_destination a) isDns inbound;
  let ctx := session_ContextWithInbound context_Background (r_inbound r) in
  let ctx := with_sniffing t isDns ["quic"%string] ctx in
  _ ← emit (EvDialUDP ctx (a_destination a) (5 * 60 * 1000000000));
  match dialUDP env ctx (a_destination a) (5 * 60 * 1000000000) with
  | Some err =>
      _ ← emit (EvErrorf "[UDP] dial failed: %s" err);
      mret None
  | None =>
      w ← getW;
      let conn := nextConn w in
      _ ← modifyW (fun w => mkWorld (tun w) (mem w) (net w)
                              (Pos.succ (nextConn w)) (nextCond w) (trace w));
      mret (Some (mkdialed conn isDns (r_uid r) (r_self r)))
  end.

(** Lines 361-385: the stats of the flow and the entry of the NAT table;
    the result is the conn, wrapped or not, and the entry to release. *)
Definition NewPacket_install (a : packetArgs) (d : dialed)
    : M (packetConnV * option loc) :=
  w ← getW;
  '(conn, stats) ←
    (if trafficStats (tun w) && negb (d_self d) && negb (d_isDns d) then
       stats ← lookup_or_create_stats (d_uid d);
       _ ← atomic_AddInt32 (stats, F_udpConn) 1;
       _ ← atomic_AddUint32 (stats, F_udpConnTotal) 1;
       _ ← atomic_StoreInt64 (stats, F_deactivateAt) 0;
       mret (inr (new_statsPacketConn (d_conn d) stats) : packetConnV,
             Some stats)
     else mret (inl (d_conn d) : packetConnV, None));
  _ ← natTable_Set (natKey_of a) conn;
  mret (conn, stats).

(** Lines 387-408 and the deferred function: [go sendTo()] runs here
    before the loop, which is one of its schedules. *)
Definition NewPacket_serve (env : Env) (a : packetArgs) (d : dialed)
    (conn : packetConnV) (stats : option loc) : M unit :=
  _ ← sendTo (natKey_of a) (a_destination a) (a_data a);
  w ← getW;
  _ ← read_loop (S (length (on_readFrom (script_of (d_conn d) w)))) conn
        (d_isDns d) (a_writeBack a);
  _ ← closeIgnore [Res_packetConn conn; Res_closer (a_closer a)];
  _ ← natTable_Delete (natKey_of a);
  match stats with
  | Some stats => release_stats env stats F_udpConn F_tcpConn
  | None => mret tt
  end.

(** How a call of [NewPacket] ends when it runs alone: it returns, or it
    stays in [cond.Wait()] for want of another call to wake it. *)
Inductive outcome :=
  | Returned
  | Waiting (cond : condId).

(** [func (t *Tun2ray) NewPacket(source, destination v2rayNet.Destination,
    data []byte, writeBack func([]byte, *net.UDPAddr) (int, error),
    closer io.Closer)]. *)
Definition NewPacket (env : Env) (a : packetArgs) : M outcome :=
  sent ← sendTo (natKey_of a) (a_destination a) (a_data a);
  if (sent : bool) then mret Returned else
  '(cond, loaded) ← natTable_GetOrCreateLock (lockKey_of a);
  if (loaded : bool) then
    _ ← emit (EvWait cond);
    mret (Waiting cond)
  else
    _ ← NewPacket_unlock a cond;
    d ← NewPacket_dial env a;
    match d with
    | None => mret Returned
    | Some d =>
        '(conn, stats) ← NewPacket_install a d;
        _ ← NewPacket_serve env a d conn stats;
        mret Returned
    end.

(** Lines 274-276: a waiter that was woken retries [sendTo] and
    returns. *)
Definition NewPacket_woken (a : packetArgs) : M outcome :=
  _ ← sendTo (natKey_of a) (a_destination a) (a_data a);
  mret Returned.

(** ** Calls of NewPacket running side by side *)

(** Where a call of [NewPacket] stands: the statement it runs next. *)
Inductive pc :=
  | At_sendTo                       (* line 265 *)
  | At_GetOrCreateLock              (* line 270 *)
  | At_Wait (cond : condId)         (* line 273, blocked *)
  | At_woken (cond : condId)        (* line 274 *)
  | At_unlock (cond : condId)       (* line 279 *)
  | At_dial                         (* line 282 *)
  | At_install (d : dialed)         (* line 361 *)
  | At_serve (d : dialed) (conn : packetConnV) (stats : option loc)
                                    (* line 387 *)
  | At_return.

Record call := mkcall { c_args : packetArgs; c_pc : pc }.

(** One step of a call: the statements up to the next point where
    another call may run.  A call that finds the lock taken is in
    [cond.Wait()] at once; only [cond.Broadcast()] moves it on. *)
Definition step_call (env : Env) (c : call) : M pc :=
  let a := c_args c in
  match c_pc c with
  | At_sendTo =>
      sent ← sendTo (natKey_of a) (a_destination a) (a_data a);
      mret (if (sent : bool) then At_return else At_GetOrCreateLock)
  | At_GetOrCreateLock =>
      '(cond, loaded) ← natTable_GetOrCreateLock (lockKey_of a);
      if (loaded : bool) then _ ← emit (EvWait cond); mret (At_Wait cond)
      else mret (At_unlock cond)
  | At_Wait cond => mret (At_Wait cond)
  | At_woken cond =>
      _ ← NewPacket_woken a; mret At_return
  | At_unlock cond =>
      _ ← NewPacket_unlock a cond; mret At_dial
  | At_dial =>
      d ← NewPacket_dial env a;
      mret (match d with Some d => At_install d | None => At_return end)
  | At_install d =>
      '(conn, stats) ← NewPacket_install a d;
      mret (At_serve d conn stats)
  | At_serve d conn stats =>
      _ ← NewPacket_serve env a d conn stats; mret At_return
  | At_return => mret At_return
  end.

(** [cond.Broadcast()] wakes the calls waiting on [cond]. *)
Definition wake (cond : condId) (c : call) : call :=
  match c_pc c with
  | At_Wait cond' =>
      if decide (cond' = cond) then mkcall (c_args c) (At_woken cond) else c
  | _ => c
  end.

(** The call number [i] of the pool takes a step. *)
Definition step_pool (env : Env) (i : nat) (pool : list call)
    : M (list call) :=
  match pool !! i with
  | None => mret pool
  | Some c =>
      pc' ← step_call env c;
      let pool := <[i := mkcall (c_args c) pc']> pool in
      mret (match c_pc c with
            | At_unlock cond => wake cond <$> pool
            | _ => pool
            end)
  end.

(** The calls of the pool step in the order of the schedule. *)
Fixpoint run_schedule (env : Env) (schedule : list nat) (pool : list call)
    : M (list call) :=
  match schedule with
  | [] => mret pool
  | i :: schedule' =>
      pool' ← step_pool env i pool;
      run_schedule env schedule' pool'
  end.

(** The number of calls of [dialUDP] in a trace. *)
Fixpoint dials (tr : list event) : nat :=
  match tr with
  | [] => 0
  | EvDialUDP _ _ _ :: tr' => S (dials tr')
  | _ :: tr' => dials tr'
  end.

(** ** tun.go: the constructor *)

(** [func NewTun2ray(fd, mtu, v2ray, router, gVisor, sniffing,
    overrideDestination, fakedns, debug, dumpUid, trafficStats, pcap)].
    [setup] is the error, if any, of what the constructor asks of the
    system (the pcap directory and file, the TUN device); [fd], [mtu],
    [v2ray], [gVisor] and [pcap] only go there. *)
Definition NewTun2ray (setup : option error) (router : string)
    (sniffing overrideDestination fakedns debug dumpUid trafficStats : bool)
    : Tun2ray + error :=
  let t := mkTun2ray router (mknatTable ∅) fakedns sniffing
             overrideDestination debug dumpUid trafficStats ∅ in
  match setup with
  | Some err => inr err
  | None => inl t
  end.

(** * Notions used in the statements *)

(** Updating the entries behind a list of pointers, one after the other. *)
Definition update_all (f : appStats -> appStats) (ls : list loc)
    (m : gmap loc appStats) : gmap loc appStats :=
  foldl (fun m l => alter f l m) m ls.

(** What one iteration of the loop of [ReadAppTraffics] leaves in the
    entry and appends to [stats]. *)
Definition swap_entry (s : appStats) : appStats :=
  mkappStats (tcpConn s) (udpConn s) (tcpConnTotal s) (udpConnTotal s)
    0 0 (uint64 (uplinkTotal s + uplink s))
    (uint64 (downlinkTotal s + downlink s)) (deactivateAt s).

Definition export_entry (uid : Z) (s : appStats) : AppStats :=
  mkAppStats (int32 uid) (tcpConn s) (udpConn s)
    (int32 (tcpConnTotal s)) (int32 (udpConnTotal s))
    (int64 (uplink s)) (int64 (downlink s))
    (int64 (uint64 (uplinkTotal s + uplink s)))
    (int64 (uint64 (downlinkTotal s + downlink s)))
    (int32 (deactivateAt s)).

(** The entries of [ls] are allocated and pairwise distinct. *)
Definition entries_ok (ls : list (Z * loc)) (m : gmap loc appStats) : Prop :=
  NoDup ls.*2 /\ Forall (fun e => is_Some (m !! e.2)) ls.

(** The entries of the map are allocated and no two UIDs share one: each
    entry is made by its own [&appStats{}]. *)
Definition wf (w : World) : Prop :=
  entries_ok (map_to_list (t_appStats (tun w))) (mem w).

Global Instance wf_dec w : Decision (wf w).
Proof. unfold wf, entries_ok. apply _. Defined.

Definition ex_tun : Tun2ray :=
  mkTun2ray "1.2.3.4" (mknatTable ∅) false false false false false true
    {[ 10042 := 1%positive; 10043 := 2%positive ]}.

Definition ex_world : World :=
  mkWorld ex_tun
    {[ 1%positive := mkappStats 1 0 1 0 4096 2048 5 7 0;
       2%positive := mkappStats 0 0 1 0 10 20 5 7 99 ]}
    ∅ 1%positive 1%positive [].

(** What the first loop of [ResetAppTraffics] leaves in an entry, and the
    test it makes on it. *)
Definition zero_entry (s : appStats) : appStats :=
  mkappStats (tcpConn s) (udpConn s) (tcpConnTotal s) (udpConnTotal s)
    0 0 0 0 (deactivateAt s).

Definition idle (s : appStats) : Prop := int32 (tcpConn s + udpConn s) = 0.

Definition delete_all (uids : list Z) (m : gmap Z loc) : gmap Z loc :=
  foldl (fun m uid => delete uid m) m uids.

(** The live counts of every entry are counts: [int32] and not negative. *)
Definition live_counts_ok (w : World) : Prop :=
  map_Forall (fun _ s => 0 <= tcpConn s < 2 ^ 31 /\ 0 <= udpConn s < 2 ^ 31)
    (mem w).

Global Instance live_counts_ok_dec w : Decision (live_counts_ok w).
Proof. unfold live_counts_ok. apply _. Defined.
(** A world whose one entry has counters beyond the [int32] range. *)
Definition ex_world_large : World :=
  mkWorld
    (mkTun2ray "1.2.3.4" (mknatTable ∅) false false false false false true
       {[ 10042 := 1%positive ]})
    {[ 1%positive := mkappStats 0 0 (2 ^ 31) (2 ^ 32 - 1) 0 0 0 0 (2 ^ 31 + 5) ]}
    ∅ 1%positive 1%positive [].

(** A world with the inbound conn 7 of UID 10042 wrapped, whose next
    [Read] delivers 100 bytes along with an error, and the upstream packet
    conn 9 of the same UID, whose next two reads are a datagram of three
    bytes and an error. *)
Definition ex_statsConn : statsConn connId :=
  mkstatsConn 7%positive (1%positive, F_uplink) (1%positive, F_downlink).

Definition ex_statsPacketConn : statsPacketConn connId :=
  mkstatsPacketConn 9%positive (1%positive, F_uplink) (1%positive, F_downlink).

Definition ex_world_io : World :=
  mkWorld ex_tun
    {[ 1%positive := mkappStats 1 0 1 0 4096 2048 5 7 0;
       2%positive := mkappStats 0 0 1 0 10 20 5 7 99 ]}
    {[ 7%positive :=
         mkconnScript [(100, Some "connection reset"%string)] [] [] [];
       9%positive :=
         mkconnScript [] []
           [([Byte.x78; Byte.x79; Byte.x7a], None, None);
            ([], None, Some "timeout"%string)] [] ]}
    1%positive 1%positive [].

(** The operations on the registry: the reads and writes through the
    wrappers of an entry, and the two calls of the embedder. *)
Inductive regOp :=
  | Op_Read (conn : connId) (stat : loc) (b : Z)
  | Op_Write (conn : connId) (stat : loc) (b : bytes)
  | Op_ReadFrom (conn : connId) (stat : loc) (p : Z)
  | Op_readFrom (conn : connId) (stat : loc)
  | Op_WriteTo (conn : connId) (stat : loc) (p : bytes) (addr : UDPAddr)
  | Op_ReadAppTraffics
  | Op_ResetAppTraffics.

Definition run_op (o : regOp) : M unit :=
  match o with
  | Op_Read conn stat b => _ ← Read (new_statsConn conn stat) b; mret tt
  | Op_Write conn stat b => _ ← Write (new_statsConn conn stat) b; mret tt
  | Op_ReadFrom conn stat p =>
      _ ← ReadFrom (new_statsPacketConn conn stat) p; mret tt
  | Op_readFrom conn stat =>
      _ ← readFrom (new_statsPacketConn conn stat); mret tt
  | Op_WriteTo conn stat p addr =>
      _ ← WriteTo (new_statsPacketConn conn stat) p addr; mret tt
  | Op_ReadAppTraffics => _ ← ReadAppTraffics; mret tt
  | Op_ResetAppTraffics => ResetAppTraffics
  end.

Fixpoint run_ops (ops : list regOp) : M unit :=
  match ops with
  | [] => mret tt
  | o :: ops' => _ ← run_op o; run_ops ops'
  end.

(** The entry an operation's wrapper points to is allocated. *)
Definition op_ok (m : gmap loc appStats) (o : regOp) : Prop :=
  match o with
  | Op_Read _ stat _ | Op_Write _ stat _ | Op_ReadFrom _ stat _
  | Op_readFrom _ stat | Op_WriteTo _ stat _ _ => is_Some (m !! stat)
  | Op_ReadAppTraffics | Op_ResetAppTraffics => True
  end.

Definition is_reset (o : regOp) : Prop :=
  match o with Op_ResetAppTraffics => True | _ => False end.

(** The four byte counters hold [uint64] values. *)
Definition counters_ok (s : appStats) : Prop :=
  is_uint64 (uplink s) /\ is_uint64 (downlink s) /\
  is_uint64 (uplinkTotal s) /\ is_uint64 (downlinkTotal s).

(** No total of the entry behind [stat] wraps around while [ops] run:
    whenever [ReadAppTraffics] is about to run, each total plus its window
    is below 2^64. *)
Fixpoint no_wrap_along (stat : loc) (ops : list regOp) (w : World) : Prop :=
  match ops with
  | [] => True
  | o :: ops' =>
      (o = Op_ReadAppTraffics ->
       forall s, mem w !! stat = Some s ->
         uplinkTotal s + uplink s < 2 ^ 64 /\
         downlinkTotal s + downlink s < 2 ^ 64) /\
      (forall w1, run_op o w = Some (tt, w1) -> no_wrap_along stat ops' w1)
  end.

(** How an entry may differ after a step that adds to one of its
    windows. *)
Definition window_step (s s1 : appStats) : Prop :=
  uplinkTotal s1 = uplinkTotal s /\ downlinkTotal s1 = downlinkTotal s /\
  (counters_ok s -> counters_ok s1).


(** A step that leaves the bridge and the totals of every entry as they
    were. *)
Definition keeps_totals (w w1 : World) : Prop :=
  tun w1 = tun w /\
  forall l s, mem w !! l = Some s ->
    exists s1, mem w1 !! l = Some s1 /\ window_step s s1.


(** A run on [ex_world_io]: a stream read of UID 10042, a snapshot, a
    datagram read of the same UID, a snapshot. *)
Definition ex_ops : list regOp :=
  [Op_Read 7%positive 1%positive 4096; Op_ReadAppTraffics;
   Op_readFrom 9%positive 1%positive; Op_ReadAppTraffics].

(** Two datagrams of the app with UID 10042 from 10.0.0.2:6000 to
    8.8.8.8:53, a bridge with every option on and nothing in its tables,
    and a dispatcher that takes every flow; in [ex_env_reject] it rejects
    every flow. *)
Definition ex_udp_source : Destination :=
  mkDestination Network_UDP (mkAddress "10.0.0.2" "10.0.0.2" false) 6000.
Definition ex_udp_destination : Destination :=
  mkDestination Network_UDP (mkAddress "8.8.8.8" "8.8.8.8" false) 53.

Definition ex_packet (data : bytes) : packetArgs :=
  mkpacketArgs ex_udp_source ex_udp_destination data
    (fun b _ => (len b, None)) 30%positive.

Definition ex_env : Env :=
  mkEnv (fun _ _ _ _ _ _ => (10042, None)) (fun _ => None)
    10100 10200 10201 (fun _ _ => None) (fun _ _ _ => None) 1700000000.

Definition ex_env_reject : Env :=
  mkEnv (fun _ _ _ _ _ _ => (10042, None)) (fun _ => None)
    10100 10200 10201
    (fun _ _ => Some "rejected"%string)
    (fun _ _ _ => Some "rejected"%string) 1700000000.

Definition ex_bridge : World :=
  mkWorld
    (mkTun2ray "1.2.3.4" (mknatTable ∅) true true false false true true ∅)
    ∅ ∅ 20%positive 1%positive [].

Definition ex_udp_context : Context :=
  mkContext false
    (Some (mkInbound (Some ex_udp_source) "socks" 10042 ["background"%string]
             false))
    (Some (mkSniffingRequest true false true ["fakedns"; "quic"]%string)).

(** How a call that has stopped stepping ended. *)
Definition outcome_of (p : pc) : option outcome :=
  match p with
  | At_return => Some Returned
  | At_Wait cond => Some (Waiting cond)
  | _ => None
  end.

(** A step that only talks to the collaborators: the entries and the
    bridge are as before and the trace is longer. *)
Definition io_only (w w1 : World) : Prop :=
  mem w1 = mem w /\ tun w1 = tun w /\ exists tr, trace w1 = trace w ++ tr.

(** A step that keeps every entry allocated and the registry well formed,
    and makes the trace longer. *)
Definition grows (w w1 : World) : Prop :=
  (forall l, is_Some (mem w !! l) -> is_Some (mem w1 !! l)) /\
  (wf w -> wf w1) /\
  exists tr, trace w1 = trace w ++ tr.

Definition is_Infof (e : event) : Prop :=
  match e with EvInfof _ _ => True | _ => False end.

(** The entries a conn value points to are allocated. *)
Definition netConn_ok (m : gmap loc appStats) (conn : netConn) : Prop :=
  match conn with
  | inl _ => True
  | inr sc => is_Some (m !! (sc_uplink sc).1) /\ is_Some (m !! (sc_downlink sc).1)
  end.

Definition packetConn_ok (m : gmap loc appStats) (conn : packetConnV) : Prop :=
  match conn with
  | inl _ => True
  | inr sc =>
      is_Some (m !! (spc_uplink sc).1) /\ is_Some (m !! (spc_downlink sc).1)
  end.

(** The external conn under a conn value. *)
Definition netConn_inner (conn : netConn) : connId :=
  match conn with inl c => c | inr sc => Conn sc end.

Definition packetConn_inner (conn : packetConnV) : connId :=
  match conn with inl c => c | inr sc => packetConn sc end.

(** A TCP flow and a datagram of the same app to the router address
    1.2.3.4, the sentinel of [ex_bridge]. *)
Definition ex_tcp_source : Destination :=
  mkDestination Network_TCP (mkAddress "10.0.0.2" "10.0.0.2" false) 5555.
Definition ex_router_tcp : Destination :=
  mkDestination Network_TCP (mkAddress "1.2.3.4" "1.2.3.4" false) 53.
Definition ex_router_udp : Destination :=
  mkDestination Network_UDP (mkAddress "1.2.3.4" "1.2.3.4" false) 53.

Definition ex_dns_packet : packetArgs :=
  mkpacketArgs ex_udp_source ex_router_udp [Byte.x01]
    (fun b _ => (len b, None)) 30%positive.

(** An entry whose uplink total is one byte short of 2^64. *)
Definition ex_world_full : World :=
  mkWorld
    (mkTun2ray "1.2.3.4" (mknatTable ∅) false false false false false true
       {[ 10042 := 1%positive ]})
    {[ 1%positive := mkappStats 1 0 1 0 2 0 (2 ^ 64 - 1) 0 0 ]}
    ∅ 1%positive 1%positive [].

(** The last character of a string. *)
Fixpoint last_char (s : string) : option Ascii.ascii :=
  match s with
  | EmptyString => None
  | String c EmptyString => Some c
  | String _ s' => last_char s'
  end.

(** [n] calls of [GetOrCreateLock] for one key, one after the other, and
    what each of them is answered. *)
Fixpoint lock_calls (n : nat) (key : string) : M (list (condId * bool)) :=
  match n with
  | O => mret []
  | S n' =>
      r ← natTable_GetOrCreateLock key;
      rs ← lock_calls n' key;
      mret (r :: rs)
  end.

(** The items of the NAT table are of the kind their key asks for: a
    source key holds a conn, a lock key holds a cond. *)
Definition table_typed (m : gmap string natItem) : Prop :=
  forall a : packetArgs,
    (forall c, m !! natKey_of a ≠ Some (ItemCond c)) /\
    (forall pc, m !! lockKey_of a ≠ Some (ItemConn pc)).

(** What the next [WriteTo] of [data] on the external conn [c] returns. *)
Definition next_WriteTo (c : connId) (data : bytes) (w : World)
    : Z * option error :=
  match on_WriteTo (script_of c w) with
  | r :: _ => r
  | [] => (len data, None)
  end.

(** The address [sendTo] writes to. *)
Definition sendTo_addr (destination : Destination) : UDPAddr :=
  mkUDPAddr (Address_IP (Dest_Address destination)) (Dest_Port destination).

(** [ex_bridge] with the flow of 10.0.0.2:6000 set up on the upstream conn
    20, whose next write fails; and [ex_bridge] with the lock of that
    source taken. *)
Definition ex_bridge_flow : World :=
  mkWorld
    (mkTun2ray "1.2.3.4"
       (mknatTable {[ "10.0.0.2:6000"%string := ItemConn (inl 20%positive) ]})
       true true false false true true ∅)
    ∅
    {[ 20%positive :=
         mkconnScript [] [] [] [(0, Some "broken pipe"%string)] ]}
    21%positive 1%positive [].

Definition ex_bridge_locked : World :=
  mkWorld
    (mkTun2ray "1.2.3.4"
       (mknatTable {[ "10.0.0.2:6000-lock"%string := ItemCond 1%positive ]})
       true true false false true true ∅)
    ∅ ∅ 20%positive 2%positive [].

(** What [sendTo] asks of the conns: the write to the conn under the key,
    and its close if the write fails. *)
Definition sendTo_events (key : string) (destination : Destination)
    (data : bytes) (w : World) : list event :=
  match mapping (udpTable (tun w)) !! key with
  | Some (ItemConn conn) =>
      EvWriteTo (packetConn_inner conn) data (sendTo_addr destination) ::
      match (next_WriteTo (packetConn_inner conn) data w).2 with
      | Some _ => [EvConnClose (packetConn_inner conn)]
      | None => []
      end
  | _ => []
  end.

(** The calls of [writeBack] for the datagrams an upstream conn delivers:
    one for each datagram read, in their order, up to the first read that
    fails or the first [writeBack] that fails. *)
Fixpoint forwarded (isDns : bool)
    (wb : bytes -> option UDPAddr -> Z * option error)
    (script : list (bytes * option Addr * option error)) : list event :=
  match script with
  | [] => []
  | (buffer, addr, Some _) :: _ => []
  | (buffer, addr, None) :: rest =>
      let to := as_UDPAddr (if isDns then None else addr) in
      EvWriteBack buffer to ::
      match (wb buffer to).2 with
      | Some _ => []
      | None => forwarded isDns wb rest
      end
  end.

(** The call of [writeBack] for one datagram of an upstream conn. *)
Definition writeBack_of (isDns : bool)
    (r : bytes * option Addr * option error) : event :=
  EvWriteBack r.1.1 (as_UDPAddr (if isDns then None else r.1.2)).





(** The entry the handlers use for [uid]: the one of the map, or a new
    one; and its contents when the handler gets it. *)
Definition stats_loc (w : World) (uid : Z) : loc :=
  match t_appStats (tun w) !! uid with
  | Some l => l
  | None => fresh (dom (mem w))
  end.

Definition entry_of (w : World) (uid : Z) : appStats :=
  match t_appStats (tun w) !! uid with
  | Some l => default appStats_zero (mem w !! l)
  | None => appStats_zero
  end.

(** What the three atomic operations at the start of a counted flow make
    of its entry, and what the deferred function makes of it at the end;
    [live] and [total] are the counters of the flow's protocol, [other]
    the live counter of the other one. *)
Definition attach_entry (live total : field) (s : appStats) : appStats :=
  set_field F_deactivateAt 0
    (set_field total (uint32 (get_field total s + 1))
       (set_field live (int32 (get_field live s + 1)) s)).

Definition release_entry (now : Z) (live other : field) (s : appStats)
    : appStats :=
  let n := int32 (get_field live s + -1) in
  if decide (int32 (n + get_field other s) = 0)
  then set_field F_deactivateAt now (set_field live n s)
  else set_field live n s.

(** The bytes [buf.Copy] takes from a conn: those of its reads up to and
    with the first one that reports an error. *)
Fixpoint copied (script : list (Z * option error)) : Z :=
  match script with
  | [] => 0
  | (n, Some _) :: _ => n
  | (n, None) :: rest => n + copied rest
  end.

(** The inbound a handler starts from, and the context [NewConnection]
    hands to the dispatcher for the inbound [i]. *)
Definition inbound_of (t : Tun2ray) (source destination : Destination)
    : Inbound :=
  mkInbound (Some source)
    (if bool_decide (Address_String (Dest_Address destination) = router t)
     then "dns-in" else "socks") 0 [] false.

Definition tcp_context (t : Tun2ray) (destination : Destination)
    (i : Inbound) : Context :=
  with_sniffing t
    (bool_decide (Address_String (Dest_Address destination) = router t))
    ["http"; "tls"]%string
    (session_ContextWithInbound (core_WithContext context_Background) i).

(** Whether the flow of a lookup result is counted, and the conn the
    handler goes on with. *)
Definition counted (t : Tun2ray) (destination : Destination)
    (r : uidResult) : bool :=
  trafficStats t && negb (r_self r) &&
  negb (bool_decide (Address_String (Dest_Address destination) = router t)).

Definition tcp_conn (w : World) (destination : Destination) (r : uidResult)
    (conn : connId) : netConn :=
  if counted (tun w) destination r
  then inr (new_statsConn conn (stats_loc w (r_uid r)))
  else inl conn.

(** The configuration of the bridge: what the constructor sets and no
    handler assigns. *)
Definition flags (t : Tun2ray) : string * bool * bool * bool * bool * bool * bool :=
  (router t, fakedns t, sniffing t, overrideDestination t, debug t,
   dumpUid t, trafficStats t).

(** The UID lookups of the two handlers, by their arguments, and what the
    handlers make of the answer: the UID the flow counts for, whether the
    flow is the process's own, and the inbound. *)
Definition tcp_lookup (env : Env) (source destination : Destination)
    : Z * option error :=
  DumpUid env (Address_IsIPv6 (Dest_Address destination)) false
    (Address_IP (Dest_Address source)) (int32 (Dest_Port source))
    (Address_IP (Dest_Address destination)) (int32 (Dest_Port destination)).

Definition udp_lookup (env : Env) (source destination : Destination)
    : Z * option error :=
  DumpUid env (Address_IsIPv6 (Dest_Address source)) true
    (Address_String (Dest_Address source)) (int32 (Dest_Port source))
    (Address_String (Dest_Address destination))
    (int32 (Dest_Port destination)).

Definition clamp_uid (uid : Z) : Z := if decide (uid < 10000) then 1000 else uid.

Definition flow_result (env : Env) (t : Tun2ray) (lookup : Z * option error)
    (inbound : Inbound) : uidResult :=
  if dumpUid t || trafficStats t then
    match lookup.2 with
    | None =>
        let uid := clamp_uid (uint16 lookup.1) in
        mkuidResult uid
          (bool_decide (0 < uint16 lookup.1) &&
           bool_decide (uint16 lookup.1 = Getuid env))
          (mkInbound (Source inbound) (Tag inbound) (uint32 uid)
             (AppStatus inbound ++ [appStatus_of env uid])
             (SkipFakeDNS inbound))
    | Some _ => mkuidResult 0 false inbound
    end
  else mkuidResult 0 false inbound.

(** A registry with the entry 5 of UID 10042, which has one UDP flow
    live, and the inbound conn 7, whose reads deliver 100 and 50 bytes and
    then fail with 7 bytes. *)
Definition ex_bridge_tcp : World :=
  mkWorld
    (mkTun2ray "1.2.3.4" (mknatTable ∅) true true false false true true
       {[ 10042 := 5%positive ]})
    {[ 5%positive := mkappStats 0 1 3 4 10 20 30 40 0 ]}
    {[ 7%positive :=
         mkconnScript [(100, None); (50, None); (7, Some "reset"%string)]
           [] [] [] ]}
    20%positive 1%positive [].

Definition ex_tcp_destination : Destination :=
  mkDestination Network_TCP (mkAddress "93.184.216.34" "93.184.216.34" false)
    443.

(** A bridge that keeps no stats. *)
Definition ex_bridge_off : World :=
  mkWorld
    (mkTun2ray "1.2.3.4" (mknatTable ∅) true true false false true false ∅)
    ∅ ∅ 20%positive 1%positive [].

(** What a handler's UID lookup may come to, for the inbound it started
    from. *)
Definition uid_outcome (env : Env) (inbound : Inbound) (r : uidResult)
    : Prop :=
  (r_uid r = 0 \/ r_uid r = 1000 \/ 10000 <= r_uid r < 65536) /\
  Source (r_inbound r) = Source inbound /\
  Tag (r_inbound r) = Tag inbound /\
  (r_uid r = 0 -> r_self r = false /\ r_inbound r = inbound) /\
  (r_uid r ≠ 0 ->
   Inbound_Uid (r_inbound r) = r_uid r /\
   AppStatus (r_inbound r) =
     AppStatus inbound ++
     [if decide (r_uid r = foregroundUid env \/ r_uid r = foregroundImeUid env)
      then appStatusForeground else appStatusBackground]) /\
  (r_self r = true ->
   0 < Getuid env < 65536 /\ r_uid r = clamp_uid (Getuid env)).

(** The context [NewPacket] dials with for the inbound [i]. *)
Definition udp_context (t : Tun2ray) (destination : Destination)
    (i : Inbound) : Context :=
  with_sniffing t
    (bool_decide (Address_String (Dest_Address destination) = router t))
    ["quic"%string]
    (session_ContextWithInbound context_Background i).

(** What a write through the wrapper makes of the entry, by the result
    of the write; and what the reads of the loop of [NewPacket] make of
    it. *)
Definition wrote (r : Z * option error) (s : appStats) : appStats :=
  match r.2 with
  | None => set_field F_uplink (uint64 (uplink s + r.1)) s
  | Some _ => s
  end.

Fixpoint received_into (isDns : bool)
    (wb : bytes -> option UDPAddr -> Z * option error)
    (script : list (bytes * option Addr * option error)) (s : appStats)
    : appStats :=
  match script with
  | (buffer, addr, None) :: rest =>
      let s' := set_field F_downlink (uint64 (downlink s + len buffer)) s in
      match (wb buffer (as_UDPAddr (if isDns then None else addr))).2 with
      | Some _ => s'
      | None => received_into isDns wb rest s'
      end
  | _ => s
  end.


Definition udp_conn (w : World) (destination : Destination) (r : uidResult)
    (conn : connId) : packetConnV :=
  if counted (tun w) destination r
  then inr (new_statsPacketConn conn (stats_loc w (r_uid r)))
  else inl conn.


(** What the context of a flow to [destination] must carry for
    [protocols], the protocols the handler sniffs: no sniffing request for
    a flow to the router or when both options are off, and otherwise the
    request the options spell out. *)
Definition sniffing_ok (t : Tun2ray) (destination : Destination)
    (protocols : list string) (ctx : Context) : Prop :=
  match ctx_content ctx with
  | None =>
      Address_String (Dest_Address destination) = router t \/
      (sniffing t = false /\ fakedns t = false)
  | Some req =>
      Address_String (Dest_Address destination) ≠ router t /\
      (sniffing t = true \/ fakedns t = true) /\
      Enabled req = true /\
      (MetadataOnly req = true <-> fakedns t = true /\ sniffing t = false) /\
      (RouteOnly req = true <-> overrideDestination t = false) /\
      OverrideDestinationForProtocol req =
        (if fakedns t then ["fakedns"%string] else []) ++
        (if sniffing t then protocols else []) /\
      (MetadataOnly req = true ->
       OverrideDestinationForProtocol req = ["fakedns"%string])
  end.

(** The calls the TUN and the embedder make on a bridge, and a run of
    them one after the other. *)
Inductive apiCall :=
  | Call_NewConnection (source destination : Destination) (conn : connId)
  | Call_NewPacket (a : packetArgs)
  | Call_ReadAppTraffics
  | Call_ResetAppTraffics
  | Call_GetTrafficStatsEnabled.

Definition run_call (env : Env) (c : apiCall) : M unit :=
  match c with
  | Call_NewConnection source destination conn =>
      NewConnection env source destination conn
  | Call_NewPacket a => _ ← NewPacket env a; mret tt
  | Call_ReadAppTraffics => _ ← ReadAppTraffics; mret tt
  | Call_ResetAppTraffics => ResetAppTraffics
  | Call_GetTrafficStatsEnabled => _ ← GetTrafficStatsEnabled; mret tt
  end.

Fixpoint run_calls (env : Env) (calls : list apiCall) : M unit :=
  match calls with
  | [] => mret tt
  | c :: calls' => _ ← run_call env c; run_calls env calls'
  end.

(** A run on a new bridge: a TCP flow, a snapshot, a datagram, a reset
    and a snapshot. *)
Definition ex_calls : list apiCall :=
  [Call_NewConnection ex_tcp_source ex_tcp_destination 7%positive;
   Call_ReadAppTraffics;
   Call_NewPacket (ex_packet [Byte.x01]);
   Call_ResetAppTraffics;
   Call_ReadAppTraffics].


(** An environment where the flows are the process's own: the looked-up
    UID is [os.Getuid()]. *)
Definition ex_env_self : Env :=
  mkEnv (fun _ _ _ _ _ _ => (10100, None)) (fun _ => None)
    10100 10200 10201 (fun _ _ => None) (fun _ _ _ => None) 1700000000.

(** * Properties *)


(** ** Machine integers *)

Lemma uint64_range x : is_uint64 (uint64 x).
Proof. unfold is_uint64, uint64. apply Z.mod_pos_bound. lia. Qed.

Lemma uint64_id x : is_uint64 x -> uint64 x = x.
Proof. unfold is_uint64, uint64. intros. apply Z.mod_small. lia. Qed.

Lemma uint64_idem x : uint64 (uint64 x) = uint64 x.
Proof. apply uint64_id, uint64_range. Qed.

Lemma int32_range x : is_int32 (int32 x).
Proof.
  unfold is_int32, int32.
  pose proof (Z.mod_pos_bound (x + 2 ^ 31) (2 ^ 32)). lia.
Qed.

Lemma int32_id x : is_int32 x -> int32 x = x.
Proof.
  unfold is_int32, int32. intros.
  rewrite Z.mod_small; lia.
Qed.

Lemma int64_id x : is_int64 x -> int64 x = x.
Proof.
  unfold is_int64, int64. intros.
  rewrite Z.mod_small; lia.
Qed.

(** ** Fields and atomic accesses *)

Lemma get_set_field_eq f v s : get_field f (set_field f v s) = v.
Proof. by destruct s, f. Qed.

Lemma get_set_field_ne f g v s :
  f ≠ g -> get_field g (set_field f v s) = get_field g s.
Proof. by destruct s, f, g. Qed.

Lemma atomically_run {A} (p : ptr) (f : Z -> A * Z) w s :
  mem w !! p.1 = Some s ->
  atomically p f w =
    Some ((f (get_field p.2 s)).1,
          set_mem (insert p.1 (set_field p.2 (f (get_field p.2 s)).2 s)) w).
Proof. intros E. unfold atomically. rewrite E. by destruct (f _). Qed.

(** ** Loops over the entries *)

Lemma update_all_notin f ls m l :
  l ∉ ls -> update_all f ls m !! l = m !! l.
Proof.
  revert m. induction ls as [|l' ls IH]; intros m Hl; [done|].
  apply not_elem_of_cons in Hl as [Hne Hl]. simpl.
  rewrite IH by done. by apply lookup_alter_ne.
Qed.

Lemma update_all_in f ls m l :
  NoDup ls -> l ∈ ls -> update_all f ls m !! l = f <$> m !! l.
Proof.
  revert m. induction ls as [|l' ls IH]; intros m Hnd Hl.
  - by apply elem_of_nil in Hl.
  - apply NoDup_cons in Hnd as [Hnotin Hnd]. simpl.
    apply elem_of_cons in Hl as [->|Hl].
    + rewrite update_all_notin by done. apply lookup_alter_eq.
    + rewrite IH by done. rewrite lookup_alter_ne; [done|].
      intros ->. contradiction.
Qed.

Lemma update_all_dom f ls m l :
  is_Some (update_all f ls m !! l) <-> is_Some (m !! l).
Proof.
  revert m. induction ls as [|l' ls IH]; intros m; [done|]. simpl.
  rewrite IH. destruct (decide (l' = l)) as [->|Hne].
  - rewrite lookup_alter_eq. by rewrite fmap_is_Some.
  - by rewrite lookup_alter_ne.
Qed.

Lemma ReadAppTraffics_body_run stats uid stat w s :
  mem w !! stat = Some s ->
  ReadAppTraffics_body stats (uid, stat) w =
    Some (stats ++ [export_entry uid s], set_mem (alter swap_entry stat) w).
Proof.
  intros E. unfold ReadAppTraffics_body, atomic_SwapUint64, atomic_AddUint64.
  unfold mbind, M_bind, deref. rewrite E.
  erewrite atomically_run by (simpl; exact E). simpl.
  erewrite atomically_run by (simpl; apply lookup_insert_eq). simpl.
  erewrite atomically_run by (simpl; apply lookup_insert_eq). simpl.
  erewrite atomically_run by (simpl; apply lookup_insert_eq). simpl.
  unfold mret, M_ret. destruct s; simpl. do 2 f_equal.
  destruct w; unfold set_mem; simpl in *. f_equal.
  rewrite !insert_insert_eq. symmetry.
  apply map_eq. intros l. destruct (decide (stat = l)) as [->|Hne].
  - by rewrite lookup_alter_eq, lookup_insert_eq, E.
  - by rewrite lookup_alter_ne, lookup_insert_ne.
Qed.

Lemma entries_ok_cons uid stat ls m :
  entries_ok ((uid, stat) :: ls) m <->
  (stat ∉ ls.*2) /\ is_Some (m !! stat) /\ entries_ok ls m.
Proof.
  unfold entries_ok. rewrite fmap_cons, NoDup_cons, Forall_cons. simpl.
  tauto.
Qed.

Lemma entries_ok_alter f stat ls m :
  entries_ok ls m -> entries_ok ls (alter f stat m).
Proof.
  intros [Hnd Hall]. split; [done|].
  eapply Forall_impl; [exact Hall|]. intros e He.
  destruct (decide (stat = e.2)) as [->|Hne].
  - rewrite lookup_alter_eq. by apply fmap_is_Some.
  - by rewrite lookup_alter_ne.
Qed.

Lemma ReadAppTraffics_loop ls : forall stats w,
  entries_ok ls (mem w) ->
  forRange ls stats ReadAppTraffics_body w =
    Some (stats ++ ((fun e => export_entry e.1 (mem w !!! e.2)) <$> ls),
          set_mem (update_all swap_entry ls.*2) w).
Proof.
  induction ls as [|[uid stat] ls IH]; intros stats w Hok.
  - simpl. unfold mret, M_ret. rewrite app_nil_r. by destruct w.
  - apply entries_ok_cons in Hok as (Hnotin & [s Hs] & Hok).
    cbn [forRange]. unfold mbind, M_bind.
    rewrite (ReadAppTraffics_body_run _ _ _ _ s Hs).
    fold (@mbind M _). rewrite IH by (by apply entries_ok_alter).
    f_equal. f_equal.
    rewrite <- app_assoc. f_equal. rewrite fmap_cons. simpl. f_equal.
    { by rewrite (lookup_total_correct _ _ _ Hs). }
    apply list_fmap_ext. intros i e He. f_equal.
    assert (stat ≠ e.2) as Hne.
    { intros ->. apply Hnotin. apply list_elem_of_fmap.
      exists e. split; [done|]. by eapply list_elem_of_lookup_2. }
    unfold lookup_total, map_lookup_total.
    by rewrite lookup_alter_ne.
Qed.

Lemma wf_lookup w uid stat :
  wf w -> t_appStats (tun w) !! uid = Some stat ->
  (stat ∈ (map_to_list (t_appStats (tun w))).*2) /\ is_Some (mem w !! stat).
Proof.
  intros [_ Hall] Hu. apply elem_of_map_to_list in Hu.
  split.
  - apply list_elem_of_fmap. by exists (uid, stat).
  - by apply (proj1 (Forall_forall _ _) Hall (uid, stat)).
Qed.

Lemma emit_loop (stats : list AppStats) : forall w,
  forRange stats tt (fun _ stat => emit (EvUpdateStats stat)) w =
    Some (tt, set_trace (fun tr => tr ++ (EvUpdateStats <$> stats)) w).
Proof.
  induction stats as [|e stats IH]; intros w.
  - simpl. unfold mret, M_ret, set_trace. rewrite app_nil_r. by destruct w.
  - cbn [forRange]. unfold mbind, M_bind, emit, modifyW.
    fold (@mbind M _). rewrite IH. unfold set_trace. simpl.
    by rewrite <- app_assoc.
Qed.

Lemma ReadAppTraffics_run w :
  trafficStats (tun w) = true -> wf w ->
  ReadAppTraffics w =
    Some (None,
          set_trace (fun tr => tr ++ (EvUpdateStats <$>
                      ((fun e => export_entry e.1 (mem w !!! e.2)) <$>
                         map_to_list (t_appStats (tun w)))))
            (set_mem (update_all swap_entry
                        (map_to_list (t_appStats (tun w))).*2) w)).
Proof.
  intros Hon Hwf. unfold ReadAppTraffics, mbind, M_bind, getW.
  rewrite Hon. simpl.
  rewrite ReadAppTraffics_loop by exact Hwf.
  by rewrite emit_loop.
Qed.

Lemma ReadAppTraffics_off w :
  trafficStats (tun w) = false -> ReadAppTraffics w = Some (None, w).
Proof.
  intros Hoff. unfold ReadAppTraffics, mbind, M_bind, getW.
  by rewrite Hoff.
Qed.

Lemma wf_update_all f w ls :
  wf w -> wf (set_trace (fun tr => tr ++ ls)
               (set_mem (update_all f (map_to_list (t_appStats (tun w))).*2) w)).
Proof.
  intros [Hnd Hall]. split; [done|]. simpl.
  eapply Forall_impl; [exact Hall|]. intros e He.
  by apply update_all_dom.
Qed.

(** ** ReadAppTraffics *)

(** C1.  With the stats enabled, [ReadAppTraffics] returns nil after
    handing the listener one record per entry.  For every entry it swaps
    the two window counters to zero and adds what it swapped out to the
    totals (in [uint64]); the record carries the swapped-out windows and
    the totals as read after the add.  So every reported entry is left with
    both windows zero, and a second call with nothing in between reports
    zero windows and the same totals for it. *)
Theorem ReadAppTraffics_swap_then_add (w : World) :
  trafficStats (tun w) = true -> wf w ->
  exists w1 w2 exports1 exports2,
    ReadAppTraffics w = Some (None, w1) /\
    trace w1 = trace w ++ (EvUpdateStats <$> exports1) /\
    ReadAppTraffics w1 = Some (None, w2) /\
    trace w2 = trace w1 ++ (EvUpdateStats <$> exports2) /\
    tun w1 = tun w /\
    length exports1 = size (t_appStats (tun w)) /\
    (forall uid stat s,
        t_appStats (tun w) !! uid = Some stat -> mem w !! stat = Some s ->
        exists s1 e1 e2,
          mem w1 !! stat = Some s1 /\
          uplink s1 = 0 /\ downlink s1 = 0 /\
          uplinkTotal s1 = uint64 (uplinkTotal s + uplink s) /\
          downlinkTotal s1 = uint64 (downlinkTotal s + downlink s) /\
          e1 ∈ exports1 /\ Uid e1 = int32 uid /\
          Uplink e1 = int64 (uplink s) /\
          Downlink e1 = int64 (downlink s) /\
          UplinkTotal e1 = int64 (uplinkTotal s1) /\
          DownlinkTotal e1 = int64 (downlinkTotal s1) /\
          e2 ∈ exports2 /\ Uid e2 = int32 uid /\
          Uplink e2 = 0 /\ Downlink e2 = 0 /\
          UplinkTotal e2 = UplinkTotal e1 /\
          DownlinkTotal e2 = DownlinkTotal e1) /\
    (forall e, e ∈ exports1 ->
        exists uid stat s1,
          t_appStats (tun w) !! uid = Some stat /\ Uid e = int32 uid /\
          mem w1 !! stat = Some s1 /\ uplink s1 = 0 /\ downlink s1 = 0).
Proof.
  intros Hon Hwf.
  pose proof (ReadAppTraffics_run w Hon Hwf) as Hrun1.
  set (ents := map_to_list (t_appStats (tun w))) in *.
  set (exports1 := (fun e => export_entry e.1 (mem w !!! e.2)) <$> ents) in *.
  set (w1 := set_trace _ _) in Hrun1.
  assert (wf w1) as Hwf1 by (by apply wf_update_all).
  assert (tun w1 = tun w) as Htun by done.
  assert (trafficStats (tun w1) = true) as Hon1 by (by rewrite Htun).
  pose proof (ReadAppTraffics_run w1 Hon1 Hwf1) as Hrun2.
  rewrite Htun in Hrun2. fold ents in Hrun2.
  set (exports2 := (fun e => export_entry e.1 (mem w1 !!! e.2)) <$> ents) in *.
  assert (forall uid stat s,
             t_appStats (tun w) !! uid = Some stat -> mem w !! stat = Some s ->
             mem w1 !! stat = Some (swap_entry s)) as Hafter.
  { intros uid stat s Hu Hs.
    destruct (wf_lookup w uid stat Hwf Hu) as [Hin _].
    destruct Hwf as [Hnd _]. simpl.
    by rewrite update_all_in, Hs. }
  eexists w1, _, exports1, exports2.
  split; [exact Hrun1|]. split; [done|].
  split; [exact Hrun2|]. split; [done|]. split; [done|].
  split; [|split].
  - unfold exports1, ents. by rewrite length_fmap, length_map_to_list.
  - intros uid stat s Hu Hs.
    pose proof (Hafter uid stat s Hu Hs) as Hs1.
    assert ((uid, stat) ∈ ents) as Hin by (by apply elem_of_map_to_list).
    exists (swap_entry s), (export_entry uid s),
      (export_entry uid (swap_entry s)).
    split; [done|]. do 4 (split; [done|]).
    split.
    { apply list_elem_of_fmap. exists (uid, stat). split; [|done].
      simpl. by rewrite (lookup_total_correct _ _ _ Hs). }
    do 5 (split; [done|]).
    split.
    { apply list_elem_of_fmap. exists (uid, stat). split; [|done].
      simpl. by rewrite (lookup_total_correct _ _ _ Hs1). }
    split; [done|]. split; [done|]. split; [done|].
    simpl. by rewrite !Z.add_0_r, !uint64_idem.
  - intros e He. apply list_elem_of_fmap in He as ([uid stat] & -> & Hin).
    apply elem_of_map_to_list in Hin.
    destruct (wf_lookup w uid stat Hwf Hin) as [_ [s Hs]].
    exists uid, stat, (swap_entry s).
    split; [done|]. split; [done|]. split; [by eapply Hafter|]. done.
Qed.

(** The example worlds are well formed. *)
Lemma ex_world_wf : wf ex_world.
Proof. apply (bool_decide_unpack _). vm_compute. exact I. Defined.

(** The theorem on [ex_world]. *)
Lemma ReadAppTraffics_swap_then_add_witness :
  trafficStats (tun ex_world) = true /\ wf ex_world /\
  exists w1 w2,
    ReadAppTraffics ex_world = Some (None, w1) /\
    ReadAppTraffics w1 = Some (None, w2).
Proof.
  split; [reflexivity|]. split; [exact ex_world_wf|].
  destruct (ReadAppTraffics_swap_then_add ex_world eq_refl ex_world_wf)
    as (w1 & w2 & _ & _ & H1 & _ & H2 & _).
  by exists w1, w2.
Defined.


(** C3 fails on the code: [ReadAppTraffics] has no second pass.  The entry
    of UID 10043 has no live flow and is still in the map after the call. *)
Lemma ReadAppTraffics_keeps_idle_entry :
  exists stat s w1,
    t_appStats (tun ex_world) !! 10043 = Some stat /\
    mem ex_world !! stat = Some s /\
    tcpConn s = 0 /\ udpConn s = 0 /\
    ReadAppTraffics ex_world = Some (None, w1) /\
    t_appStats (tun w1) !! 10043 = Some stat.
Proof.
  exists 2%positive, (mkappStats 0 0 1 0 10 20 5 7 99). eexists.
  split; [reflexivity|]. split; [reflexivity|].
  split; [reflexivity|]. split; [reflexivity|].
  split; [vm_compute; reflexivity|]. reflexivity.
Qed.

(** C3, amended.  [ReadAppTraffics] removes nothing: it returns nil and
    leaves the app-stats map as it was, so the entries with a live flow
    remain and so do the entries whose live counts are both zero. *)
Theorem ReadAppTraffics_keeps_map (w : World) :
  wf w ->
  exists w1,
    ReadAppTraffics w = Some (None, w1) /\
    t_appStats (tun w1) = t_appStats (tun w).
Proof.
  intros Hwf. destruct (trafficStats (tun w)) eqn:Hon.
  - eexists. split; [by apply ReadAppTraffics_run|]. done.
  - exists w. split; [by apply ReadAppTraffics_off|]. done.
Qed.

(** The theorem on [ex_world]. *)
Lemma ReadAppTraffics_keeps_map_witness :
  wf ex_world /\
  exists w1,
    ReadAppTraffics ex_world = Some (None, w1) /\
    t_appStats (tun w1) = t_appStats (tun ex_world).
Proof.
  split; [exact ex_world_wf|].
  exact (ReadAppTraffics_keeps_map ex_world ex_world_wf).
Defined.

(** ** The exported record *)

Lemma int32_congr x : (int32 x - x) mod 2 ^ 32 = 0.
Proof.
  unfold int32.
  rewrite (Z.mod_eq (x + 2 ^ 31) (2 ^ 32)) by lia.
  replace (x + 2 ^ 31 - 2 ^ 32 * ((x + 2 ^ 31) / 2 ^ 32) - 2 ^ 31 - x)
    with (- ((x + 2 ^ 31) / 2 ^ 32) * 2 ^ 32) by lia.
  apply Z.mod_mul. lia.
Qed.

Lemma int32_truncates x : 2 ^ 31 - 1 < x -> int32 x ≠ x.
Proof. intros Hx. pose proof (int32_range x) as H. unfold is_int32 in H. lia. Qed.

(** C10.  The record handed to the listener carries [deactivateAt] and
    the two connection totals converted to [int32]: the value modulo 2^32
    read as a signed number.  Whenever the internal value is above
    2^31 - 1 the exported one differs from it. *)
Theorem ReadAppTraffics_export_truncates (w : World) uid stat s :
  trafficStats (tun w) = true -> wf w ->
  t_appStats (tun w) !! uid = Some stat -> mem w !! stat = Some s ->
  exists w1 exports e,
    ReadAppTraffics w = Some (None, w1) /\
    trace w1 = trace w ++ (EvUpdateStats <$> exports) /\
    e ∈ exports /\ Uid e = int32 uid /\
    DeactivateAt e = int32 (deactivateAt s) /\
    TcpConnTotal e = int32 (tcpConnTotal s) /\
    UdpConnTotal e = int32 (udpConnTotal s) /\
    is_int32 (DeactivateAt e) /\
    (DeactivateAt e - deactivateAt s) mod 2 ^ 32 = 0 /\
    is_int32 (TcpConnTotal e) /\
    (TcpConnTotal e - tcpConnTotal s) mod 2 ^ 32 = 0 /\
    is_int32 (UdpConnTotal e) /\
    (UdpConnTotal e - udpConnTotal s) mod 2 ^ 32 = 0 /\
    (2 ^ 31 - 1 < deactivateAt s -> DeactivateAt e ≠ deactivateAt s) /\
    (2 ^ 31 - 1 < tcpConnTotal s -> TcpConnTotal e ≠ tcpConnTotal s) /\
    (2 ^ 31 - 1 < udpConnTotal s -> UdpConnTotal e ≠ udpConnTotal s).
Proof.
  intros Hon Hwf Hu Hs.
  eexists _, _, (export_entry uid s).
  split; [by apply ReadAppTraffics_run|]. split; [done|].
  split.
  { apply list_elem_of_fmap. exists (uid, stat). split.
    - simpl. by rewrite (lookup_total_correct _ _ _ Hs).
    - by apply elem_of_map_to_list. }
  simpl. split; [done|]. do 3 (split; [done|]).
  split; [apply int32_range|]. split; [apply int32_congr|].
  split; [apply int32_range|]. split; [apply int32_congr|].
  split; [apply int32_range|]. split; [apply int32_congr|].
  split; [apply int32_truncates|]. split; apply int32_truncates.
Qed.

Lemma ex_world_large_wf : wf ex_world_large.
Proof. apply (bool_decide_unpack _). vm_compute. exact I. Defined.

(** The theorem on [ex_world_large]: 2^31 + 5 is exported as -2^31 + 5,
    2^31 as -2^31 and 2^32 - 1 as -1. *)
Lemma ReadAppTraffics_export_truncates_witness :
  exists w1 exports e,
    ReadAppTraffics ex_world_large = Some (None, w1) /\
    trace w1 = EvUpdateStats <$> exports /\
    e ∈ exports /\
    DeactivateAt e = - 2 ^ 31 + 5 /\
    TcpConnTotal e = - 2 ^ 31 /\
    UdpConnTotal e = - 1.
Proof.
  destruct (ReadAppTraffics_export_truncates ex_world_large 10042 1%positive
              (mkappStats 0 0 (2 ^ 31) (2 ^ 32 - 1) 0 0 0 0 (2 ^ 31 + 5))
              eq_refl ex_world_large_wf eq_refl eq_refl)
    as (w1 & exports & e & H1 & H2 & H3 & _ & H4 & H5 & H6 & _).
  exists w1, exports, e. repeat split; assumption.
Defined.

(** ** ResetAppTraffics *)

Lemma ResetAppTraffics_body_run toDel uid stat w s :
  mem w !! stat = Some s ->
  ResetAppTraffics_body toDel (uid, stat) w =
    Some (if decide (idle s) then toDel ++ [uid] else toDel,
          set_mem (alter zero_entry stat) w).
Proof.
  intros E. unfold ResetAppTraffics_body, atomic_StoreUint64.
  unfold mbind, M_bind.
  erewrite atomically_run by (simpl; exact E). simpl.
  erewrite atomically_run by (simpl; apply lookup_insert_eq). simpl.
  erewrite atomically_run by (simpl; apply lookup_insert_eq). simpl.
  erewrite atomically_run by (simpl; apply lookup_insert_eq). simpl.
  assert (forall m : gmap loc appStats, m !! stat = Some s ->
            <[stat:=zero_entry s]> m = alter zero_entry stat m) as Hm.
  { intros m Hs. apply map_eq. intros l.
    destruct (decide (stat = l)) as [->|Hne].
    - by rewrite lookup_alter_eq, lookup_insert_eq, Hs.
    - by rewrite lookup_alter_ne, lookup_insert_ne. }
  destruct w as [t m n c1 c2 tr]; unfold set_mem, deref; simpl in *.
  rewrite lookup_insert_eq, !insert_insert_eq, <- (Hm _ E).
  unfold idle. destruct s; simpl. by case_decide.
Qed.

Lemma filter_ext_elem {A} (P Q : A -> Prop)
    `{!forall x, Decision (P x), !forall x, Decision (Q x)} (l : list A) :
  (forall x, x ∈ l -> P x <-> Q x) -> filter P l = filter Q l.
Proof.
  induction l as [|x l IH]; intros HPQ; [done|].
  rewrite !filter_cons.
  rewrite IH by (intros y Hy; apply HPQ; by right).
  destruct (HPQ x) as [H1 H2]; [by left|].
  destruct (decide (P x)), (decide (Q x)); tauto || done.
Qed.

Lemma ResetAppTraffics_loop ls : forall toDel w,
  entries_ok ls (mem w) ->
  forRange ls toDel ResetAppTraffics_body w =
    Some (toDel ++ (filter (fun e => idle (mem w !!! e.2)) ls).*1,
          set_mem (update_all zero_entry ls.*2) w).
Proof.
  induction ls as [|[uid stat] ls IH]; intros toDel w Hok.
  - simpl. unfold mret, M_ret. rewrite app_nil_r. by destruct w.
  - apply entries_ok_cons in Hok as (Hnotin & [s Hs] & Hok).
    cbn [forRange]. unfold mbind, M_bind.
    rewrite (ResetAppTraffics_body_run _ _ _ _ s Hs).
    fold (@mbind M _). rewrite IH by (by apply entries_ok_alter).
    f_equal. f_equal.
    assert (filter (fun e => idle
              (mem (set_mem (alter zero_entry stat) w) !!! e.2)) ls =
            filter (fun e => idle (mem w !!! e.2)) ls) as ->.
    { apply filter_ext_elem. intros e He.
      assert (stat ≠ e.2) as Hne.
      { intros ->. apply Hnotin. apply list_elem_of_fmap. by exists e. }
      unfold lookup_total, map_lookup_total. simpl.
      by rewrite lookup_alter_ne. }
    rewrite filter_cons. simpl.
    rewrite (lookup_total_correct _ _ _ Hs).
    case_decide; [|done].
    rewrite fmap_cons. simpl. by rewrite <- app_assoc.
Qed.

Lemma delete_loop (toDel : list Z) : forall w,
  forRange toDel tt
    (fun _ uid => modifyW (set_tun (set_appStats (delete uid)))) w =
    Some (tt, set_tun (set_appStats (delete_all toDel)) w).
Proof.
  induction toDel as [|uid toDel IH]; intros w.
  - simpl. unfold mret, M_ret. by destruct w as [[]].
  - cbn [forRange]. unfold mbind, M_bind, modifyW.
    fold (@mbind M _). rewrite IH. by destruct w as [[]].
Qed.

Lemma delete_all_lookup toDel (m : gmap Z loc) uid :
  delete_all toDel m !! uid = if decide (uid ∈ toDel) then None else m !! uid.
Proof.
  unfold delete_all. revert m.
  induction toDel as [|u toDel IH]; intros m; cbn [foldl].
  - destruct (decide (uid ∈ [])) as [H|H]; [|done].
    by apply elem_of_nil in H.
  - rewrite IH. destruct (decide (u = uid)) as [->|Hne].
    + rewrite lookup_delete_eq.
      rewrite (decide_True (P := uid ∈ uid :: toDel)) by left.
      by destruct (decide (uid ∈ toDel)).
    + rewrite lookup_delete_ne by done.
      destruct (decide (uid ∈ toDel)) as [Hin|Hnotin].
      * rewrite decide_True; [done|by right].
      * rewrite decide_False; [done|].
        intros [->|?]%elem_of_cons; done.
Qed.

Lemma ResetAppTraffics_run w :
  trafficStats (tun w) = true -> wf w ->
  ResetAppTraffics w =
    Some (tt,
          set_tun (set_appStats (delete_all
                     (filter (fun e => idle (mem w !!! e.2))
                        (map_to_list (t_appStats (tun w)))).*1))
            (set_mem (update_all zero_entry
                        (map_to_list (t_appStats (tun w))).*2) w)).
Proof.
  intros Hon Hwf. unfold ResetAppTraffics, mbind, M_bind, getW.
  rewrite Hon. simpl.
  rewrite ResetAppTraffics_loop by exact Hwf. simpl.
  case_decide as Hlen.
  - by rewrite delete_loop.
  - destruct ((filter _ _).*1) as [|u l] eqn:E; [|simpl in Hlen; lia].
    unfold mret, M_ret. by destruct w as [[]].
Qed.

Lemma ResetAppTraffics_off w :
  trafficStats (tun w) = false -> ResetAppTraffics w = Some (tt, w).
Proof.
  intros Hoff. unfold ResetAppTraffics, mbind, M_bind, getW.
  by rewrite Hoff.
Qed.

Lemma idle_counts s :
  0 <= tcpConn s < 2 ^ 31 -> 0 <= udpConn s < 2 ^ 31 ->
  idle s <-> tcpConn s = 0 /\ udpConn s = 0.
Proof.
  intros Ht Hu. unfold idle, int32. split.
  - intros H.
    assert ((tcpConn s + udpConn s + 2 ^ 31) mod 2 ^ 32 = 2 ^ 31) as Hm by lia.
    destruct (Z_lt_le_dec (tcpConn s + udpConn s) (2 ^ 31)) as [Hlt|Hge].
    + rewrite Z.mod_small in Hm by lia. lia.
    + replace (tcpConn s + udpConn s + 2 ^ 31)
        with ((tcpConn s + udpConn s - 2 ^ 31) + 1 * 2 ^ 32) in Hm by lia.
      rewrite Z.mod_add in Hm by lia.
      rewrite Z.mod_small in Hm by lia. lia.
  - intros [-> ->]. reflexivity.
Qed.

(** C7.  With the stats enabled, [ResetAppTraffics] stores zero in the
    four byte counters of every entry and leaves the other fields alone;
    it removes from the map exactly the entries whose live counts are both
    zero (the code tests [tcpConn+udpConn == 0], which is the same for
    counts); every entry still in the map afterwards has its four byte
    counters at zero. *)
Theorem ResetAppTraffics_zeroes_and_collects (w : World) :
  trafficStats (tun w) = true -> wf w -> live_counts_ok w ->
  exists w1,
    ResetAppTraffics w = Some (tt, w1) /\
    (forall uid stat s,
        t_appStats (tun w) !! uid = Some stat -> mem w !! stat = Some s ->
        exists s1,
          mem w1 !! stat = Some s1 /\
          uplink s1 = 0 /\ downlink s1 = 0 /\
          uplinkTotal s1 = 0 /\ downlinkTotal s1 = 0 /\
          tcpConn s1 = tcpConn s /\ udpConn s1 = udpConn s /\
          tcpConnTotal s1 = tcpConnTotal s /\
          udpConnTotal s1 = udpConnTotal s /\
          deactivateAt s1 = deactivateAt s /\
          (tcpConn s = 0 /\ udpConn s = 0 ->
           t_appStats (tun w1) !! uid = None) /\
          (~ (tcpConn s = 0 /\ udpConn s = 0) ->
           t_appStats (tun w1) !! uid = Some stat)) /\
    (forall uid,
        t_appStats (tun w) !! uid = None ->
        t_appStats (tun w1) !! uid = None) /\
    (forall uid stat,
        t_appStats (tun w1) !! uid = Some stat ->
        exists s1,
          mem w1 !! stat = Some s1 /\
          uplink s1 = 0 /\ downlink s1 = 0 /\
          uplinkTotal s1 = 0 /\ downlinkTotal s1 = 0).
Proof.
  intros Hon Hwf Hcounts.
  eexists. split; [by apply ResetAppTraffics_run|].
  set (ents := map_to_list (t_appStats (tun w))).
  set (toDel := (filter (fun e => idle (mem w !!! e.2)) ents).*1).
  assert (forall uid stat s,
             t_appStats (tun w) !! uid = Some stat -> mem w !! stat = Some s ->
             (uid ∈ toDel <-> tcpConn s = 0 /\ udpConn s = 0)) as HtoDel.
  { intros uid stat s Hu Hs.
    destruct (Hcounts stat s Hs) as [Ht Hud].
    rewrite <- (idle_counts s Ht Hud). unfold toDel.
    rewrite list_elem_of_fmap. split.
    - intros ([uid' stat'] & -> & Hin).
      apply list_elem_of_filter in Hin as [Hidle Hin]. simpl in *.
      apply elem_of_map_to_list in Hin.
      assert (stat' = stat) as -> by congruence.
      by rewrite (lookup_total_correct _ _ _ Hs) in Hidle.
    - intros Hidle. exists (uid, stat). split; [done|].
      apply list_elem_of_filter. split.
      + simpl. by rewrite (lookup_total_correct _ _ _ Hs).
      + by apply elem_of_map_to_list. }
  assert (forall uid stat s,
             t_appStats (tun w) !! uid = Some stat -> mem w !! stat = Some s ->
             update_all zero_entry ents.*2 (mem w) !! stat =
               Some (zero_entry s)) as Hafter.
  { intros uid stat s Hu Hs.
    destruct (wf_lookup w uid stat Hwf Hu) as [Hin _].
    destruct Hwf as [Hnd _]. by rewrite update_all_in, Hs. }
  split; [|split].
  - intros uid stat s Hu Hs. exists (zero_entry s).
    split; [by eapply Hafter|]. do 9 (split; [done|]).
    simpl. rewrite delete_all_lookup. fold ents. fold toDel. split.
    + intros H0. rewrite decide_True; [done|]. by eapply HtoDel.
    + intros H0. rewrite decide_False; [done|].
      intros Hin. apply H0. by eapply HtoDel.
  - intros uid Hu. simpl. rewrite delete_all_lookup.
    by case_decide.
  - intros uid stat. simpl. rewrite delete_all_lookup.
    case_decide; [done|]. intros Hu.
    destruct (wf_lookup w uid stat Hwf Hu) as [_ [s Hs]].
    exists (zero_entry s). split; [by eapply Hafter|]. done.
Qed.

Lemma ex_world_counts : live_counts_ok ex_world.
Proof. apply (bool_decide_unpack _). vm_compute. exact I. Defined.

(** The theorem on [ex_world]: the idle entry of UID 10043 goes, the entry
    of UID 10042 stays with its byte counters at zero. *)
Lemma ResetAppTraffics_zeroes_and_collects_witness :
  exists w1,
    ResetAppTraffics ex_world = Some (tt, w1) /\
    t_appStats (tun w1) !! 10043 = None /\
    t_appStats (tun w1) !! 10042 = Some 1%positive /\
    mem w1 !! 1%positive = Some (mkappStats 1 0 1 0 0 0 0 0 0).
Proof.
  destruct (ResetAppTraffics_zeroes_and_collects ex_world eq_refl
              ex_world_wf ex_world_counts) as (w1 & Hrun & Hent & _).
  exists w1. split; [exact Hrun|].
  destruct (Hent 10043 2%positive _ eq_refl eq_refl)
    as (_ & _ & _ & _ & _ & _ & _ & _ & _ & _ & _ & Hgone & _).
  destruct (Hent 10042 1%positive _ eq_refl eq_refl)
    as ([] & Hs1 & ? & ? & ? & ? & ? & ? & ? & ? & ? & _ & Hkept).
  simpl in *. subst.
  split; [by apply Hgone|]. split; [|exact Hs1].
  apply Hkept. intros [? _]. discriminate.
Defined.

(** ** The wrappers *)

Lemma uint64_add_uint64 x n : uint64 (x + uint64 n) = uint64 (x + n).
Proof. unfold uint64. by rewrite Zplus_mod_idemp_r. Qed.

Lemma atomic_AddUint64_run (p : ptr) (n : Z) w s :
  mem w !! p.1 = Some s ->
  atomic_AddUint64 p (uint64 n) w =
    Some (uint64 (get_field p.2 s + n),
          set_mem (insert p.1
                     (set_field p.2 (uint64 (get_field p.2 s + n)) s)) w).
Proof.
  intros E. unfold atomic_AddUint64.
  rewrite (atomically_run _ _ _ s E). simpl.
  by rewrite uint64_add_uint64.
Qed.

(** C5.  A [Read] through [statsConn] returns what the inner [Read]
    returned, [(n, err)], and adds [n] (in [uint64]) to the word behind
    [uplink], whether [err] is nil or not; a [Write] does the same with the
    word behind [downlink].  Nothing else differs from the state the inner
    call left: the other fields of the entry, the other entries, the
    bridge, the trace. *)
Theorem statsConn_counts_delivered_bytes `{NetConn C} (c : statsConn C) :
  (forall (b : Z) (w w1 : World) (n : Z) (err : option error) (s : appStats),
      Read (Conn c) b w = Some ((n, err), w1) ->
      mem w1 !! (sc_uplink c).1 = Some s ->
      exists w2 s2,
        statsConn_Read c b w = Some ((n, err), w2) /\
        mem w2 !! (sc_uplink c).1 = Some s2 /\
        get_field (sc_uplink c).2 s2 =
          uint64 (get_field (sc_uplink c).2 s + n) /\
        (forall g, g ≠ (sc_uplink c).2 -> get_field g s2 = get_field g s) /\
        (forall l, l ≠ (sc_uplink c).1 -> mem w2 !! l = mem w1 !! l) /\
        tun w2 = tun w1 /\ net w2 = net w1 /\ trace w2 = trace w1) /\
  (forall (b : bytes) (w w1 : World) (n : Z) (err : option error) (s : appStats),
      Write (Conn c) b w = Some ((n, err), w1) ->
      mem w1 !! (sc_downlink c).1 = Some s ->
      exists w2 s2,
        statsConn_Write c b w = Some ((n, err), w2) /\
        mem w2 !! (sc_downlink c).1 = Some s2 /\
        get_field (sc_downlink c).2 s2 =
          uint64 (get_field (sc_downlink c).2 s + n) /\
        (forall g, g ≠ (sc_downlink c).2 -> get_field g s2 = get_field g s) /\
        (forall l, l ≠ (sc_downlink c).1 -> mem w2 !! l = mem w1 !! l) /\
        tun w2 = tun w1 /\ net w2 = net w1 /\ trace w2 = trace w1).
Proof.
  split.
  - intros b w w1 n err s Hin Hs.
    unfold statsConn_Read, mbind, M_bind. rewrite Hin.
    rewrite (atomic_AddUint64_run _ n w1 s Hs). simpl.
    eexists _, _. split; [reflexivity|]. simpl.
    split; [apply lookup_insert_eq|].
    split; [apply get_set_field_eq|].
    split; [intros g Hg; by apply get_set_field_ne|].
    split; [intros l Hl; by apply lookup_insert_ne|]. done.
  - intros b w w1 n err s Hin Hs.
    unfold statsConn_Write, mbind, M_bind. rewrite Hin.
    rewrite (atomic_AddUint64_run _ n w1 s Hs). simpl.
    eexists _, _. split; [reflexivity|]. simpl.
    split; [apply lookup_insert_eq|].
    split; [apply get_set_field_eq|].
    split; [intros g Hg; by apply get_set_field_ne|].
    split; [intros l Hl; by apply lookup_insert_ne|]. done.
Qed.

(** The theorem on [ex_world_io]: the read delivers 100 bytes with an
    error and the uplink goes from 4096 to 4196. *)
Lemma statsConn_counts_delivered_bytes_witness :
  exists w2 s2,
    statsConn_Read ex_statsConn 4096 ex_world_io =
      Some ((100, Some "connection reset"%string), w2) /\
    mem w2 !! 1%positive = Some s2 /\
    uplink s2 = 4196 /\ downlink s2 = 2048.
Proof.
  destruct (statsConn_counts_delivered_bytes ex_statsConn) as [Hread _].
  destruct (Hread 4096 ex_world_io _ 100 (Some "connection reset"%string)
              (mkappStats 1 0 1 0 4096 2048 5 7 0) eq_refl eq_refl)
    as (w2 & s2 & Hrun & Hs2 & Hup & Hother & _).
  exists w2, s2. split; [exact Hrun|]. split; [exact Hs2|].
  split; [exact Hup|]. exact (Hother F_downlink ltac:(discriminate)).
Defined.

(** C6.  A [ReadFrom] or [readFrom] through [statsPacketConn] returns
    what the inner call returned; when the error is nil it adds the byte
    count to the word behind [downlink], and when it is not the state is
    the one the inner call left.  [WriteTo] does the same with the word
    behind [uplink]. *)
Theorem statsPacketConn_counts_on_success `{PacketConn C}
    (c : statsPacketConn C) :
  (forall (p : Z) (w w1 : World) n addr err,
      ReadFrom (packetConn c) p w = Some ((n, addr, err), w1) ->
      (err ≠ None -> statsPacketConn_ReadFrom c p w = Some ((n, addr, err), w1)) /\
      (err = None -> forall s, mem w1 !! (spc_downlink c).1 = Some s ->
         statsPacketConn_ReadFrom c p w =
           Some ((n, addr, err),
                 set_mem (insert (spc_downlink c).1
                            (set_field (spc_downlink c).2
                               (uint64 (get_field (spc_downlink c).2 s + n)) s))
                   w1))) /\
  (forall (w w1 : World) p addr err,
      readFrom (packetConn c) w = Some ((p, addr, err), w1) ->
      (err ≠ None -> statsPacketConn_readFrom c w = Some ((p, addr, err), w1)) /\
      (err = None -> forall s, mem w1 !! (spc_downlink c).1 = Some s ->
         statsPacketConn_readFrom c w =
           Some ((p, addr, err),
                 set_mem (insert (spc_downlink c).1
                            (set_field (spc_downlink c).2
                               (uint64 (get_field (spc_downlink c).2 s + len p)) s))
                   w1))) /\
  (forall (p : bytes) (a : UDPAddr) (w w1 : World) n err,
      WriteTo (packetConn c) p a w = Some ((n, err), w1) ->
      (err ≠ None -> statsPacketConn_WriteTo c p a w = Some ((n, err), w1)) /\
      (err = None -> forall s, mem w1 !! (spc_uplink c).1 = Some s ->
         statsPacketConn_WriteTo c p a w =
           Some ((n, err),
                 set_mem (insert (spc_uplink c).1
                            (set_field (spc_uplink c).2
                               (uint64 (get_field (spc_uplink c).2 s + n)) s))
                   w1))).
Proof.
  split; [|split].
  - intros p w w1 n addr err Hin.
    unfold statsPacketConn_ReadFrom, mbind, M_bind. rewrite Hin. split.
    + intros Herr. by rewrite decide_False.
    + intros -> s Hs. rewrite decide_True by done.
      by rewrite (atomic_AddUint64_run _ n w1 s Hs).
  - intros w w1 p addr err Hin.
    unfold statsPacketConn_readFrom, mbind, M_bind. rewrite Hin. split.
    + intros Herr. by rewrite decide_False.
    + intros -> s Hs. rewrite decide_True by done.
      by rewrite (atomic_AddUint64_run _ (len p) w1 s Hs).
  - intros p a w w1 n err Hin.
    unfold statsPacketConn_WriteTo, mbind, M_bind. rewrite Hin. split.
    + intros Herr. by rewrite decide_False.
    + intros -> s Hs. rewrite decide_True by done.
      by rewrite (atomic_AddUint64_run _ n w1 s Hs).
Qed.

(** The theorem on [ex_world_io]: a datagram of three bytes takes the
    downlink from 2048 to 2051. *)
Lemma statsPacketConn_counts_on_success_witness :
  exists w2 s2,
    statsPacketConn_readFrom ex_statsPacketConn ex_world_io =
      Some (([Byte.x78; Byte.x79; Byte.x7a], None, None), w2) /\
    mem w2 !! 1%positive = Some s2 /\
    downlink s2 = 2051 /\ uplink s2 = 4096.
Proof.
  destruct (statsPacketConn_counts_on_success ex_statsPacketConn)
    as (_ & Hread & _).
  destruct (Hread ex_world_io _ [Byte.x78; Byte.x79; Byte.x7a] None None
              eq_refl) as [_ Hok].
  eexists _, _. split; [exact (Hok eq_refl _ eq_refl)|].
  split; [reflexivity|]. split; reflexivity.
Defined.

(** ** The totals across a run of operations *)

Lemma conn_Read_run c b w :
  exists r w1, conn_Read c b w = Some (r, w1) /\
    mem w1 = mem w /\ tun w1 = tun w.
Proof.
  unfold conn_Read. destruct (on_Read (script_of c w)); eexists _, _; done.
Qed.

Lemma conn_Write_run c b w :
  exists r w1, conn_Write c b w = Some (r, w1) /\
    mem w1 = mem w /\ tun w1 = tun w.
Proof.
  unfold conn_Write. destruct (on_Write (script_of c w)); eexists _, _; done.
Qed.

Lemma conn_readFrom_run c w :
  exists r w1, conn_readFrom c w = Some (r, w1) /\
    mem w1 = mem w /\ tun w1 = tun w.
Proof.
  unfold conn_readFrom.
  destruct (on_readFrom (script_of c w)); eexists _, _; done.
Qed.

Lemma conn_ReadFrom_run c p w :
  exists r w1, conn_ReadFrom c p w = Some (r, w1) /\
    mem w1 = mem w /\ tun w1 = tun w.
Proof.
  unfold conn_ReadFrom, mbind, M_bind.
  destruct (conn_readFrom_run c w) as ([[data addr] err] & w1 & -> & ? & ?).
  eexists _, _; done.
Qed.

Lemma conn_WriteTo_run c p a w :
  exists r w1, conn_WriteTo c p a w = Some (r, w1) /\
    mem w1 = mem w /\ tun w1 = tun w.
Proof.
  unfold conn_WriteTo, conn_WriteTo_result, mbind, M_bind, emit, modifyW.
  simpl. destruct (on_WriteTo _); eexists _, _; done.
Qed.

Lemma window_step_refl s : window_step s s.
Proof. done. Qed.

Lemma window_step_add f n s :
  f = F_uplink \/ f = F_downlink ->
  window_step s (set_field f (uint64 (get_field f s + n)) s).
Proof.
  intros [-> | ->]; destruct s; simpl; (split; [done|]; split; [done|]);
    intros (? & ? & ? & ?); repeat split; simpl in *;
    try apply uint64_range; unfold is_uint64 in *; lia.
Qed.

(** A step through a wrapper: the inner call leaves the entries alone and
    the wrapper adds to one window of one entry, or to nothing. *)
Lemma add_window_step (p : ptr) (n : Z) w :
  p.2 = F_uplink \/ p.2 = F_downlink ->
  is_Some (mem w !! p.1) ->
  exists v w1, atomic_AddUint64 p (uint64 n) w = Some (v, w1) /\
    tun w1 = tun w /\
    forall l s, mem w !! l = Some s ->
      exists s1, mem w1 !! l = Some s1 /\ window_step s s1.
Proof.
  intros Hf [s0 Hs0]. rewrite (atomic_AddUint64_run p n w s0 Hs0).
  eexists _, _. split; [done|]. split; [done|].
  intros l s Hs. simpl. destruct (decide (p.1 = l)) as [<-|Hne].
  - rewrite lookup_insert_eq. eexists. split; [done|].
    assert (s0 = s) as -> by congruence. by apply window_step_add.
  - rewrite lookup_insert_ne by done. exists s. split; [done|].
    apply window_step_refl.
Qed.

Lemma keeps_totals_inner w w0 w1 :
  mem w0 = mem w -> tun w0 = tun w -> keeps_totals w0 w1 -> keeps_totals w w1.
Proof. intros Hm Ht [H1 H2]. split; [congruence|]. by rewrite <- Hm. Qed.

Lemma keeps_totals_same w w1 :
  mem w1 = mem w -> tun w1 = tun w -> keeps_totals w w1.
Proof.
  intros Hm Ht. split; [done|]. intros l s Hs. exists s.
  split; [by rewrite Hm|]. apply window_step_refl.
Qed.

Lemma wrapper_op_run o w :
  ~ is_reset o -> o ≠ Op_ReadAppTraffics -> op_ok (mem w) o ->
  exists w1, run_op o w = Some (tt, w1) /\ keeps_totals w w1.
Proof.
  intros Hnr Hnread Hok. destruct o as [c st b|c st b|c st p|c st|c st p a| |];
    simpl in *; try done; unfold mbind, M_bind.
  - unfold statsConn_Read, mbind, M_bind. simpl.
    destruct (conn_Read_run c b w) as ([n err] & w0 & -> & Hm & Ht).
    destruct (add_window_step (st, F_uplink) n w0) as (v & w1 & -> & H1);
      [by left|by rewrite Hm|].
    eexists. split; [done|]. by eapply keeps_totals_inner.
  - unfold statsConn_Write, mbind, M_bind. simpl.
    destruct (conn_Write_run c b w) as ([n err] & w0 & -> & Hm & Ht).
    destruct (add_window_step (st, F_downlink) n w0) as (v & w1 & -> & H1);
      [by right|by rewrite Hm|].
    eexists. split; [done|]. by eapply keeps_totals_inner.
  - unfold statsPacketConn_ReadFrom, mbind, M_bind. simpl.
    destruct (conn_ReadFrom_run c p w) as ([[n addr] err] & w0 & -> & Hm & Ht).
    case_decide.
    + unfold mbind, M_bind.
      destruct (add_window_step (st, F_downlink) n w0) as (v & w1 & -> & H1);
        [by right|by rewrite Hm|].
      eexists. split; [done|]. by eapply keeps_totals_inner.
    + eexists. split; [done|]. by apply keeps_totals_same.
  - unfold statsPacketConn_readFrom, mbind, M_bind. simpl.
    destruct (conn_readFrom_run c w) as ([[data addr] err] & w0 & -> & Hm & Ht).
    case_decide.
    + unfold mbind, M_bind.
      destruct (add_window_step (st, F_downlink) (len data) w0)
        as (v & w1 & -> & H1); [by right|by rewrite Hm|].
      eexists. split; [done|]. by eapply keeps_totals_inner.
    + eexists. split; [done|]. by apply keeps_totals_same.
  - unfold statsPacketConn_WriteTo, mbind, M_bind. simpl.
    destruct (conn_WriteTo_run c p a w) as ([n err] & w0 & -> & Hm & Ht).
    case_decide.
    + unfold mbind, M_bind.
      destruct (add_window_step (st, F_uplink) n w0) as (v & w1 & -> & H1);
        [by left|by rewrite Hm|].
      eexists. split; [done|]. by eapply keeps_totals_inner.
    + eexists. split; [done|]. by apply keeps_totals_same.
Qed.

Lemma wf_preserved w w1 :
  tun w1 = tun w ->
  (forall l, is_Some (mem w !! l) -> is_Some (mem w1 !! l)) ->
  wf w -> wf w1.
Proof.
  intros Ht Hm [Hnd Hall]. unfold wf. rewrite Ht. split; [done|].
  eapply Forall_impl; [exact Hall|]. intros e He. by apply Hm.
Qed.

Lemma ops_ok_preserved (m m1 : gmap loc appStats) ops :
  (forall l, is_Some (m !! l) -> is_Some (m1 !! l)) ->
  Forall (op_ok m) ops -> Forall (op_ok m1) ops.
Proof.
  intros Hm Hall. eapply Forall_impl; [exact Hall|].
  intros [] Ho; simpl in *; auto.
Qed.

Lemma keeps_totals_alloc w w1 l :
  keeps_totals w w1 -> is_Some (mem w !! l) -> is_Some (mem w1 !! l).
Proof. intros [_ H] [s Hs]. destruct (H l s Hs) as (s1 & -> & _). done. Qed.

Lemma ReadAppTraffics_step w stat s :
  wf w -> mem w !! stat = Some s ->
  exists w1 s1,
    ReadAppTraffics w = Some (None, w1) /\ tun w1 = tun w /\
    (forall l, is_Some (mem w !! l) -> is_Some (mem w1 !! l)) /\
    mem w1 !! stat = Some s1 /\ (s1 = s \/ s1 = swap_entry s).
Proof.
  intros Hwf Hs. destruct (trafficStats (tun w)) eqn:Hon.
  - rewrite (ReadAppTraffics_run w Hon Hwf).
    set (ls := (map_to_list (t_appStats (tun w))).*2).
    destruct (decide (stat ∈ ls)) as [Hin|Hnotin].
    + eexists _, (swap_entry s). split; [done|]. split; [done|].
      split; [intros l Hl; by apply update_all_dom|].
      split; [|by right]. simpl. destruct Hwf as [Hnd _].
      fold ls. by rewrite update_all_in, Hs.
    + eexists _, s. split; [done|]. split; [done|].
      split; [intros l Hl; by apply update_all_dom|].
      split; [|by left]. simpl. fold ls. by rewrite update_all_notin.
  - rewrite (ReadAppTraffics_off w Hon). exists w, s.
    split; [done|]. split; [done|]. split; [done|]. split; [done|by left].
Qed.

Lemma swap_entry_grows s :
  counters_ok s ->
  uplinkTotal s + uplink s < 2 ^ 64 ->
  downlinkTotal s + downlink s < 2 ^ 64 ->
  counters_ok (swap_entry s) /\
  uplinkTotal s <= uplinkTotal (swap_entry s) /\
  downlinkTotal s <= downlinkTotal (swap_entry s).
Proof.
  intros (Hu & Hd & HU & HD) H1 H2. unfold is_uint64 in *.
  split.
  - repeat split; simpl; try apply uint64_range; lia.
  - simpl. rewrite !uint64_id by (unfold is_uint64; lia). lia.
Qed.

(** C2 fails on the code: the entry of UID 10042 has a live flow, so it
    stays in the map, and [ResetAppTraffics] takes its totals from 5 and 7
    to 0. *)
Lemma ResetAppTraffics_lowers_totals :
  exists s w1 s1,
    t_appStats (tun ex_world) !! 10042 = Some 1%positive /\
    mem ex_world !! 1%positive = Some s /\
    run_ops [Op_ResetAppTraffics] ex_world = Some (tt, w1) /\
    t_appStats (tun w1) !! 10042 = Some 1%positive /\
    mem w1 !! 1%positive = Some s1 /\
    uplinkTotal s1 < uplinkTotal s /\ downlinkTotal s1 < downlinkTotal s.
Proof.
  eexists _, _, _. split; [reflexivity|]. split; [reflexivity|].
  split; [vm_compute; reflexivity|]. split; [reflexivity|].
  split; [reflexivity|]. split; reflexivity.
Qed.

(** The proviso of C2 as amended is needed: a total that is one byte short
    of 2^64 wraps around when [ReadAppTraffics] adds a window of two
    bytes to it. *)
Lemma ReadAppTraffics_total_wraps :
  exists s w1 s1,
    mem ex_world_full !! 1%positive = Some s /\
    run_ops [Op_ReadAppTraffics] ex_world_full = Some (tt, w1) /\
    mem w1 !! 1%positive = Some s1 /\
    uplinkTotal s = 2 ^ 64 - 1 /\ uplink s = 2 /\ uplinkTotal s1 = 1.
Proof.
  eexists _, _, _. split; [reflexivity|].
  split; [vm_compute; reflexivity|]. split; [reflexivity|].
  split; [reflexivity|]. split; reflexivity.
Qed.

(** C2, amended.  Over any run of reads and writes through the wrappers
    and of calls of [ReadAppTraffics], during which no total wraps around
    in [uint64], the run returns and the two totals of an entry are at
    least what they were.  ([ResetAppTraffics] is left out: it stores zero
    in both.) *)
Theorem totals_monotone_without_reset (ops : list regOp) :
  forall (w : World) (stat : loc) (s : appStats),
    wf w -> Forall (op_ok (mem w)) ops ->
    Forall (fun o => ~ is_reset o) ops ->
    mem w !! stat = Some s -> counters_ok s ->
    no_wrap_along stat ops w ->
    exists w1 s1,
      run_ops ops w = Some (tt, w1) /\
      mem w1 !! stat = Some s1 /\
      uplinkTotal s <= uplinkTotal s1 /\
      downlinkTotal s <= downlinkTotal s1.
Proof.
  induction ops as [|o ops IH]; intros w stat s Hwf Hok Hnr Hs Hcnt Hnw.
  - exists w, s. split; [done|]. split; [done|]. lia.
  - apply Forall_cons in Hok as [Ho Hok].
    apply Forall_cons in Hnr as [Hno Hnr].
    destruct Hnw as [Hnow Hnw]. cbn [run_ops]. unfold mbind, M_bind.
    assert (o = Op_ReadAppTraffics \/ o ≠ Op_ReadAppTraffics) as [->|Hnread]
      by (destruct o; (by left) || (by right)).
    + destruct (ReadAppTraffics_step w stat s Hwf Hs)
        as (w0 & s0 & Hrun & Ht & Hm & Hs0 & Hcase).
      assert (run_op Op_ReadAppTraffics w = Some (tt, w0)) as Hop.
      { simpl. unfold mbind, M_bind. by rewrite Hrun. }
      rewrite Hop. fold (@mbind M _).
      destruct (Hnow eq_refl s Hs) as [Hu Hd].
      destruct (swap_entry_grows s Hcnt Hu Hd) as (Hcnt' & HU & HD).
      destruct (IH w0 stat s0) as (w1 & s1 & Hrun1 & Hs1 & HU1 & HD1).
      * by eapply wf_preserved.
      * by eapply ops_ok_preserved.
      * done.
      * done.
      * by destruct Hcase as [-> | ->].
      * by apply Hnw.
      * exists w1, s1. split; [done|]. split; [done|].
        destruct Hcase as [-> | ->]; lia.
    + destruct (wrapper_op_run o w Hno Hnread Ho) as (w0 & Hop & Hkeep).
      rewrite Hop. fold (@mbind M _).
      destruct Hkeep as [Ht Hcells].
      destruct (Hcells stat s Hs) as (s0 & Hs0 & HU & HD & Hc).
      destruct (IH w0 stat s0) as (w1 & s1 & Hrun1 & Hs1 & HU1 & HD1).
      * eapply wf_preserved; [done| |done].
        intros l Hl. by eapply keeps_totals_alloc.
      * eapply ops_ok_preserved; [|done].
        intros l Hl. by eapply (keeps_totals_alloc w w0).
      * done.
      * done.
      * by apply Hc.
      * by apply Hnw.
      * exists w1, s1. split; [done|]. split; [done|]. lia.
Qed.

Lemma ex_world_io_wf : wf ex_world_io.
Proof. apply (bool_decide_unpack _). vm_compute. exact I. Defined.

(** The theorem on [ex_ops] run from [ex_world_io]. *)
Lemma totals_monotone_without_reset_witness :
  exists w1 s1,
    run_ops ex_ops ex_world_io = Some (tt, w1) /\
    mem w1 !! 1%positive = Some s1 /\
    5 <= uplinkTotal s1 /\ 7 <= downlinkTotal s1.
Proof.
  apply (totals_monotone_without_reset ex_ops ex_world_io 1%positive
           (mkappStats 1 0 1 0 4096 2048 5 7 0)).
  - exact ex_world_io_wf.
  - repeat constructor; simpl; eexists; reflexivity.
  - repeat constructor; simpl; tauto.
  - reflexivity.
  - repeat split; vm_compute; congruence.
  - repeat (cbn [no_wrap_along ex_ops]; split;
      [ intros E; try discriminate E; intros s Hs;
        vm_compute in Hs; injection Hs as <-; split; reflexivity
      | intros w1 Hw1; vm_compute in Hw1; injection Hw1 as <- ]).
    exact I.
Defined.

(** ** The NAT table *)

Lemma GetOrCreateLock_installs key w :
  mapping (udpTable (tun w)) !! key = None ->
  exists w1,
    natTable_GetOrCreateLock key w = Some ((nextCond w, false), w1) /\
    mapping (udpTable (tun w1)) =
      <[key := ItemCond (nextCond w)]> (mapping (udpTable (tun w))).
Proof.
  intros E. unfold natTable_GetOrCreateLock, mbind, M_bind, getW, modifyW.
  rewrite E. simpl. eexists. split; reflexivity.
Qed.

Lemma GetOrCreateLock_loads key w cond :
  mapping (udpTable (tun w)) !! key = Some (ItemCond cond) ->
  exists w1,
    natTable_GetOrCreateLock key w = Some ((cond, true), w1) /\
    mapping (udpTable (tun w1)) = mapping (udpTable (tun w)).
Proof.
  intros E. unfold natTable_GetOrCreateLock, mbind, M_bind, getW, modifyW.
  rewrite E. simpl. eexists. split; reflexivity.
Qed.

Lemma Delete_removes key w :
  exists w1,
    natTable_Delete key w = Some (tt, w1) /\
    mapping (udpTable (tun w1)) = delete key (mapping (udpTable (tun w))).
Proof. eexists. split; reflexivity. Qed.

(** [GetOrCreateLock] answers [loaded = false] to the caller that finds
    no item under the key, and [loaded = true] with that caller's cond to
    every later caller, until [Delete] removes the key. *)
Lemma GetOrCreateLock_once key w :
  mapping (udpTable (tun w)) !! key = None ->
  exists w1 w2 w3 w4,
    natTable_GetOrCreateLock key w = Some ((nextCond w, false), w1) /\
    natTable_GetOrCreateLock key w1 = Some ((nextCond w, true), w2) /\
    natTable_GetOrCreateLock key w2 = Some ((nextCond w, true), w3) /\
    natTable_Delete key w3 = Some (tt, w4) /\
    natTable_GetOrCreateLock key w4 = Some ((nextCond w4, false),
      set_tun (set_udpTable (insert key (ItemCond (nextCond w4))))
        (mkWorld (tun w4) (mem w4) (net w4) (nextConn w4)
           (Pos.succ (nextCond w4)) (trace w4))).
Proof.
  intros E.
  destruct (GetOrCreateLock_installs key w E) as (w1 & H1 & M1).
  assert (mapping (udpTable (tun w1)) !! key = Some (ItemCond (nextCond w)))
    as E1 by (rewrite M1; apply lookup_insert_eq).
  destruct (GetOrCreateLock_loads key w1 _ E1) as (w2 & H2 & M2).
  assert (mapping (udpTable (tun w2)) !! key = Some (ItemCond (nextCond w)))
    as E2 by (by rewrite M2).
  destruct (GetOrCreateLock_loads key w2 _ E2) as (w3 & H3 & M3).
  destruct (Delete_removes key w3) as (w4 & H4 & M4).
  exists w1, w2, w3, w4. do 4 (split; [done|]).
  unfold natTable_GetOrCreateLock, mbind, M_bind, getW, modifyW.
  rewrite M4, lookup_delete_eq. reflexivity.
Qed.

(** ** Calls of NewPacket side by side *)

(** C4, on the code.  Two calls of [NewPacket] for the source
    10.0.0.2:6000, nothing in the NAT table.  The first runs up to its
    dial: it misses in [sendTo], gets the lock with [loaded = false],
    deletes the lock key, broadcasts and dials.  The second then runs the
    same statements: the conn is not in the table yet and the lock key is
    gone, so it dials as well.  [dialUDP] has been called twice for the
    endpoint, and neither call has reached a [Delete] of the NAT entry. *)
Lemma NewPacket_dials_twice_for_one_source :
  natKey_of (ex_packet [Byte.x01]) = natKey_of (ex_packet [Byte.x02]) /\
  exists pool w,
    run_schedule ex_env [0; 0; 0; 0; 1; 1; 1; 1]%nat
      [mkcall (ex_packet [Byte.x01]) At_sendTo;
       mkcall (ex_packet [Byte.x02]) At_sendTo] ex_bridge = Some (pool, w) /\
    c_pc <$> pool =
      [At_install (mkdialed 20%positive false 10042 false);
       At_install (mkdialed 21%positive false 10042 false)] /\
    trace w =
      [EvBroadcast 1%positive;
       EvDialUDP ex_udp_context ex_udp_destination 300000000000;
       EvBroadcast 2%positive;
       EvDialUDP ex_udp_context ex_udp_destination 300000000000] /\
    dials (trace w) = 2%nat /\
    mapping (udpTable (tun w)) = ∅.
Proof.
  split; [reflexivity|]. eexists _, _.
  split; [vm_compute; reflexivity|].
  split; [reflexivity|]. split; [reflexivity|]. split; reflexivity.
Qed.

(** ** A rejected flow *)

(** C8, on the code.  [NewPacket] for a new source whose dial the
    dispatcher rejects: the handler deletes the lock, broadcasts, logs the
    error and returns.  [closeIgnore(conn, closer)] is not reached, so the
    closer of the TUN side is not closed. *)
Lemma NewPacket_rejected_leaves_closer_open :
  exists w,
    NewPacket ex_env_reject (ex_packet [Byte.x01]) ex_bridge =
      Some (Returned, w) /\
    trace w =
      [EvBroadcast 1%positive;
       EvDialUDP ex_udp_context ex_udp_destination 300000000000;
       EvErrorf "[UDP] dial failed: %s" "rejected"] /\
    Forall (fun e => e ≠ EvClose (Res_closer 30%positive)) (trace w).
Proof.
  eexists. split; [vm_compute; reflexivity|]. split; [reflexivity|].
  repeat constructor; discriminate.
Qed.

(** A call of [NewPacket] that runs alone is the call stepping six times:
    the steps are the statements of the function. *)
Lemma NewPacket_alone env a w :
  NewPacket env a w =
    match run_schedule env [0; 0; 0; 0; 0; 0]%nat [mkcall a At_sendTo] w with
    | Some ([c], w1) =>
        match outcome_of (c_pc c) with
        | Some o => Some (o, w1)
        | None => None
        end
    | _ => None
    end.
Proof.
  unfold NewPacket, run_schedule, step_pool, step_call, NewPacket_woken.
  unfold mbind, M_bind, mret, M_ret.
  cbn -[sendTo natTable_GetOrCreateLock NewPacket_unlock NewPacket_dial
        NewPacket_install NewPacket_serve emit].
  destruct (sendTo _ _ _ w) as [[[] w1]|]; [reflexivity| |reflexivity].
  cbn -[sendTo natTable_GetOrCreateLock NewPacket_unlock NewPacket_dial
        NewPacket_install NewPacket_serve emit].
  destruct (natTable_GetOrCreateLock _ w1) as [[[cond []] w2]|];
    [|  |reflexivity].
  { cbn -[emit]. destruct (emit (EvWait cond) w2) as [[[] w3]|]; reflexivity. }
  cbn -[sendTo natTable_GetOrCreateLock NewPacket_unlock NewPacket_dial
        NewPacket_install NewPacket_serve emit].
  destruct (NewPacket_unlock a cond w2) as [[[] w3]|]; [|reflexivity].
  cbn -[sendTo natTable_GetOrCreateLock NewPacket_unlock NewPacket_dial
        NewPacket_install NewPacket_serve emit].
  destruct (NewPacket_dial env a w3) as [[[d|] w4]|];
    [|reflexivity|reflexivity].
  cbn -[sendTo natTable_GetOrCreateLock NewPacket_unlock NewPacket_dial
        NewPacket_install NewPacket_serve emit].
  destruct (NewPacket_install a d w4) as [[[conn stats] w5]|]; [|reflexivity].
  cbn -[sendTo natTable_GetOrCreateLock NewPacket_unlock NewPacket_dial
        NewPacket_install NewPacket_serve emit].
  destruct (NewPacket_serve env a d conn stats w5) as [[[] w6]|]; reflexivity.
Qed.

(** ** The registry is well formed throughout *)

Lemma NoDup_fmap_elem_inj {A B} (f : A -> B) (l : list A) x y :
  NoDup (f <$> l) -> x ∈ l -> y ∈ l -> f x = f y -> x = y.
Proof.
  induction l as [|a l IH]; intros Hnd Hx Hy Hf.
  - by apply elem_of_nil in Hx.
  - rewrite fmap_cons in Hnd. apply NoDup_cons in Hnd as [Hnotin Hnd].
    apply elem_of_cons in Hx as [->|Hx]; apply elem_of_cons in Hy as [->|Hy].
    + done.
    + exfalso. apply Hnotin. rewrite Hf. apply list_elem_of_fmap. by exists y.
    + exfalso. apply Hnotin. rewrite <- Hf. apply list_elem_of_fmap.
      by exists x.
    + by apply IH.
Qed.

(** [wf] by lookups: every entry of the map is allocated and no two UIDs
    share an entry. *)
Lemma wf_alt w :
  wf w <->
  (forall uid l, t_appStats (tun w) !! uid = Some l -> is_Some (mem w !! l)) /\
  (forall u1 u2 l,
      t_appStats (tun w) !! u1 = Some l ->
      t_appStats (tun w) !! u2 = Some l -> u1 = u2).
Proof.
  unfold wf, entries_ok. split.
  - intros [Hnd Hall]. split.
    + intros uid l Hu. apply elem_of_map_to_list in Hu.
      by apply (proj1 (Forall_forall _ _) Hall (uid, l)).
    + intros u1 u2 l H1 H2.
      apply elem_of_map_to_list in H1. apply elem_of_map_to_list in H2.
      assert ((u1, l) = (u2, l)) as [=]; [|done].
      by eapply (NoDup_fmap_elem_inj snd).
  - intros [Halloc Hinj]. split.
    + apply NoDup_fmap_2_strong; [|apply NoDup_map_to_list].
      intros [u1 l1] [u2 l2] H1 H2 Hl. simpl in Hl. subst l2.
      apply elem_of_map_to_list in H1. apply elem_of_map_to_list in H2.
      f_equal. by eapply Hinj.
    + apply Forall_forall. intros [uid l] Hu.
      apply elem_of_map_to_list in Hu. simpl. by eapply Halloc.
Qed.

(** The bridge as the constructor leaves it: no entry yet. *)
Lemma wf_no_entries w : t_appStats (tun w) = ∅ -> wf w.
Proof.
  intros E. apply wf_alt. rewrite E. split.
  - intros uid l Hu. by rewrite lookup_empty in Hu.
  - intros u1 u2 l Hu. by rewrite lookup_empty in Hu.
Qed.

Lemma NewTun2ray_wf setup router sniffing overrideDestination fakedns debug
    dumpUid trafficStats t w :
  NewTun2ray setup router sniffing overrideDestination fakedns debug dumpUid
    trafficStats = inl t ->
  tun w = t -> wf w.
Proof.
  unfold NewTun2ray. destruct setup; [done|]. intros [= <-] Ht.
  apply wf_no_entries. by rewrite Ht.
Qed.

(** A new entry for a UID that has none. *)
Lemma wf_new_entry uid w :
  wf w -> t_appStats (tun w) !! uid = None ->
  wf (set_tun (set_appStats (insert uid (fresh (dom (mem w)))))
        (set_mem (insert (fresh (dom (mem w))) appStats_zero) w)).
Proof.
  intros [Halloc Hinj]%wf_alt Hnone. apply wf_alt. simpl.
  assert (forall u l, t_appStats (tun w) !! u = Some l ->
                      l ≠ fresh (dom (mem w))) as Hfresh.
  { intros u l Hu ->. apply (is_fresh (dom (mem w))).
    apply elem_of_dom. by eapply Halloc. }
  split.
  - intros u l. destruct (decide (uid = u)) as [<-|Hne].
    + rewrite lookup_insert_eq. intros [= <-].
      rewrite lookup_insert_eq. by eexists.
    + rewrite lookup_insert_ne by done. intros Hu.
      rewrite lookup_insert_ne; [by eapply Halloc|].
      intros Heq. by eapply Hfresh.
  - intros u1 u2 l.
    destruct (decide (uid = u1)) as [<-|Hne1];
      destruct (decide (uid = u2)) as [<-|Hne2]; [done| | |].
    + rewrite lookup_insert_eq, lookup_insert_ne by done.
      intros [= <-] Hu. exfalso. by eapply Hfresh.
    + rewrite lookup_insert_eq, lookup_insert_ne by done.
      intros Hu [= <-]. exfalso. by eapply Hfresh.
    + rewrite !lookup_insert_ne by done. apply Hinj.
Qed.

(** Fewer UIDs in the map, the entries still allocated. *)
Lemma wf_fewer w w1 :
  (forall uid l, t_appStats (tun w1) !! uid = Some l ->
                 t_appStats (tun w) !! uid = Some l) ->
  (forall l, is_Some (mem w !! l) -> is_Some (mem w1 !! l)) ->
  wf w -> wf w1.
Proof.
  intros Hsub Hm [Halloc Hinj]%wf_alt. apply wf_alt. split.
  - intros uid l Hu. apply Hm. eapply Halloc. by apply Hsub.
  - intros u1 u2 l H1 H2. eapply Hinj; by apply Hsub.
Qed.

Lemma ReadAppTraffics_wf w w1 r :
  wf w -> ReadAppTraffics w = Some (r, w1) -> wf w1.
Proof.
  intros Hwf. destruct (trafficStats (tun w)) eqn:Hon.
  - rewrite (ReadAppTraffics_run w Hon Hwf). intros [= _ <-].
    by apply wf_update_all.
  - rewrite (ReadAppTraffics_off w Hon). by intros [= _ <-].
Qed.

Lemma ResetAppTraffics_wf w w1 :
  wf w -> ResetAppTraffics w = Some (tt, w1) -> wf w1.
Proof.
  intros Hwf. destruct (trafficStats (tun w)) eqn:Hon.
  - rewrite (ResetAppTraffics_run w Hon Hwf). intros [= <-].
    eapply wf_fewer; [| |exact Hwf].
    + intros uid l. simpl. rewrite delete_all_lookup. by case_decide.
    + intros l Hl. simpl. by apply update_all_dom.
  - rewrite (ResetAppTraffics_off w Hon). by intros [= <-].
Qed.

Lemma wf_same w w1 : mem w1 = mem w -> tun w1 = tun w -> wf w -> wf w1.
Proof. unfold wf. by intros -> ->. Qed.

(** ** Steps of the handlers *)

Lemma io_only_refl w : io_only w w.
Proof. split; [done|]. split; [done|]. exists []. by rewrite app_nil_r. Qed.

Lemma io_only_trans w w1 w2 : io_only w w1 -> io_only w1 w2 -> io_only w w2.
Proof.
  intros (Hm & Ht & tr & Htr) (Hm' & Ht' & tr' & Htr').
  split; [congruence|]. split; [congruence|].
  exists (tr ++ tr'). by rewrite Htr', Htr, app_assoc.
Qed.

Lemma grows_refl w : grows w w.
Proof. split; [done|]. split; [done|]. exists []. by rewrite app_nil_r. Qed.

Lemma grows_trans w w1 w2 : grows w w1 -> grows w1 w2 -> grows w w2.
Proof.
  intros (Hm & Hw & tr & Htr) (Hm' & Hw' & tr' & Htr').
  split; [auto|]. split; [auto|].
  exists (tr ++ tr'). by rewrite Htr', Htr, app_assoc.
Qed.

Lemma io_only_grows w w1 : io_only w w1 -> grows w w1.
Proof.
  intros (Hm & Ht & Htr). split; [by rewrite Hm|].
  split; [by apply wf_same|done].
Qed.

Lemma emit_io e w : exists w1, emit e w = Some (tt, w1) /\ io_only w w1 /\
  net w1 = net w /\ trace w1 = trace w ++ [e].
Proof.
  eexists. split; [reflexivity|]. split; [|done].
  split; [done|]. split; [done|]. by exists [e].
Qed.

Lemma closeIgnore_io rs : forall w,
  exists w1, closeIgnore rs w = Some (tt, w1) /\ io_only w w1 /\
    trace w1 = trace w ++ (EvClose <$> rs).
Proof.
  unfold closeIgnore. induction rs as [|r rs IH]; intros w.
  - exists w. split; [done|]. split; [apply io_only_refl|].
    by rewrite app_nil_r.
  - cbn [forRange]. unfold mbind, M_bind.
    destruct (emit_io (EvClose r) w) as (w0 & -> & Hio & _ & Htr).
    fold (@mbind M _).
    destruct (IH w0) as (w1 & -> & Hio1 & Htr1).
    exists w1. split; [done|]. split; [by eapply io_only_trans|].
    rewrite Htr1, Htr, <- app_assoc. done.
Qed.

Lemma atomically_grows {A} (p : ptr) (f : Z -> A * Z) w :
  is_Some (mem w !! p.1) ->
  exists a w1, atomically p f w = Some (a, w1) /\ grows w w1 /\
    net w1 = net w /\ tun w1 = tun w /\ trace w1 = trace w.
Proof.
  intros [s Hs]. rewrite (atomically_run p f w s Hs).
  eexists _, _. split; [done|]. split; [|done].
  assert (forall l, is_Some (mem w !! l) ->
            is_Some (<[p.1:=set_field p.2 (f (get_field p.2 s)).2 s]>
                       (mem w) !! l)) as Halloc.
  { intros l Hl. destruct (decide (p.1 = l)) as [<-|Hne].
    - by rewrite lookup_insert_eq.
    - by rewrite lookup_insert_ne. }
  split; [exact Halloc|]. split.
  - by apply wf_preserved.
  - exists []. simpl. by rewrite app_nil_r.
Qed.

Lemma conn_Read_io c b w :
  exists r w1, conn_Read c b w = Some (r, w1) /\ io_only w w1 /\
    (length (on_Read (script_of c w1)) < length (on_Read (script_of c w))
     \/ is_Some r.2)%nat.
Proof.
  unfold conn_Read. destruct (on_Read (script_of c w)) as [|r rest] eqn:E.
  - eexists _, _. split; [done|]. split; [apply io_only_refl|].
    right. by eexists.
  - eexists _, _. split; [done|]. split.
    + split; [done|]. split; [done|]. exists []. simpl. by rewrite app_nil_r.
    + left. unfold script_of. simpl. rewrite lookup_insert_eq. simpl. lia.
Qed.

Lemma conn_readFrom_io c w :
  exists r w1, conn_readFrom c w = Some (r, w1) /\ io_only w w1 /\
    (length (on_readFrom (script_of c w1)) <
       length (on_readFrom (script_of c w)) \/ is_Some r.2)%nat.
Proof.
  unfold conn_readFrom.
  destruct (on_readFrom (script_of c w)) as [|r rest] eqn:E.
  - eexists _, _. split; [done|]. split; [apply io_only_refl|].
    right. by eexists.
  - eexists _, _. split; [done|]. split.
    + split; [done|]. split; [done|]. exists []. simpl. by rewrite app_nil_r.
    + left. unfold script_of. simpl. rewrite lookup_insert_eq. simpl. lia.
Qed.

Lemma conn_WriteTo_io c p a w :
  exists r w1, conn_WriteTo c p a w = Some (r, w1) /\ io_only w w1 /\
    on_readFrom (script_of c w1) = on_readFrom (script_of c w).
Proof.
  unfold conn_WriteTo, conn_WriteTo_result, mbind, M_bind, emit, modifyW.
  simpl. destruct (on_WriteTo _) as [|r rest] eqn:E.
  - eexists _, _. split; [done|]. split; [|done].
    split; [done|]. split; [done|]. by eexists.
  - eexists _, _. split; [done|]. split.
    + split; [done|]. split; [done|]. by eexists.
    + unfold script_of. simpl. by rewrite lookup_insert_eq.
Qed.

Lemma conn_Close_io c w :
  exists r w1, conn_Close c w = Some (r, w1) /\ io_only w w1 /\
    net w1 = net w.
Proof.
  unfold conn_Close, mbind, M_bind.
  destruct (emit_io (EvConnClose c) w) as (w1 & -> & Hio & Hnet & _).
  by eexists _, _.
Qed.

Lemma script_of_net c w w1 : net w1 = net w -> script_of c w1 = script_of c w.
Proof. unfold script_of. by intros ->. Qed.

Lemma netConn_ok_grows w w1 conn :
  grows w w1 -> netConn_ok (mem w) conn -> netConn_ok (mem w1) conn.
Proof. intros [Hm _]. destruct conn as [c|sc]; [done|]. intros [??]. split; auto. Qed.

Lemma packetConn_ok_grows w w1 conn :
  grows w w1 -> packetConn_ok (mem w) conn -> packetConn_ok (mem w1) conn.
Proof. intros [Hm _]. destruct conn as [c|sc]; [done|]. intros [??]. split; auto. Qed.

Lemma netConn_Read_grows (conn : netConn) b w :
  netConn_ok (mem w) conn ->
  exists r w1, Read conn b w = Some (r, w1) /\ grows w w1 /\
    (length (on_Read (script_of (netConn_inner conn) w1)) <
       length (on_Read (script_of (netConn_inner conn) w)) \/ is_Some r.2)%nat /\
    (forall c, conn = inl c -> io_only w w1).
Proof.
  intros Hok. destruct conn as [c|sc]; simpl.
  - destruct (conn_Read_io c b w) as (r & w1 & -> & Hio & Hlen).
    exists r, w1. split; [done|]. split; [by apply io_only_grows|].
    split; [done|]. by intros.
  - destruct Hok as [Hup _].
    unfold statsConn_Read, mbind, M_bind. simpl.
    destruct (conn_Read_io (Conn sc) b w) as ([n err] & w0 & -> & Hio & Hlen).
    destruct (atomically_grows (sc_uplink sc)
                (fun v => (uint64 (v + uint64 n), uint64 (v + uint64 n))) w0)
      as (v & w1 & Hrun & Hg & Hnet & _).
    { destruct Hio as (-> & _). done. }
    unfold atomic_AddUint64. rewrite Hrun.
    exists (n, err), w1. split; [done|].
    split; [eapply grows_trans; [by apply io_only_grows|done]|].
    split; [|intros c [=]].
    by rewrite (script_of_net _ w0 w1 Hnet).
Qed.

Lemma copy_reads_returns fuel : forall (conn : netConn) w,
  netConn_ok (mem w) conn ->
  (length (on_Read (script_of (netConn_inner conn) w)) < fuel)%nat ->
  exists w1, copy_reads fuel conn w = Some (tt, w1) /\ grows w w1 /\
    (forall c, conn = inl c -> io_only w w1).
Proof.
  induction fuel as [|fuel IH]; intros conn w Hok Hlen; [lia|].
  cbn [copy_reads]. unfold mbind, M_bind.
  destruct (netConn_Read_grows conn 8192 w Hok)
    as ([n err] & w0 & -> & Hg & Hstep & Hraw).
  destruct err as [e|].
  - exists w0. split; [done|]. split; done.
  - destruct Hstep as [Hlt|[? [=]]].
    destruct (IH conn w0) as (w1 & Hrun & Hg1 & Hraw1).
    + by eapply netConn_ok_grows.
    + lia.
    + exists w1. split; [done|]. split; [by eapply grows_trans|].
      intros c Hc. eapply io_only_trans; eauto.
Qed.

Lemma buf_Copy_returns (conn : netConn) w :
  netConn_ok (mem w) conn ->
  exists w1, buf_Copy (netConn_inner conn) conn w = Some (tt, w1) /\
    grows w w1 /\ (forall c, conn = inl c -> io_only w w1).
Proof.
  intros Hok. unfold buf_Copy, mbind, M_bind, getW.
  destruct (emit_io (EvCopy conn) w) as (w0 & -> & Hio & Hnet & _).
  destruct (copy_reads_returns
              (S (length (on_Read (script_of (netConn_inner conn) w))))
              conn w0) as (w1 & -> & Hg & Hraw).
  - eapply netConn_ok_grows; [by apply io_only_grows|done].
  - rewrite (script_of_net _ w w0 Hnet). lia.
  - exists w1. split; [done|].
    split; [eapply grows_trans; [by apply io_only_grows|done]|].
    intros c Hc. eapply io_only_trans; eauto.
Qed.

Lemma NewConnection_uid_io env t source destination inbound w :
  exists r w1,
    NewConnection_uid env t source destination inbound w = Some (r, w1) /\
    mem w1 = mem w /\ tun w1 = tun w /\ net w1 = net w /\
    (exists logs, trace w1 = trace w ++ logs /\ Forall is_Infof logs) /\
    Tag (r_inbound r) = Tag inbound.
Proof.
  assert (exists logs, trace w = trace w ++ logs /\ Forall is_Infof logs) as H0
    by (exists []; by rewrite app_nil_r).
  unfold NewConnection_uid.
  destruct (dumpUid t || trafficStats t); [|by eexists _, _].
  destruct (DumpUid _ _ _ _ _ _ _) as [u [err|]]; [by eexists _, _|].
  unfold mbind, M_bind.
  destruct (debug t && _ && _).
  - destruct (GetUidInfo env _) as [info|]; simpl;
      (eexists _, _; split; [reflexivity|]; simpl; do 3 (split; [done|]);
       split; [|done]; eexists [_]; split; [done|]; by repeat constructor).
  - by eexists _, _.
Qed.

Lemma NewPacket_uid_io env t source destination isDns inbound w :
  exists r w1,
    NewPacket_uid env t source destination isDns inbound w = Some (r, w1) /\
    mem w1 = mem w /\ tun w1 = tun w /\ net w1 = net w /\
    nextConn w1 = nextConn w /\
    (exists logs, trace w1 = trace w ++ logs /\ Forall is_Infof logs) /\
    Tag (r_inbound r) = Tag inbound.
Proof.
  assert (exists logs, trace w = trace w ++ logs /\ Forall is_Infof logs) as H0
    by (exists []; by rewrite app_nil_r).
  unfold NewPacket_uid.
  destruct (dumpUid t || trafficStats t); [|by eexists _, _].
  destruct (DumpUid _ _ _ _ _ _ _) as [u [err|]]; [by eexists _, _|].
  unfold mbind, M_bind.
  destruct (debug t && _ && _).
  - destruct (GetUidInfo env _) as [info|]; simpl;
      (eexists _, _; split; [reflexivity|]; simpl; do 4 (split; [done|]);
       split; [|done]; eexists [_]; split; [done|]; by repeat constructor).
  - by eexists _, _.
Qed.

Lemma lookup_or_create_stats_grows uid w :
  wf w ->
  exists stats w1,
    lookup_or_create_stats uid w = Some (stats, w1) /\
    is_Some (mem w1 !! stats) /\ grows w w1 /\
    net w1 = net w /\ trace w1 = trace w.
Proof.
  intros Hwf. unfold lookup_or_create_stats, mbind, M_bind, getW.
  destruct (t_appStats (tun w) !! uid) as [stats|] eqn:E.
  - exists stats, w. split; [done|].
    split; [by destruct (wf_lookup w uid stats Hwf E)|].
    split; [apply grows_refl|done].
  - rewrite E. eexists _, _. split; [reflexivity|]. simpl.
    split. { rewrite lookup_insert_eq. by eexists. }
    split; [|done]. split; [|split].
    + intros l Hl. simpl.
      destruct (decide (fresh (dom (mem w)) = l)) as [<-|Hne].
      * by rewrite lookup_insert_eq.
      * by rewrite lookup_insert_ne.
    + intros _. by apply wf_new_entry.
    + exists []. by rewrite app_nil_r.
Qed.

Lemma release_stats_grows env stats mine other w :
  is_Some (mem w !! stats) ->
  exists w1, release_stats env stats mine other w = Some (tt, w1) /\
    grows w w1 /\ trace w1 = trace w.
Proof.
  intros Hs. unfold release_stats, mbind, M_bind, atomic_AddInt32,
    atomic_LoadInt32, atomic_StoreInt64.
  destruct (atomically_grows (stats, mine)
              (fun v => (int32 (v + -1), int32 (v + -1))) w Hs)
    as (n & w1 & -> & Hg1 & _ & _ & Htr1).
  assert (is_Some (mem w1 !! stats)) as Hs1 by (by apply Hg1).
  destruct (atomically_grows (stats, other) (fun v => (v, v)) w1 Hs1)
    as (m & w2 & -> & Hg2 & _ & _ & Htr2).
  assert (is_Some (mem w2 !! stats)) as Hs2 by (by apply Hg2).
  case_decide.
  - destruct (atomically_grows (stats, F_deactivateAt)
                (fun _ => (tt, Now_Unix env)) w2 Hs2)
      as ([] & w3 & -> & Hg3 & _ & _ & Htr3).
    exists w3. split; [done|].
    split; [eauto using grows_trans|congruence].
  - exists w2. split; [done|].
    split; [eauto using grows_trans|congruence].
Qed.

(** The stats of a flow (lines 207-227 and 362-382): the entry is found
    or made and its live count and total go up by one. *)
Lemma attach_stats_grows uid (live total : field) w :
  wf w ->
  exists stats w1,
    (stats ← lookup_or_create_stats uid;
     _ ← atomic_AddInt32 (stats, live) 1;
     _ ← atomic_AddUint32 (stats, total) 1;
     _ ← atomic_StoreInt64 (stats, F_deactivateAt) 0;
     mret stats) w = Some (stats, w1) /\
    is_Some (mem w1 !! stats) /\ grows w w1 /\
    net w1 = net w /\ trace w1 = trace w.
Proof.
  intros Hwf. unfold mbind, M_bind.
  destruct (lookup_or_create_stats_grows uid w Hwf)
    as (stats & w1 & -> & Hs1 & Hg1 & Hn1 & Ht1).
  unfold atomic_AddInt32, atomic_AddUint32, atomic_StoreInt64.
  destruct (atomically_grows (stats, live)
              (fun v => (int32 (v + 1), int32 (v + 1))) w1 Hs1)
    as (? & w2 & -> & Hg2 & Hn2 & _ & Ht2).
  assert (is_Some (mem w2 !! stats)) as Hs2 by (by apply Hg2).
  destruct (atomically_grows (stats, total)
              (fun v => (uint32 (v + 1), uint32 (v + 1))) w2 Hs2)
    as (? & w3 & -> & Hg3 & Hn3 & _ & Ht3).
  assert (is_Some (mem w3 !! stats)) as Hs3 by (by apply Hg3).
  destruct (atomically_grows (stats, F_deactivateAt)
              (fun _ => (tt, 0)) w3 Hs3)
    as ([] & w4 & -> & Hg4 & Hn4 & _ & Ht4).
  exists stats, w4. split; [done|]. split; [by apply Hg4|].
  split; [eauto using grows_trans|]. split; congruence.
Qed.

(** ** NewConnection *)

Lemma NewConnection_runs env source destination conn w :
  wf w ->
  let t := tun w in
  let isDns :=
    bool_decide (Address_String (Dest_Address destination) = router t) in
  exists w1 logs ctx conn1 inbound between,
    NewConnection env source destination conn w = Some (tt, w1) /\
    trace w1 =
      trace w ++ logs ++ EvDispatchLink ctx destination conn1 :: between ++
      [EvClose (Res_conn conn1); EvClose (Res_linkReader conn);
       EvClose (Res_linkWriter conn1)] /\
    Forall is_Infof logs /\
    ctx_inbound ctx = Some inbound /\
    Tag inbound = (if isDns then "dns-in" else "socks")%string /\
    ctx_content ctx =
      (if negb isDns && (sniffing t || fakedns t)
       then Some (sniffingRequest t ["http"; "tls"]%string) else None) /\
    (DispatchLink env ctx destination ≠ None ->
     exists err, between = [EvErrorf "[TCP] dispatchLink failed: %s" err]) /\
    (isDns = true ->
     conn1 = inl conn /\ mem w1 = mem w /\ tun w1 = tun w) /\
    wf w1.
Proof.
  intros Hwf t isDns. unfold NewConnection.
  unfold mbind at 1. unfold M_bind at 1. unfold getW.
  fold t. fold isDns.
  set (inbound0 := mkInbound _ _ _ _ _).
  unfold mbind at 1. unfold M_bind at 1.
  destruct (NewConnection_uid_io env t source destination inbound0 w)
    as (r & w1 & -> & Hm1 & Ht1 & Hn1 & (logs & Htr1 & Hlogs) & Htag).
  set (ctx := with_sniffing t isDns _ _).
  assert (wf w1) as Hwf1 by (by eapply wf_same).
  assert (exists (conn1 : netConn) stats w2,
    (if trafficStats t && negb (r_self r) && negb isDns
     then
       stats ← lookup_or_create_stats (r_uid r);
       _ ← atomic_AddInt32 (stats, F_tcpConn) 1;
       _ ← atomic_AddUint32 (stats, F_tcpConnTotal) 1;
       _ ← atomic_StoreInt64 (stats, F_deactivateAt) 0;
       mret (inr (new_statsConn conn stats) : netConn, Some stats)
     else mret (inl conn : netConn, None)) w1 = Some ((conn1, stats), w2) /\
    netConn_inner conn1 = conn /\ netConn_ok (mem w2) conn1 /\
    match stats with Some s => is_Some (mem w2 !! s) | None => True end /\
    grows w1 w2 /\ net w2 = net w1 /\ trace w2 = trace w1 /\
    (isDns = true -> conn1 = inl conn /\ stats = None /\ w2 = w1))
    as (conn1 & stats & w2 & Hrun2 & Hinner & Hok2 & Hst2 & Hg2 & Hn2 & Htr2 & Hdns2).
  { destruct (trafficStats t && negb (r_self r) && negb isDns) eqn:Hc.
    - destruct (attach_stats_grows (r_uid r) F_tcpConn F_tcpConnTotal w1 Hwf1)
        as (stats & w2 & Hrun & Hs & Hg & Hn & Htr).
      exists (inr (new_statsConn conn stats)), (Some stats), w2.
      split.
      { revert Hrun. unfold mbind, M_bind.
        destruct (lookup_or_create_stats _ w1) as [[s0 w01]|]; [|done].
        destruct (atomic_AddInt32 _ _ w01) as [[? w02]|]; [|done].
        destruct (atomic_AddUint32 _ _ w02) as [[? w03]|]; [|done].
        destruct (atomic_StoreInt64 _ _ w03) as [[? w04]|]; [|done].
        by intros [= -> ->]. }
      split; [done|]. split; [by split|]. split; [done|].
      split; [done|]. split; [done|]. split; [done|].
      intros Hd. rewrite Hd in Hc. by rewrite andb_false_r in Hc.
    - exists (inl conn), None, w1. split; [done|].
      split; [done|]. split; [done|]. split; [done|].
      split; [apply grows_refl|]. done. }
  unfold mbind at 1. unfold M_bind at 1. rewrite Hrun2.
  unfold mbind at 1. unfold M_bind at 1.
  destruct (emit_io (EvDispatchLink ctx destination conn1) w2)
    as (w3 & -> & Hio3 & Hn3 & Htr3).
  assert (netConn_ok (mem w3) conn1) as Hok3.
  { eapply netConn_ok_grows; [by apply io_only_grows|done]. }
  assert (exists w4 between,
    match DispatchLink env ctx destination with
    | Some err => emit (EvErrorf "[TCP] dispatchLink failed: %s" err)
    | None => buf_Copy conn conn1
    end w3 = Some (tt, w4) /\ grows w3 w4 /\
    trace w4 = trace w3 ++ between /\
    (DispatchLink env ctx destination ≠ None ->
     exists err, between = [EvErrorf "[TCP] dispatchLink failed: %s" err]) /\
    (conn1 = inl conn -> io_only w3 w4))
    as (w4 & between & Hrun4 & Hg4 & Htr4 & Hrej & Hraw4).
  { destruct (DispatchLink env ctx destination) as [err|].
    - destruct (emit_io (EvErrorf "[TCP] dispatchLink failed: %s" err) w3)
        as (w4 & -> & Hio4 & _ & Htr4).
      exists w4, [EvErrorf "[TCP] dispatchLink failed: %s" err].
      split; [done|]. split; [by apply io_only_grows|].
      split; [done|]. split; [by exists err|]. done.
    - replace (buf_Copy conn conn1)
        with (buf_Copy (netConn_inner conn1) conn1) by (by rewrite Hinner).
      destruct (buf_Copy_returns conn1 w3 Hok3) as (w4 & -> & Hg4 & Hraw).
      destruct (Hg4) as (_ & _ & between & Hb).
      exists w4, between. split; [done|]. split; [done|].
      split; [done|]. split; [done|]. intros ->. by eapply Hraw. }
  unfold mbind at 1. unfold M_bind at 1. rewrite Hrun4.
  unfold mbind at 1. unfold M_bind at 1.
  destruct (closeIgnore_io
              [Res_conn conn1; Res_linkReader conn; Res_linkWriter conn1] w4)
    as (w5 & -> & Hio5 & Htr5).
  assert (exists w6,
    match stats with
    | Some stats => release_stats env stats F_tcpConn F_udpConn
    | None => mret tt
    end w5 = Some (tt, w6) /\ trace w6 = trace w5 /\
    (stats = None -> w6 = w5) /\ grows w5 w6)
    as (w6 & Hrun6 & Htr6 & Hraw6 & Hg6).
  { destruct stats as [s|].
    - destruct (release_stats_grows env s F_tcpConn F_udpConn w5)
        as (w6 & -> & Hg6 & Htr6).
      { destruct Hio5 as (-> & _). destruct Hio3 as (Hm3 & _).
        apply Hg4. by rewrite Hm3. }
      exists w6. split; [done|]. split; [done|]. split; [intros [=]|done].
    - exists w5. split; [done|]. split; [done|]. split; [done|].
      apply grows_refl. }
  rewrite Hrun6.
  exists w6, logs, ctx, conn1, (r_inbound r), between.
  split; [done|]. split.
  { rewrite Htr6, Htr5, Htr4, Htr3, Htr2, Htr1. simpl.
    rewrite <- !app_assoc. simpl. done. }
  split; [done|]. split.
  { unfold ctx, with_sniffing. by destruct (negb isDns && _). }
  split; [by rewrite Htag|]. split.
  { unfold ctx, with_sniffing. by destruct (negb isDns && _). }
  split; [done|]. split.
  - intros Hd. destruct (Hdns2 Hd) as (Hc1 & Hs & Hw2).
    split; [done|]. rewrite (Hraw6 Hs).
    destruct Hio5 as (Hm5 & Ht5 & _). destruct (Hraw4 Hc1) as (Hm4 & Ht4 & _).
    destruct Hio3 as (Hm3 & Ht3 & _). subst w2.
    split; [congruence|unfold t; congruence].
  - apply Hg6. apply (io_only_grows _ _ Hio5). apply Hg4.
    apply (io_only_grows _ _ Hio3). by apply Hg2.
Qed.

(** ** NewPacket *)

Lemma packetConn_readFrom_grows (conn : packetConnV) w :
  packetConn_ok (mem w) conn ->
  exists r w1, readFrom conn w = Some (r, w1) /\ grows w w1 /\
    (length (on_readFrom (script_of (packetConn_inner conn) w1)) <
       length (on_readFrom (script_of (packetConn_inner conn) w))
     \/ is_Some r.2)%nat /\
    (forall c, conn = inl c -> io_only w w1).
Proof.
  intros Hok. destruct conn as [c|sc]; simpl.
  - destruct (conn_readFrom_io c w) as (r & w1 & -> & Hio & Hlen).
    exists r, w1. split; [done|]. split; [by apply io_only_grows|].
    split; [done|]. by intros.
  - destruct Hok as [_ Hdown].
    unfold statsPacketConn_readFrom, mbind, M_bind. simpl.
    destruct (conn_readFrom_io (packetConn sc) w)
      as ([[p addr] err] & w0 & -> & Hio & Hlen).
    case_decide as Herr.
    + unfold mbind, M_bind, atomic_AddUint64.
      destruct (atomically_grows (spc_downlink sc)
                  (fun v => (uint64 (v + uint64 (len p)),
                             uint64 (v + uint64 (len p)))) w0)
        as (v & w1 & -> & Hg & Hnet & _).
      { destruct Hio as (-> & _). done. }
      exists (p, addr, err), w1. split; [done|].
      split; [eapply grows_trans; [by apply io_only_grows|done]|].
      split; [|intros c [=]].
      by rewrite (script_of_net _ w0 w1 Hnet).
    + exists (p, addr, err), w0. split; [done|].
      split; [by apply io_only_grows|]. split; [done|]. intros c [=].
Qed.

Lemma packetConn_WriteTo_grows (conn : packetConnV) p a w :
  packetConn_ok (mem w) conn ->
  exists r w1, WriteTo conn p a w = Some (r, w1) /\ grows w w1 /\
    (forall c, conn = inl c -> io_only w w1).
Proof.
  intros Hok. destruct conn as [c|sc]; simpl.
  - destruct (conn_WriteTo_io c p a w) as (r & w1 & -> & Hio & _).
    exists r, w1. split; [done|]. split; [by apply io_only_grows|].
    by intros.
  - destruct Hok as [Hup _].
    unfold statsPacketConn_WriteTo, mbind, M_bind. simpl.
    destruct (conn_WriteTo_io (packetConn sc) p a w)
      as ([n err] & w0 & -> & Hio & _).
    case_decide as Herr.
    + unfold mbind, M_bind, atomic_AddUint64.
      destruct (atomically_grows (spc_uplink sc)
                  (fun v => (uint64 (v + uint64 n), uint64 (v + uint64 n))) w0)
        as (v & w1 & -> & Hg & _).
      { destruct Hio as (-> & _). done. }
      exists (n, err), w1. split; [done|].
      split; [eapply grows_trans; [by apply io_only_grows|done]|].
      intros c [=].
    + exists (n, err), w0. split; [done|].
      split; [by apply io_only_grows|]. intros c [=].
Qed.

Lemma packetConn_Close_io (conn : packetConnV) w :
  exists r w1, PacketClose conn w = Some (r, w1) /\ io_only w w1.
Proof.
  destruct conn as [c|sc]; simpl.
  - destruct (conn_Close_io c w) as (r & w1 & -> & Hio & _). by eexists _, _.
  - destruct (conn_Close_io (packetConn sc) w) as (r & w1 & -> & Hio & _).
    by eexists _, _.
Qed.

Lemma sendTo_miss key destination data w :
  mapping (udpTable (tun w)) !! key = None ->
  sendTo key destination data w = Some (false, w).
Proof.
  intros E. unfold sendTo, natTable_Get, mbind, M_bind, getW. by rewrite E.
Qed.

Lemma sendTo_hit key destination data w conn :
  mapping (udpTable (tun w)) !! key = Some (ItemConn conn) ->
  packetConn_ok (mem w) conn ->
  exists w1, sendTo key destination data w = Some (true, w1) /\
    grows w w1 /\ (forall c, conn = inl c -> io_only w w1).
Proof.
  intros E Hok. unfold sendTo, natTable_Get, mbind, M_bind, getW.
  rewrite E. cbn -[WriteTo PacketClose].
  destruct (packetConn_WriteTo_grows conn data
              (mkUDPAddr (Address_IP (Dest_Address destination))
                 (Dest_Port destination)) w Hok)
    as ([n err] & w1 & -> & Hg & Hraw).
  destruct err as [e|].
  - unfold mbind, M_bind.
    destruct (packetConn_Close_io conn w1) as (r & w2 & -> & Hio).
    exists w2. split; [done|].
    split; [eapply grows_trans; [done|by apply io_only_grows]|].
    intros c Hc. eapply io_only_trans; eauto.
  - exists w1. by split.
Qed.

Lemma read_loop_returns fuel isDns wb : forall (conn : packetConnV) w,
  packetConn_ok (mem w) conn ->
  (length (on_readFrom (script_of (packetConn_inner conn) w)) < fuel)%nat ->
  exists w1, read_loop fuel conn isDns wb w = Some (tt, w1) /\ grows w w1 /\
    (forall c, conn = inl c -> io_only w w1).
Proof.
  induction fuel as [|fuel IH]; intros conn w Hok Hlen; [lia|].
  cbn [read_loop]. unfold mbind, M_bind.
  destruct (packetConn_readFrom_grows conn w Hok)
    as ([[buffer addr] err] & w0 & -> & Hg & Hstep & Hraw).
  destruct err as [e|].
  - exists w0. by split.
  - destruct Hstep as [Hlt|[? [=]]].
    unfold writeBack, mbind, M_bind.
    destruct (emit_io (EvWriteBack buffer
                (as_UDPAddr (if isDns then None else addr))) w0)
      as (w1 & -> & Hio & Hnet & _).
    unfold mret, M_ret.
    destruct (wb buffer (as_UDPAddr (if isDns then None else addr)))
      as [n [e|]].
    + exists w1. split; [done|].
      split; [eapply grows_trans; [done|by apply io_only_grows]|].
      intros c Hc. eapply io_only_trans; eauto.
    + destruct (IH conn w1) as (w2 & Hrun & Hg2 & Hraw2).
      * eapply packetConn_ok_grows; [|done].
        eapply grows_trans; [done|by apply io_only_grows].
      * rewrite (script_of_net _ w0 w1 Hnet). lia.
      * exists w2. split; [done|]. split.
        { eapply grows_trans; [done|].
          eapply grows_trans; [by apply io_only_grows|done]. }
        intros c Hc. eapply io_only_trans; [by eapply Hraw|].
        eapply io_only_trans; [done|by eapply Hraw2].
Qed.

Lemma NewPacket_dial_runs env a w :
  let t := tun w in
  let isDns :=
    bool_decide (Address_String (Dest_Address (a_destination a)) = router t) in
  exists od w1 logs ctx inbound uid self,
    NewPacket_dial env a w = Some (od, w1) /\
    mem w1 = mem w /\ tun w1 = tun w /\ net w1 = net w /\
    trace w1 =
      trace w ++ logs ++
      EvDialUDP ctx (a_destination a) 300000000000 ::
      match dialUDP env ctx (a_destination a) 300000000000 with
      | Some err => [EvErrorf "[UDP] dial failed: %s" err]
      | None => []
      end /\
    Forall is_Infof logs /\
    ctx_inbound ctx = Some inbound /\
    Tag inbound = (if isDns then "dns-in" else "socks")%string /\
    ctx_content ctx =
      (if negb isDns && (sniffing t || fakedns t)
       then Some (sniffingRequest t ["quic"%string]) else None) /\
    od = match dialUDP env ctx (a_destination a) 300000000000 with
         | Some _ => None
         | None => Some (mkdialed (nextConn w) isDns uid self)
         end.
Proof.
  intros t isDns. unfold NewPacket_dial.
  unfold mbind at 1. unfold M_bind at 1. unfold getW.
  fold t. fold isDns.
  set (inbound0 := mkInbound _ _ _ _ _).
  unfold mbind at 1. unfold M_bind at 1.
  destruct (NewPacket_uid_io env t (a_source a) (a_destination a) isDns
              inbound0 w)
    as (r & w1 & -> & Hm1 & Ht1 & Hn1 & Hc1 & (logs & Htr1 & Hlogs) & Htag).
  set (ctx := with_sniffing t isDns _ _).
  change (5 * 60 * 1000000000) with 300000000000.
  unfold mbind at 1. unfold M_bind at 1.
  change (emit (EvDialUDP ctx (a_destination a) 300000000000) w1)
    with (Some (tt, set_trace
                      (fun tr => tr ++
                         [EvDialUDP ctx (a_destination a) 300000000000]) w1)).
  set (w2 := set_trace _ w1).
  assert (mem w2 = mem w1) as Hm2 by done.
  assert (tun w2 = tun w1) as Ht2 by done.
  assert (net w2 = net w1) as Hn2 by done.
  assert (nextConn w2 = nextConn w1) as Hc2 by done.
  assert (trace w2 =
            trace w1 ++ [EvDialUDP ctx (a_destination a) 300000000000])
    as Htr2 by done.
  clearbody w2.
  assert (ctx_inbound ctx = Some (r_inbound r)) as Hin.
  { unfold ctx, with_sniffing. by destruct (negb isDns && _). }
  assert (ctx_content ctx =
            (if negb isDns && (sniffing t || fakedns t)
             then Some (sniffingRequest t ["quic"%string]) else None)) as Hct.
  { unfold ctx, with_sniffing. by destruct (negb isDns && _). }
  destruct (dialUDP env ctx (a_destination a) 300000000000) as [err|] eqn:Hdial.
  - unfold mbind, M_bind.
    destruct (emit_io (EvErrorf "[UDP] dial failed: %s" err) w2)
      as (w3 & -> & (Hm3 & Ht3 & _) & Hn3 & Htr3).
    exists None, w3, logs, ctx, (r_inbound r), 0, false. rewrite Hdial.
    split; [done|]. split; [congruence|].
    split; [unfold t; congruence|]. split; [congruence|]. split.
    { rewrite Htr3, Htr2, Htr1, <- !app_assoc. done. }
    split; [done|]. split; [done|]. split; [by rewrite Htag|]. done.
  - unfold mbind, M_bind, getW, modifyW. simpl.
    eexists _, _, logs, ctx, (r_inbound r), (r_uid r), (r_self r).
    rewrite Hdial.
    split; [reflexivity|]. simpl.
    split; [congruence|]. split; [unfold t; congruence|].
    split; [congruence|]. split.
    { rewrite Htr2, Htr1, <- !app_assoc. done. }
    split; [done|]. split; [done|]. split; [by rewrite Htag|].
    split; [done|]. unfold mret, M_ret.
    by rewrite Hc2, Hc1.
Qed.

Lemma NewPacket_install_runs a d w :
  wf w ->
  exists conn1 stats w1,
    NewPacket_install a d w = Some ((conn1, stats), w1) /\
    packetConn_inner conn1 = d_conn d /\
    packetConn_ok (mem w1) conn1 /\
    match stats with Some s => is_Some (mem w1 !! s) | None => True end /\
    grows w w1 /\ trace w1 = trace w /\ net w1 = net w /\
    mapping (udpTable (tun w1)) !! natKey_of a = Some (ItemConn conn1) /\
    (d_isDns d = true ->
     conn1 = inl (d_conn d) /\ stats = None /\ mem w1 = mem w /\
     t_appStats (tun w1) = t_appStats (tun w)).
Proof.
  intros Hwf. unfold NewPacket_install.
  unfold mbind at 1. unfold M_bind at 1. unfold getW.
  unfold mbind at 1. unfold M_bind at 1.
  destruct (trafficStats (tun w) && negb (d_self d) && negb (d_isDns d))
    eqn:Hc.
  - destruct (attach_stats_grows (d_uid d) F_udpConn F_udpConnTotal w Hwf)
      as (stats & w1 & Hrun & Hs & Hg & Hn & Htr).
    assert ((stats ← lookup_or_create_stats (d_uid d);
             _ ← atomic_AddInt32 (stats, F_udpConn) 1;
             _ ← atomic_AddUint32 (stats, F_udpConnTotal) 1;
             _ ← atomic_StoreInt64 (stats, F_deactivateAt) 0;
             mret (inr (new_statsPacketConn (d_conn d) stats) : packetConnV,
                   Some stats)) w =
            Some ((inr (new_statsPacketConn (d_conn d) stats), Some stats), w1))
      as ->.
    { revert Hrun. unfold mbind, M_bind.
      destruct (lookup_or_create_stats _ w) as [[s0 w01]|]; [|done].
      destruct (atomic_AddInt32 _ _ w01) as [[? w02]|]; [|done].
      destruct (atomic_AddUint32 _ _ w02) as [[? w03]|]; [|done].
      destruct (atomic_StoreInt64 _ _ w03) as [[? w04]|]; [|done].
      by intros [= -> ->]. }
    eexists _, _, _. split; [reflexivity|]. simpl.
    split; [done|]. split; [by split|]. split; [done|].
    split; [done|]. split; [done|]. split; [done|].
    split; [by rewrite lookup_insert_eq|].
    intros Hd. rewrite Hd in Hc. by rewrite andb_false_r in Hc.
  - eexists _, _, _. split; [reflexivity|]. simpl.
    split; [done|]. split; [done|]. split; [done|].
    split; [split; [done|split; [done|exists []; simpl; by rewrite app_nil_r]]|].
    split; [done|]. split; [done|].
    split; [by rewrite lookup_insert_eq|]. done.
Qed.

Lemma NewPacket_serve_runs env a d conn1 stats w :
  mapping (udpTable (tun w)) !! natKey_of a = Some (ItemConn conn1) ->
  packetConn_ok (mem w) conn1 ->
  packetConn_inner conn1 = d_conn d ->
  match stats with Some s => is_Some (mem w !! s) | None => True end ->
  exists w1 between,
    NewPacket_serve env a d conn1 stats w = Some (tt, w1) /\
    trace w1 =
      trace w ++ between ++
      [EvClose (Res_packetConn conn1); EvClose (Res_closer (a_closer a))] /\
    (forall c, conn1 = inl c -> stats = None ->
     mem w1 = mem w /\ t_appStats (tun w1) = t_appStats (tun w)) /\
    (wf w -> wf w1).
Proof.
  intros Htab Hok Hinner Hstats. unfold NewPacket_serve.
  unfold mbind at 1. unfold M_bind at 1.
  destruct (sendTo_hit (natKey_of a) (a_destination a) (a_data a) w conn1
              Htab Hok) as (w1 & -> & Hg1 & Hraw1).
  unfold mbind at 1. unfold M_bind at 1. unfold getW.
  unfold mbind at 1. unfold M_bind at 1.
  destruct (read_loop_returns
              (S (length (on_readFrom (script_of (d_conn d) w1))))
              (d_isDns d) (a_writeBack a) conn1 w1)
    as (w2 & -> & Hg2 & Hraw2).
  { by eapply packetConn_ok_grows. }
  { rewrite Hinner. lia. }
  unfold mbind at 1. unfold M_bind at 1.
  destruct (closeIgnore_io
              [Res_packetConn conn1; Res_closer (a_closer a)] w2)
    as (w3 & -> & Hio3 & Htr3).
  unfold mbind at 1. unfold M_bind at 1.
  unfold natTable_Delete at 1. unfold modifyW at 1.
  set (w4 := set_tun _ w3).
  assert (mem w4 = mem w3) as Hm4 by done.
  assert (trace w4 = trace w3) as Htr4 by done.
  assert (t_appStats (tun w4) = t_appStats (tun w3)) as Ht4 by done.
  assert (wf w3 -> wf w4) as Hwf4 by done.
  clearbody w4.
  assert (exists w5,
    match stats with
    | Some stats => release_stats env stats F_udpConn F_tcpConn
    | None => mret tt
    end w4 = Some (tt, w5) /\ trace w5 = trace w4 /\
    (stats = None -> w5 = w4) /\ grows w4 w5)
    as (w5 & -> & Htr5 & Hraw5 & Hg5).
  { destruct stats as [s|].
    - destruct (release_stats_grows env s F_udpConn F_tcpConn w4)
        as (w5 & -> & Hg5 & Htr5).
      { rewrite Hm4. destruct Hio3 as (-> & _). apply Hg2. by apply Hg1. }
      exists w5. split; [done|]. split; [done|]. split; [intros [=]|done].
    - exists w4. split; [done|]. split; [done|]. split; [done|].
      apply grows_refl. }
  destruct (Hg1) as (_ & Hw1 & tr1 & Htr1).
  destruct (Hg2) as (_ & Hw2 & tr2 & Htr2).
  exists w5, (tr1 ++ tr2). split; [done|]. split.
  { rewrite Htr5, Htr4, Htr3, Htr2, Htr1, <- !app_assoc. done. }
  split.
  - intros c Hc Hs. rewrite (Hraw5 Hs).
    destruct (Hraw1 c Hc) as (Hm1 & Ht1 & _).
    destruct (Hraw2 c Hc) as (Hm2 & Ht2 & _).
    destruct Hio3 as (Hm3 & Ht3 & _).
    split; congruence.
  - intros Hwf. apply Hg5, Hwf4. apply (io_only_grows _ _ Hio3). auto.
Qed.

Lemma GetOrCreateLock_fresh key w :
  mapping (udpTable (tun w)) !! key = None ->
  natTable_GetOrCreateLock key w =
    Some ((nextCond w, false),
          set_tun (set_udpTable (insert key (ItemCond (nextCond w))))
            (mkWorld (tun w) (mem w) (net w) (nextConn w)
               (Pos.succ (nextCond w)) (trace w))).
Proof.
  intros E. unfold natTable_GetOrCreateLock, mbind, M_bind, getW, modifyW.
  by rewrite E.
Qed.

Lemma NewPacket_unlock_run a cond w :
  NewPacket_unlock a cond w =
    Some (tt, set_trace (fun tr => tr ++ [EvBroadcast cond])
                (set_tun (set_udpTable (delete (lockKey_of a))) w)).
Proof. reflexivity. Qed.

(** A call of [NewPacket] for a source that has neither a conn nor a lock
    in the NAT table, on a well-formed registry: the call returns; it
    broadcasts and dials, and then either logs the rejection and stops, or
    serves the flow and closes the upstream conn and the closer. *)
Lemma NewPacket_runs env a w :
  wf w ->
  mapping (udpTable (tun w)) !! natKey_of a = None ->
  mapping (udpTable (tun w)) !! lockKey_of a = None ->
  let t := tun w in
  let isDns :=
    bool_decide (Address_String (Dest_Address (a_destination a)) = router t) in
  exists w1 logs ctx inbound rest,
    NewPacket env a w = Some (Returned, w1) /\
    trace w1 =
      trace w ++ EvBroadcast (nextCond w) :: logs ++
      EvDialUDP ctx (a_destination a) 300000000000 :: rest /\
    Forall is_Infof logs /\
    ctx_inbound ctx = Some inbound /\
    Tag inbound = (if isDns then "dns-in" else "socks")%string /\
    ctx_content ctx =
      (if negb isDns && (sniffing t || fakedns t)
       then Some (sniffingRequest t ["quic"%string]) else None) /\
    match dialUDP env ctx (a_destination a) 300000000000 with
    | Some err =>
        rest = [EvErrorf "[UDP] dial failed: %s" err] /\
        mem w1 = mem w /\ t_appStats (tun w1) = t_appStats (tun w)
    | None =>
        exists conn1 between,
          rest = between ++
                 [EvClose (Res_packetConn conn1);
                  EvClose (Res_closer (a_closer a))] /\
          (isDns = true ->
           conn1 = inl (nextConn w) /\ mem w1 = mem w /\
           t_appStats (tun w1) = t_appStats (tun w))
    end /\
    wf w1.
Proof.
  intros Hwf Hnat Hlock t isDns. unfold NewPacket.
  unfold mbind at 1. unfold M_bind at 1.
  rewrite (sendTo_miss _ _ _ _ Hnat).
  unfold mbind at 1. unfold M_bind at 1.
  rewrite (GetOrCreateLock_fresh (lockKey_of a) w Hlock).
  unfold mbind at 1. unfold M_bind at 1.
  rewrite NewPacket_unlock_run. cbv beta iota.
  set (w2 := set_trace _ _).
  assert (mem w2 = mem w) as Hm2 by done.
  assert (net w2 = net w) as Hn2 by done.
  assert (nextConn w2 = nextConn w) as Hc2 by done.
  assert (trace w2 = trace w ++ [EvBroadcast (nextCond w)]) as Htr2 by done.
  assert (t_appStats (tun w2) = t_appStats (tun w)) as Hap2 by done.
  assert (router (tun w2) = router t /\ sniffing (tun w2) = sniffing t /\
          fakedns (tun w2) = fakedns t /\
          overrideDestination (tun w2) = overrideDestination t)
    as (Hr2 & Hsn2 & Hfk2 & Hov2) by done.
  assert (mapping (udpTable (tun w2)) !! natKey_of a = None) as Hnat2.
  { simpl. destruct (decide (lockKey_of a = natKey_of a)) as [Heq|Hne].
    - rewrite <- Heq. apply lookup_delete_eq.
    - rewrite lookup_delete_ne, lookup_insert_ne by done. done. }
  assert (wf w2) as Hwf2.
  { unfold wf. by rewrite Hap2, Hm2. }
  clearbody w2.
  destruct (NewPacket_dial_runs env a w2)
    as (od & w3 & logs & ctx & inbound & uid & self & Hrun3 & Hm3 & Ht3 &
        Hn3 & Htr3 & Hlogs & Hin & Htag & Hct & Hod).
  unfold mbind at 1. unfold M_bind at 1. rewrite Hrun3.
  assert (sniffingRequest (tun w2) ["quic"%string] =
          sniffingRequest t ["quic"%string]) as Hsr.
  { unfold sniffingRequest. by rewrite Hsn2, Hfk2, Hov2. }
  rewrite Hr2, Hsn2, Hfk2, Hsr in Hct. rewrite Hr2 in Htag, Hod.
  fold isDns in Hct, Htag, Hod.
  destruct (dialUDP env ctx (a_destination a) 300000000000) as [err|] eqn:Hdial.
  - subst od. exists w3, logs, ctx, inbound, [EvErrorf "[UDP] dial failed: %s" err].
    rewrite Hdial.
    split; [done|]. split.
    { rewrite Htr3, Htr2, <- !app_assoc. done. }
    split; [done|]. split; [done|]. split; [done|]. split; [done|].
    split; [split; [done|split; congruence]|]. by eapply wf_same.
  - subst od. set (d := mkdialed _ _ _ _).
    unfold mbind at 1. unfold M_bind at 1.
    assert (wf w3) as Hwf3 by (by eapply wf_same).
    destruct (NewPacket_install_runs a d w3 Hwf3)
      as (conn1 & stats & w4 & -> & Hinner & Hok4 & Hst4 & Hg4 & Htr4 & Hn4 &
          Htab4 & Hdns4).
    unfold mbind at 1. unfold M_bind at 1.
    destruct (NewPacket_serve_runs env a d conn1 stats w4 Htab4 Hok4 Hinner Hst4)
      as (w5 & between & -> & Htr5 & Hraw5 & Hwf5).
    exists w5, logs, ctx, inbound,
      (between ++ [EvClose (Res_packetConn conn1);
                   EvClose (Res_closer (a_closer a))]).
    rewrite Hdial.
    split; [done|]. split.
    { rewrite Htr5, Htr4, Htr3, Htr2, <- !app_assoc. done. }
    split; [done|]. split; [done|]. split; [done|]. split; [done|].
    split; [|by apply Hwf5, Hg4].
    exists conn1, between. split; [done|].
    intros Hd. destruct (Hdns4 Hd) as (Hc1 & Hs1 & Hm4 & Hap4).
    destruct (Hraw5 _ Hc1 Hs1) as (Hm5 & Hap5).
    split; [by rewrite Hc1; simpl; rewrite Hc2|].
    split; congruence.
Qed.

(** ** DNS flows *)

(** C9.  On a well-formed registry both handlers return.  The inbound
    they hand to the dispatcher has the tag "dns-in" exactly when the
    string of the destination address is the router of the bridge, and
    "socks" otherwise.  For such a DNS flow the context carries no sniffing
    request, whatever [sniffing] and [fakedns] are, the conn is handed over
    and closed unwrapped, and no entry is made or changed: the entries and
    the app-stats map are as before the call.  For [NewPacket] this is the
    call that sets up the flow, the source having neither a conn nor a
    lock in the NAT table. *)
Theorem dns_flow_classification (env : Env) (w : World) :
  wf w ->
  (forall source destination conn,
      exists w1 logs ctx conn1 inbound rest,
        NewConnection env source destination conn w = Some (tt, w1) /\
        trace w1 =
          trace w ++ logs ++ EvDispatchLink ctx destination conn1 :: rest /\
        Forall is_Infof logs /\
        ctx_inbound ctx = Some inbound /\
        (Tag inbound = "dns-in"%string <->
         Address_String (Dest_Address destination) = router (tun w)) /\
        (Address_String (Dest_Address destination) ≠ router (tun w) ->
         Tag inbound = "socks"%string) /\
        (Address_String (Dest_Address destination) = router (tun w) ->
         ctx_content ctx = None /\ conn1 = inl conn /\
         mem w1 = mem w /\ t_appStats (tun w1) = t_appStats (tun w))) /\
  (forall a,
      mapping (udpTable (tun w)) !! natKey_of a = None ->
      mapping (udpTable (tun w)) !! lockKey_of a = None ->
      exists w1 pre ctx inbound rest,
        NewPacket env a w = Some (Returned, w1) /\
        trace w1 =
          trace w ++ pre ++
          EvDialUDP ctx (a_destination a) 300000000000 :: rest /\
        Forall (fun e => is_Infof e \/ e = EvBroadcast (nextCond w)) pre /\
        ctx_inbound ctx = Some inbound /\
        (Tag inbound = "dns-in"%string <->
         Address_String (Dest_Address (a_destination a)) = router (tun w)) /\
        (Address_String (Dest_Address (a_destination a)) ≠ router (tun w) ->
         Tag inbound = "socks"%string) /\
        (Address_String (Dest_Address (a_destination a)) = router (tun w) ->
         ctx_content ctx = None /\
         mem w1 = mem w /\ t_appStats (tun w1) = t_appStats (tun w) /\
         (dialUDP env ctx (a_destination a) 300000000000 = None ->
          exists between,
            rest = between ++
                   [EvClose (Res_packetConn (inl (nextConn w)));
                    EvClose (Res_closer (a_closer a))]))).
Proof.
  intros Hwf. split.
  - intros source destination conn.
    destruct (NewConnection_runs env source destination conn w Hwf)
      as (w1 & logs & ctx & conn1 & inbound & between & Hrun & Htr & Hlogs &
          Hin & Htag & Hct & _ & Hdns & _).
    eexists w1, logs, ctx, conn1, inbound, _.
    split; [done|]. split; [exact Htr|]. split; [done|]. split; [done|].
    destruct (decide (Address_String (Dest_Address destination) =
                      router (tun w))) as [Hd|Hd].
    + rewrite (bool_decide_eq_true_2 _ Hd) in Htag, Hct, Hdns.
      split; [by rewrite Htag|]. split; [done|]. intros _.
      destruct (Hdns eq_refl) as (Hc1 & Hm & Ht).
      split; [done|]. split; [done|]. split; [done|]. by rewrite Ht.
    + rewrite (bool_decide_eq_false_2 _ Hd) in Htag.
      split; [split; [by rewrite Htag|done]|]. by split.
  - intros a Hnat Hlock.
    destruct (NewPacket_runs env a w Hwf Hnat Hlock)
      as (w1 & logs & ctx & inbound & rest & Hrun & Htr & Hlogs &
          Hin & Htag & Hct & Hrest & _).
    exists w1, (EvBroadcast (nextCond w) :: logs), ctx, inbound, rest.
    split; [done|]. split; [exact Htr|]. split.
    { constructor; [by right|].
      eapply Forall_impl; [exact Hlogs|]. intros e He. by left. }
    split; [done|].
    destruct (decide (Address_String (Dest_Address (a_destination a)) =
                      router (tun w))) as [Hd|Hd].
    + rewrite (bool_decide_eq_true_2 _ Hd) in Htag, Hct, Hrest.
      split; [by rewrite Htag|]. split; [done|]. intros _.
      split; [done|].
      destruct (dialUDP env ctx (a_destination a) 300000000000) as [err|].
      * destruct Hrest as (_ & Hm & Ht). done.
      * destruct Hrest as (conn1 & between & Hrest & Hdns).
        destruct (Hdns eq_refl) as (-> & Hm & Ht).
        split; [done|]. split; [done|]. intros _. by exists between.
    + rewrite (bool_decide_eq_false_2 _ Hd) in Htag.
      split; [split; [by rewrite Htag|done]|]. by split.
Qed.

Lemma ex_bridge_wf : wf ex_bridge.
Proof. apply (bool_decide_unpack _). vm_compute. exact I. Defined.

(** The theorem on [ex_bridge], for a TCP flow and a datagram to the
    router address. *)
Lemma dns_flow_classification_witness :
  (exists w1 ctx,
      NewConnection ex_env ex_tcp_source ex_router_tcp 7%positive ex_bridge =
        Some (tt, w1) /\
      EvDispatchLink ctx ex_router_tcp (inl 7%positive) ∈ trace w1 /\
      ctx_content ctx = None /\ mem w1 = mem ex_bridge) /\
  (exists w1 ctx,
      NewPacket ex_env ex_dns_packet ex_bridge = Some (Returned, w1) /\
      EvDialUDP ctx ex_router_udp 300000000000 ∈ trace w1 /\
      ctx_content ctx = None /\ mem w1 = mem ex_bridge).
Proof.
  destruct (dns_flow_classification ex_env ex_bridge ex_bridge_wf)
    as [Htcp Hudp]. split.
  - destruct (Htcp ex_tcp_source ex_router_tcp 7%positive)
      as (w1 & logs & ctx & conn1 & inbound & rest & Hrun & Htr & _ & _ & _ &
          _ & Hdns).
    destruct (Hdns eq_refl) as (Hct & -> & Hm & _).
    exists w1, ctx. split; [exact Hrun|]. split; [|by split].
    rewrite Htr. apply elem_of_app. right.
    apply elem_of_app. right. by left.
  - destruct (Hudp ex_dns_packet eq_refl eq_refl)
      as (w1 & pre & ctx & inbound & rest & Hrun & Htr & _ & _ & _ & _ & Hdns).
    destruct (Hdns eq_refl) as (Hct & Hm & _).
    exists w1, ctx. split; [exact Hrun|]. split; [|by split].
    rewrite Htr. apply elem_of_app. right.
    apply elem_of_app. right. by left.
Defined.

(** * Further properties of the code *)

(** ** The keys of the NAT table *)

Lemma append_String c s1 s2 :
  (String c s1 +:+ s2)%string = String c (s1 +:+ s2).
Proof. reflexivity. Qed.

Lemma append_snoc pre c s :
  (pre +:+ String c s)%string = ((pre +:+ String c EmptyString) +:+ s)%string.
Proof.
  induction pre as [|c' pre IH]; [done|].
  rewrite !append_String. by f_equal.
Qed.

Lemma last_char_app s1 s2 :
  s2 ≠ EmptyString -> last_char (s1 +:+ s2) = last_char s2.
Proof.
  intros Hs2. induction s1 as [|c s1 IH]; [done|].
  rewrite append_String. cbn [last_char]. rewrite IH.
  destruct (s1 +:+ s2)%string eqn:E; [|done].
  destruct s1; [done|discriminate].
Qed.

Lemma pretty_N_go_suffix (x : N) : forall s,
  exists pre, pretty_N_go x s = (pre +:+ s)%string.
Proof.
  induction (N.lt_wf_0 x) as [x _ IH]. intros s.
  destruct (decide (x = 0)%N) as [->|Hx].
  - exists EmptyString. by rewrite pretty_N_go_0.
  - rewrite pretty_N_go_step by lia.
    destruct (IH (x `div` 10)%N) with
      (s := String (pretty_N_char (x `mod` 10)) s) as [pre Hpre].
    { apply N.div_lt; lia. }
    exists (pre +:+ String (pretty_N_char (x `mod` 10)) EmptyString)%string.
    etrans; [exact Hpre|]. apply append_snoc.
Qed.

Lemma pretty_N_char_digit (x : N) :
  String (pretty_N_char x) EmptyString ≠ "k"%string.
Proof.
  destruct x as [|p]; [done|].
  do 4 (try destruct p as [p|p|]); done.
Qed.

Lemma pretty_pos_last (p : positive) :
  exists c, last_char (pretty (Npos p)) = Some c /\ String c EmptyString ≠ "k"%string.
Proof.
  unfold pretty, pretty_N. rewrite decide_False by done.
  rewrite pretty_N_go_step by lia.
  destruct (pretty_N_go_suffix (N.pos p `div` 10)
              (String (pretty_N_char (N.pos p `mod` 10)) EmptyString))
    as [pre ->].
  rewrite last_char_app by done.
  eexists. split; [reflexivity|apply pretty_N_char_digit].
Qed.

Lemma pretty_Z_last (x : Z) :
  exists c, last_char (pretty x) = Some c /\ String c EmptyString ≠ "k"%string.
Proof.
  destruct x as [|p|p].
  - by eexists.
  - apply pretty_pos_last.
  - destruct (pretty_pos_last p) as (c & Hc & Hk).
    exists c. split; [|done].
    change (pretty (Z.neg p)) with ("-" +:+ pretty (N.pos p))%string.
    rewrite last_char_app; [done|].
    intros E. by rewrite E in Hc.
Qed.

Lemma NetAddr_last d :
  exists c, last_char (NetAddr d) = Some c /\ String c EmptyString ≠ "k"%string.
Proof.
  destruct (pretty_Z_last (Dest_Port d)) as (c & Hc & Hk).
  exists c. split; [|done]. unfold NetAddr.
  assert (pretty (Dest_Port d) ≠ EmptyString) as Hne
    by (intros E; by rewrite E in Hc).
  rewrite !last_char_app; [done|done|].
  by destruct (pretty (Dest_Port d)).
Qed.

Lemma lockKey_ne_natKey a b : lockKey_of a ≠ natKey_of b.
Proof.
  intros E. apply (f_equal last_char) in E.
  unfold lockKey_of in E. rewrite last_char_app in E by done.
  destruct (NetAddr_last (a_source b)) as (c & Hc & Hk).
  unfold natKey_of in E. rewrite Hc in E. simpl in E. congruence.
Qed.

(** ** The NAT table *)

(** X1.  [Set], [Get] and [Delete] on one key: [Get] returns the conn of
    the last [Set], a second [Set] replaces the first conn, and after
    [Delete] the key is absent and [Get] returns nil.  The other keys, the
    entries, the app-stats map and the trace are untouched throughout. *)
Theorem natTable_Set_Get_Delete key (pc pc' : packetConnV) (w : World) :
  exists w1 w2 w3,
    natTable_Set key pc w = Some (tt, w1) /\
    natTable_Get key w1 = Some (Some pc, w1) /\
    natTable_Set key pc' w1 = Some (tt, w2) /\
    natTable_Get key w2 = Some (Some pc', w2) /\
    natTable_Delete key w2 = Some (tt, w3) /\
    natTable_Get key w3 = Some (None, w3) /\
    (forall key', key' ≠ key ->
       mapping (udpTable (tun w1)) !! key' = mapping (udpTable (tun w)) !! key' /\
       mapping (udpTable (tun w2)) !! key' = mapping (udpTable (tun w)) !! key' /\
       mapping (udpTable (tun w3)) !! key' = mapping (udpTable (tun w)) !! key') /\
    mem w3 = mem w /\ t_appStats (tun w3) = t_appStats (tun w) /\
    trace w3 = trace w.
Proof.
  eexists _, _, _. split; [reflexivity|].
  split. { unfold natTable_Get, mbind, M_bind, getW. simpl.
           by rewrite lookup_insert_eq. }
  split; [reflexivity|].
  split. { unfold natTable_Get, mbind, M_bind, getW. simpl.
           by rewrite lookup_insert_eq. }
  split; [reflexivity|].
  split. { unfold natTable_Get, mbind, M_bind, getW. simpl.
           by rewrite lookup_delete_eq. }
  split; [|done]. intros key' Hne. simpl.
  rewrite lookup_delete_ne, !lookup_insert_ne by done. done.
Qed.

Lemma lock_calls_loaded n key cond : forall w,
  mapping (udpTable (tun w)) !! key = Some (ItemCond cond) ->
  exists w1,
    lock_calls n key w = Some (replicate n (cond, true), w1) /\
    tun w1 = tun w /\ mem w1 = mem w /\ trace w1 = trace w /\
    (nextCond w <= nextCond w1)%positive.
Proof.
  induction n as [|n IH]; intros w E.
  - exists w. repeat split; try done; lia.
  - cbn [lock_calls]. unfold mbind at 1. unfold M_bind at 1.
    unfold natTable_GetOrCreateLock, mbind, M_bind, getW, modifyW.
    rewrite E. cbv beta iota. unfold mret at 1. unfold M_ret at 1.
    cbv beta iota. fold (@mbind M _).
    set (w0 := mkWorld _ _ _ _ _ _).
    destruct (IH w0 E) as (w1 & Hrun & Ht & Hm & Htr & Hc).
    unfold mbind, M_bind. rewrite Hrun. exists w1.
    split; [done|]. split; [done|]. split; [done|]. split; [done|].
    simpl in Hc. lia.
Qed.

(** X2.  [GetOrCreateLock] on a key that is absent: of any number of
    callers in a row the first is answered [loaded = false] with a new
    cond and every later one [loaded = true] with that same cond; the
    table holds that cond under the key and is otherwise as before.  After
    [Delete] the next caller is again answered [loaded = false], with a
    cond that is not the first one. *)
Theorem GetOrCreateLock_load_or_store (n : nat) key (w : World) :
  mapping (udpTable (tun w)) !! key = None ->
  exists w1 w2 cond' w3,
    lock_calls (S n) key w =
      Some ((nextCond w, false) :: replicate n (nextCond w, true), w1) /\
    mapping (udpTable (tun w1)) =
      <[key := ItemCond (nextCond w)]> (mapping (udpTable (tun w))) /\
    mem w1 = mem w /\ trace w1 = trace w /\
    natTable_Delete key w1 = Some (tt, w2) /\
    natTable_GetOrCreateLock key w2 = Some ((cond', false), w3) /\
    cond' ≠ nextCond w.
Proof.
  intros E. cbn [lock_calls]. unfold mbind at 1. unfold M_bind at 1.
  rewrite (GetOrCreateLock_fresh key w E).
  set (w0 := set_tun _ _).
  assert (mapping (udpTable (tun w0)) !! key = Some (ItemCond (nextCond w)))
    as E0 by (simpl; apply lookup_insert_eq).
  destruct (lock_calls_loaded n key (nextCond w) w0 E0)
    as (w1 & Hrun & Ht & Hm & Htr & Hc).
  unfold mbind, M_bind. rewrite Hrun.
  eexists w1, _, _, _. split; [done|].
  split; [by rewrite Ht|]. split; [done|]. split; [done|].
  split; [reflexivity|]. split.
  - apply GetOrCreateLock_fresh. simpl. apply lookup_delete_eq.
  - simpl. simpl in Hc. lia.
Qed.

Lemma GetOrCreateLock_load_or_store_witness :
  exists w1,
    lock_calls 3 "10.0.0.2:6000-lock" ex_bridge =
      Some ([(1%positive, false); (1%positive, true); (1%positive, true)], w1).
Proof.
  destruct (GetOrCreateLock_load_or_store 2 "10.0.0.2:6000-lock" ex_bridge
              eq_refl) as (w1 & _ & _ & _ & Hrun & _).
  exists w1. exact Hrun.
Defined.

(** X3.  The lock key of a source is no source's NAT key: the key of a
    source ends in the digits of its port, the lock key in "-lock".  So on
    a table whose items are of the kind their keys ask for, the type
    assertions of [Get] on a source key and of [GetOrCreateLock] on a lock
    key do not panic, and [Set] on a source key, [GetOrCreateLock] on a
    lock key and [Delete] on any key leave such a table behind.  On the
    other kind of item the assertions do panic. *)
Theorem natTable_type_assertions (a : packetArgs) (w : World) :
  table_typed (mapping (udpTable (tun w))) ->
  (forall b, lockKey_of a ≠ natKey_of b) /\
  (exists r, natTable_Get (natKey_of a) w = Some (r, w)) /\
  (exists r w1,
     natTable_GetOrCreateLock (lockKey_of a) w = Some (r, w1) /\
     table_typed (mapping (udpTable (tun w1)))) /\
  (forall pc w1,
     natTable_Set (natKey_of a) pc w = Some (tt, w1) ->
     table_typed (mapping (udpTable (tun w1)))) /\
  (forall key w1,
     natTable_Delete key w = Some (tt, w1) ->
     table_typed (mapping (udpTable (tun w1)))) /\
  (forall key c,
     mapping (udpTable (tun w)) !! key = Some (ItemCond c) ->
     natTable_Get key w = None) /\
  (forall key pc,
     mapping (udpTable (tun w)) !! key = Some (ItemConn pc) ->
     natTable_GetOrCreateLock key w = None).
Proof.
  intros Hty.
  split; [intros b; apply lockKey_ne_natKey|].
  split.
  { unfold natTable_Get, mbind, M_bind, getW.
    destruct (mapping (udpTable (tun w)) !! natKey_of a) as [[pc|c]|] eqn:E;
      [by eexists|by destruct (proj1 (Hty a) c)|by eexists]. }
  split.
  { unfold natTable_GetOrCreateLock, mbind, M_bind, getW, modifyW.
    destruct (mapping (udpTable (tun w)) !! lockKey_of a) as [[pc|c]|] eqn:E.
    - by destruct (proj2 (Hty a) pc).
    - eexists _, _. split; [reflexivity|]. exact Hty.
    - eexists _, _. split; [reflexivity|]. simpl. intros b. split.
      + intros c. rewrite lookup_insert_ne; [apply Hty|].
        apply lockKey_ne_natKey.
      + intros pc.
        destruct (decide (lockKey_of a = lockKey_of b)) as [->|Hne].
        * by rewrite lookup_insert_eq.
        * rewrite lookup_insert_ne by done. apply Hty. }
  split.
  { intros pc w1 [= <-]. simpl. intros b. split.
    - intros c. destruct (decide (natKey_of a = natKey_of b)) as [->|Hne].
      + by rewrite lookup_insert_eq.
      + rewrite lookup_insert_ne by done. apply Hty.
    - intros pc'. rewrite lookup_insert_ne; [apply Hty|].
      intros E. by apply (lockKey_ne_natKey b a). }
  split.
  { intros key w1 [= <-]. simpl. intros b. split.
    - intros c. destruct (decide (key = natKey_of b)) as [->|Hne].
      + by rewrite lookup_delete_eq.
      + rewrite lookup_delete_ne by done. apply Hty.
    - intros pc. destruct (decide (key = lockKey_of b)) as [->|Hne].
      + by rewrite lookup_delete_eq.
      + rewrite lookup_delete_ne by done. apply Hty. }
  split.
  - intros key c E. unfold natTable_Get, mbind, M_bind, getW. by rewrite E.
  - intros key pc E.
    unfold natTable_GetOrCreateLock, mbind, M_bind, getW, modifyW.
    by rewrite E.
Qed.

Lemma table_typed_empty : table_typed ∅.
Proof. intros a. split; intros ?; by rewrite lookup_empty. Qed.

Lemma natTable_type_assertions_witness :
  exists r w1,
    natTable_GetOrCreateLock (lockKey_of (ex_packet [Byte.x01])) ex_bridge =
      Some (r, w1) /\
    table_typed (mapping (udpTable (tun w1))).
Proof.
  destruct (natTable_type_assertions (ex_packet [Byte.x01]) ex_bridge
              table_typed_empty) as (_ & _ & H & _).
  exact H.
Defined.

(** ** What a step leaves alone *)

Lemma atomically_frame {A} (p : ptr) (f : Z -> A * Z) w a w1 :
  atomically p f w = Some (a, w1) ->
  tun w1 = tun w /\ net w1 = net w /\ trace w1 = trace w.
Proof.
  unfold atomically. destruct (mem w !! p.1) as [s|]; [|done].
  destruct (f _) as [a' v]. by intros [= <- <-].
Qed.

Lemma conn_WriteTo_frame c p a w r w1 :
  conn_WriteTo c p a w = Some (r, w1) ->
  r = next_WriteTo c p w /\ tun w1 = tun w /\ mem w1 = mem w /\
  trace w1 = trace w ++ [EvWriteTo c p a].
Proof.
  unfold conn_WriteTo, conn_WriteTo_result, next_WriteTo, mbind, M_bind,
    emit, modifyW. simpl.
  change (script_of c (set_trace _ w)) with (script_of c w).
  destruct (on_WriteTo (script_of c w)) as [|r0 rest]; by intros [= <- <-].
Qed.

Lemma packetConn_WriteTo_frame (conn : packetConnV) p a w r w1 :
  WriteTo conn p a w = Some (r, w1) ->
  r = next_WriteTo (packetConn_inner conn) p w /\ tun w1 = tun w /\
  trace w1 = trace w ++ [EvWriteTo (packetConn_inner conn) p a] /\
  (forall c, conn = inl c -> mem w1 = mem w).
Proof.
  destruct conn as [c|sc]; simpl.
  - intros H. destruct (conn_WriteTo_frame _ _ _ _ _ _ H) as (? & ? & ? & ?).
    done.
  - unfold statsPacketConn_WriteTo, mbind, M_bind. simpl.
    destruct (conn_WriteTo (packetConn sc) p a w) as [[[n err] w0]|] eqn:E;
      [|done].
    destruct (conn_WriteTo_frame _ _ _ _ _ _ E) as (Hr & Ht & Hm & Htr).
    case_decide.
    + unfold mbind, M_bind, atomic_AddUint64.
      destruct (atomically _ _ w0) as [[v w2]|] eqn:E2; [|done].
      destruct (atomically_frame _ _ _ _ _ E2) as (Ht2 & _ & Htr2).
      intros [= <- <-]. split; [done|]. split; [congruence|].
      split; [congruence|]. intros c [=].
    + intros [= <- <-]. split; [done|]. split; [done|]. split; [done|].
      intros c [=].
Qed.

Lemma packetConn_Close_frame (conn : packetConnV) w r w1 :
  PacketClose conn w = Some (r, w1) ->
  tun w1 = tun w /\ mem w1 = mem w /\
  trace w1 = trace w ++ [EvConnClose (packetConn_inner conn)].
Proof. destruct conn as [c|sc]; simpl; by intros [= <- <-]. Qed.

Lemma sendTo_frame key destination data w r w1 :
  sendTo key destination data w = Some (r, w1) ->
  tun w1 = tun w /\
  match mapping (udpTable (tun w)) !! key with
  | Some (ItemConn conn) =>
      r = true /\
      trace w1 =
        trace w ++
        EvWriteTo (packetConn_inner conn) data (sendTo_addr destination) ::
        match (next_WriteTo (packetConn_inner conn) data w).2 with
        | Some _ => [EvConnClose (packetConn_inner conn)]
        | None => []
        end /\
      (forall c, conn = inl c -> mem w1 = mem w)
  | _ => r = false /\ w1 = w
  end.
Proof.
  unfold sendTo, natTable_Get, mbind, M_bind, getW.
  destruct (mapping (udpTable (tun w)) !! key) as [[conn|c]|]; cycle 1.
  { done. }
  { by intros [= <- <-]. }
  cbn -[WriteTo PacketClose].
  fold (sendTo_addr destination).
  destruct (WriteTo conn data _ w) as [[[n err] w0]|] eqn:E; [|done].
  destruct (packetConn_WriteTo_frame _ _ _ _ _ _ E) as (Hr & Ht & Htr & Hm).
  rewrite <- Hr. cbn -[PacketClose]. destruct err as [e|].
  - unfold mbind, M_bind.
    destruct (PacketClose conn w0) as [[r0 w2]|] eqn:E2; [|done].
    destruct (packetConn_Close_frame _ _ _ _ E2) as (Ht2 & Hm2 & Htr2).
    intros [= <- <-]. split; [congruence|]. split; [done|].
    split; [by rewrite Htr2, Htr, <- app_assoc|].
    intros c Hc. rewrite Hm2. eauto.
  - intros [= <- <-]. split; [done|]. split; [done|]. split; [done|]. done.
Qed.

(** ** NewPacket for a flow that is set up *)

(** X4.  [NewPacket] for a source whose conn is in the NAT table: the
    datagram is written to that conn, addressed to the IP and the port of
    the destination, and the call returns.  If the write fails the conn is
    closed, and it stays in the table; nothing is dialled, no lock is
    taken, and the closer is not closed. *)
Theorem NewPacket_fast_path (env : Env) (a : packetArgs) (w : World)
    (conn : packetConnV) :
  mapping (udpTable (tun w)) !! natKey_of a = Some (ItemConn conn) ->
  packetConn_ok (mem w) conn ->
  exists w1,
    NewPacket env a w = Some (Returned, w1) /\
    trace w1 =
      trace w ++
      EvWriteTo (packetConn_inner conn) (a_data a)
        (mkUDPAddr (Address_IP (Dest_Address (a_destination a)))
           (Dest_Port (a_destination a))) ::
      match (next_WriteTo (packetConn_inner conn) (a_data a) w).2 with
      | Some _ => [EvConnClose (packetConn_inner conn)]
      | None => []
      end /\
    tun w1 = tun w /\
    (forall c, conn = inl c -> mem w1 = mem w).
Proof.
  intros E Hok. unfold NewPacket. unfold mbind at 1. unfold M_bind at 1.
  destruct (sendTo_hit _ (a_destination a) (a_data a) w conn E Hok)
    as (w1 & Hrun & _).
  rewrite Hrun. exists w1. split; [done|].
  destruct (sendTo_frame _ _ _ _ _ _ Hrun) as (Ht & H). rewrite E in H.
  destruct H as (_ & Htr & Hm). done.
Qed.

Lemma NewPacket_fast_path_witness :
  exists w1,
    NewPacket ex_env (ex_packet [Byte.x01]) ex_bridge_flow =
      Some (Returned, w1) /\
    trace w1 =
      [EvWriteTo 20%positive [Byte.x01] (mkUDPAddr "8.8.8.8" 53);
       EvConnClose 20%positive] /\
    tun w1 = tun ex_bridge_flow.
Proof.
  destruct (NewPacket_fast_path ex_env (ex_packet [Byte.x01]) ex_bridge_flow
              (inl 20%positive) eq_refl I) as (w1 & Hrun & Htr & Ht & _).
  exists w1. split; [exact Hrun|]. split; [exact Htr|exact Ht].
Defined.

(** X5.  [NewPacket] for a source whose lock is in the NAT table and
    whose conn is not: the call goes to [cond.Wait()] on the cond of the
    lock, with nothing dialled and the table as it was.  Once woken it
    tries [sendTo] again and returns; if the conn is still not in the
    table the datagram is dropped: nothing is written, dialled or
    closed. *)
Theorem NewPacket_waits_on_lock (env : Env) (a : packetArgs) (w : World)
    (cond : condId) :
  mapping (udpTable (tun w)) !! natKey_of a = None ->
  mapping (udpTable (tun w)) !! lockKey_of a = Some (ItemCond cond) ->
  exists w1,
    NewPacket env a w = Some (Waiting cond, w1) /\
    trace w1 = trace w ++ [EvWait cond] /\
    tun w1 = tun w /\ mem w1 = mem w /\
    NewPacket_woken a w1 = Some (Returned, w1).
Proof.
  intros Hnat Hlock. unfold NewPacket. unfold mbind at 1. unfold M_bind at 1.
  rewrite (sendTo_miss _ _ _ _ Hnat).
  unfold mbind at 1. unfold M_bind at 1.
  unfold natTable_GetOrCreateLock, mbind, M_bind, getW, modifyW.
  rewrite Hlock. simpl. eexists. split; [reflexivity|]. simpl.
  split; [done|]. split; [done|]. split; [done|].
  unfold NewPacket_woken, mbind, M_bind.
  rewrite sendTo_miss; done.
Qed.

Lemma NewPacket_waits_on_lock_witness :
  exists w1,
    NewPacket ex_env (ex_packet [Byte.x01]) ex_bridge_locked =
      Some (Waiting 1%positive, w1) /\
    trace w1 = [EvWait 1%positive] /\
    NewPacket_woken (ex_packet [Byte.x01]) w1 = Some (Returned, w1).
Proof.
  destruct (NewPacket_waits_on_lock ex_env (ex_packet [Byte.x01])
              ex_bridge_locked 1%positive eq_refl eq_refl)
    as (w1 & Hrun & Htr & _ & _ & Hwoken).
  exists w1. split; [exact Hrun|]. split; [exact Htr|exact Hwoken].
Defined.

Lemma conn_WriteTo_readFrom c p a w r w1 c' :
  conn_WriteTo c p a w = Some (r, w1) ->
  on_readFrom (script_of c' w1) = on_readFrom (script_of c' w).
Proof.
  unfold conn_WriteTo, conn_WriteTo_result, mbind, M_bind, emit, modifyW.
  simpl. change (script_of c (set_trace _ w)) with (script_of c w).
  destruct (on_WriteTo (script_of c w)) as [|r0 rest]; intros [= <- <-];
    [done|].
  unfold script_of. simpl.
  destruct (decide (c = c')) as [<-|Hne].
  - by rewrite lookup_insert_eq.
  - by rewrite lookup_insert_ne.
Qed.

Lemma packetConn_WriteTo_readFrom (conn : packetConnV) p a w r w1 c' :
  WriteTo conn p a w = Some (r, w1) ->
  on_readFrom (script_of c' w1) = on_readFrom (script_of c' w).
Proof.
  destruct conn as [c|sc]; simpl.
  - apply conn_WriteTo_readFrom.
  - unfold statsPacketConn_WriteTo, mbind, M_bind. simpl.
    destruct (conn_WriteTo (packetConn sc) p a w) as [[[n err] w0]|] eqn:E;
      [|done].
    pose proof (conn_WriteTo_readFrom _ _ _ _ _ _ c' E) as H0.
    case_decide.
    + unfold mbind, M_bind, atomic_AddUint64.
      destruct (atomically _ _ w0) as [[v w2]|] eqn:E2; [|done].
      destruct (atomically_frame _ _ _ _ _ E2) as (_ & Hn & _).
      intros [= <- <-]. by rewrite (script_of_net c' w0 w2 Hn).
    + by intros [= <- <-].
Qed.

Lemma sendTo_trace key destination data w r w1 :
  sendTo key destination data w = Some (r, w1) ->
  tun w1 = tun w /\
  trace w1 = trace w ++ sendTo_events key destination data w /\
  (forall c, on_readFrom (script_of c w1) = on_readFrom (script_of c w)).
Proof.
  intros H. destruct (sendTo_frame _ _ _ _ _ _ H) as (Ht & Hcase).
  split; [done|]. unfold sendTo_events. split.
  - destruct (mapping (udpTable (tun w)) !! key) as [[conn|c]|].
    + by destruct Hcase as (_ & ? & _).
    + destruct Hcase as (_ & ->). by rewrite app_nil_r.
    + destruct Hcase as (_ & ->). by rewrite app_nil_r.
  - intros c. revert H.
    unfold sendTo, natTable_Get, mbind, M_bind, getW.
    destruct (mapping (udpTable (tun w)) !! key) as [[conn|c0]|]; cycle 1.
    { done. }
    { by intros [= <- <-]. }
    cbn -[WriteTo PacketClose].
    destruct (WriteTo conn data _ w) as [[[n err] w0]|] eqn:E; [|done].
    pose proof (packetConn_WriteTo_readFrom _ _ _ _ _ _ c E) as H0.
    cbn -[PacketClose]. destruct err as [e|].
    + unfold mbind, M_bind.
      destruct (PacketClose conn w0) as [[r0 w2]|] eqn:E2; [|done].
      intros [= <- <-]. rewrite <- H0.
      destruct conn as [c1|sc]; simpl in E2; by injection E2 as <- <-.
    + by intros [= <- <-].
Qed.

Lemma conn_readFrom_frame c w r w1 :
  conn_readFrom c w = Some (r, w1) ->
  tun w1 = tun w /\ mem w1 = mem w /\ trace w1 = trace w /\
  match on_readFrom (script_of c w) with
  | [] => is_Some r.2 /\ on_readFrom (script_of c w1) = []
  | x :: rest => r = x /\ on_readFrom (script_of c w1) = rest
  end.
Proof.
  unfold conn_readFrom.
  destruct (on_readFrom (script_of c w)) as [|x rest] eqn:E;
    intros [= <- <-].
  - do 3 (split; [done|]). split; [by eexists|done].
  - do 3 (split; [done|]). split; [done|].
    unfold script_of. simpl. by rewrite lookup_insert_eq.
Qed.

Lemma packetConn_readFrom_frame (conn : packetConnV) w r w1 :
  readFrom conn w = Some (r, w1) ->
  tun w1 = tun w /\ trace w1 = trace w /\
  match on_readFrom (script_of (packetConn_inner conn) w) with
  | [] => is_Some r.2 /\ on_readFrom (script_of (packetConn_inner conn) w1) = []
  | x :: rest =>
      r = x /\ on_readFrom (script_of (packetConn_inner conn) w1) = rest
  end.
Proof.
  destruct conn as [c|sc]; simpl.
  - intros H. destruct (conn_readFrom_frame _ _ _ _ H) as (? & ? & ? & ?).
    done.
  - unfold statsPacketConn_readFrom, mbind, M_bind. simpl.
    destruct (conn_readFrom (packetConn sc) w) as [[[[p addr] err] w0]|] eqn:E;
      [|done].
    destruct (conn_readFrom_frame _ _ _ _ E) as (Ht & _ & Htr & Hs).
    case_decide.
    + unfold mbind, M_bind, atomic_AddUint64.
      destruct (atomically _ _ w0) as [[v w2]|] eqn:E2; [|done].
      destruct (atomically_frame _ _ _ _ _ E2) as (Ht2 & Hn2 & Htr2).
      intros [= <- <-]. split; [congruence|]. split; [congruence|].
      by rewrite (script_of_net _ w0 w2 Hn2).
    + by intros [= <- <-].
Qed.

Lemma read_loop_frame fuel isDns wb (conn : packetConnV) : forall w w1,
  read_loop fuel conn isDns wb w = Some (tt, w1) ->
  tun w1 = tun w /\
  trace w1 =
    trace w ++
    forwarded isDns wb (on_readFrom (script_of (packetConn_inner conn) w)).
Proof.
  induction fuel as [|fuel IH]; intros w w1; [done|].
  cbn [read_loop]. unfold mbind, M_bind.
  destruct (readFrom conn w) as [[[[buffer addr] err] w0]|] eqn:E; [|done].
  destruct (packetConn_readFrom_frame _ _ _ _ E) as (Ht & Htr & Hs).
  destruct (on_readFrom (script_of (packetConn_inner conn) w))
    as [|[[b0 a0] e0] rest].
  - destruct Hs as ([e He] & _). simpl in He. subst err.
    intros [= <-]. split; [done|]. by rewrite app_nil_r.
  - destruct Hs as ([= -> -> ->] & Hrest).
    destruct e0 as [e|].
    + intros [= <-]. split; [done|]. by rewrite app_nil_r.
    + unfold writeBack, mbind, M_bind, emit, modifyW, mret, M_ret.
      cbn [forwarded].
      set (to := as_UDPAddr (if isDns then None else a0)).
      set (w2 := set_trace _ w0).
      destruct (wb b0 to) as [n [e|]]; simpl.
      * intros [= <-]. split; [done|]. simpl. by rewrite Htr.
      * intros H. destruct (IH w2 w1 H) as (Ht1 & Htr1).
        split; [by rewrite Ht1|].
        rewrite Htr1. unfold w2 at 1. simpl. rewrite Htr, <- app_assoc.
        replace (on_readFrom (script_of (packetConn_inner conn) w2))
          with rest; [done|..].
        all: by rewrite (script_of_net _ w0 w2 eq_refl).
Qed.

Lemma release_stats_frame env stats mine other w w1 :
  release_stats env stats mine other w = Some (tt, w1) ->
  tun w1 = tun w /\ trace w1 = trace w /\ net w1 = net w.
Proof.
  unfold release_stats, mbind, M_bind, atomic_AddInt32, atomic_LoadInt32,
    atomic_StoreInt64.
  destruct (atomically _ _ w) as [[n w0]|] eqn:E0; [|done].
  destruct (atomically_frame _ _ _ _ _ E0) as (Ht0 & Hn0 & Htr0).
  destruct (atomically _ _ w0) as [[m w2]|] eqn:E2; [|done].
  destruct (atomically_frame _ _ _ _ _ E2) as (Ht2 & Hn2 & Htr2).
  case_decide.
  - intros E3. destruct (atomically_frame _ _ _ _ _ E3) as (Ht3 & Hn3 & Htr3).
    split; [congruence|]. split; congruence.
  - intros [= <-]. split; [congruence|]. split; congruence.
Qed.



Lemma NewPacket_serve_frame env a d conn stats w w1 :
  NewPacket_serve env a d conn stats w = Some (tt, w1) ->
  packetConn_inner conn = d_conn d ->
  mapping (udpTable (tun w1)) =
    delete (natKey_of a) (mapping (udpTable (tun w))) /\
  trace w1 =
    trace w ++
    sendTo_events (natKey_of a) (a_destination a) (a_data a) w ++
    forwarded (d_isDns d) (a_writeBack a)
      (on_readFrom (script_of (d_conn d) w)) ++
    [EvClose (Res_packetConn conn); EvClose (Res_closer (a_closer a))].
Proof.
  intros H Hinner. revert H. unfold NewPacket_serve.
  unfold mbind at 1. unfold M_bind at 1.
  destruct (sendTo _ _ _ w) as [[sent w0]|] eqn:E0; [|done].
  destruct (sendTo_trace _ _ _ _ _ _ E0) as (Ht0 & Htr0 & Hs0).
  unfold mbind at 1. unfold M_bind at 1. unfold getW.
  unfold mbind at 1. unfold M_bind at 1.
  destruct (read_loop _ conn _ _ w0) as [[[] w2]|] eqn:E2; [|done].
  destruct (read_loop_frame _ _ _ _ _ _ E2) as (Ht2 & Htr2).
  rewrite Hinner, Hs0 in Htr2.
  unfold mbind at 1. unfold M_bind at 1.
  destruct (closeIgnore_io
              [Res_packetConn conn; Res_closer (a_closer a)] w2)
    as (w3 & -> & (_ & Ht3 & _) & Htr3).
  unfold mbind at 1. unfold M_bind at 1.
  unfold natTable_Delete at 1. unfold modifyW at 1.
  set (w4 := set_tun _ w3).
  assert (trace w4 = trace w3) as Htr4 by done.
  assert (mapping (udpTable (tun w4)) =
            delete (natKey_of a) (mapping (udpTable (tun w3)))) as Hm4 by done.
  clearbody w4.
  assert (tun w1 = tun w4 /\ trace w1 = trace w4 ->
          mapping (udpTable (tun w1)) =
            delete (natKey_of a) (mapping (udpTable (tun w))) /\
          trace w1 =
            trace w ++
            sendTo_events (natKey_of a) (a_destination a) (a_data a) w ++
            forwarded (d_isDns d) (a_writeBack a)
              (on_readFrom (script_of (d_conn d) w)) ++
            [EvClose (Res_packetConn conn); EvClose (Res_closer (a_closer a))])
    as Hend.
  { intros [Ht Htr]. split.
    - rewrite Ht, Hm4, Ht3, Ht2, Ht0. done.
    - rewrite Htr, Htr4, Htr3, Htr2, Htr0, <- !app_assoc. done. }
  destruct stats as [s|].
  - intros E5. destruct (release_stats_frame _ _ _ _ _ _ E5) as (? & ? & _).
    by apply Hend.
  - intros [= <-]. by apply Hend.
Qed.





(** ** The owner of a flow *)



(** X7.  The loop of [NewPacket] over an upstream conn, wrapped or not:
    it ends, and its calls of [writeBack] are one for each datagram the
    conn delivers, in their order, up to the first read or [writeBack]
    that fails.  A datagram of a DNS flow is written back with a nil
    address, whatever address it came from; so is any datagram whose
    address is not a [*net.UDPAddr].  If no read of the conn's script and
    no [writeBack] fails, every datagram of the script is written back. *)
Theorem read_loop_forwards (conn : packetConnV) (isDns : bool)
    (wb : bytes -> option UDPAddr -> Z * option error) (w : World) :
  packetConn_ok (mem w) conn ->
  let script := on_readFrom (script_of (packetConn_inner conn) w) in
  exists w1,
    read_loop (S (length script)) conn isDns wb w = Some (tt, w1) /\
    trace w1 = trace w ++ forwarded isDns wb script /\
    tun w1 = tun w /\
    (exists n, forwarded isDns wb script = writeBack_of isDns <$> take n script) /\
    (isDns = true ->
     Forall (fun e => exists b, e = EvWriteBack b None)
       (forwarded isDns wb script)) /\
    (Forall (fun r => r.2 = None) script ->
     (forall b to, (wb b to).2 = None) ->
     forwarded isDns wb script = writeBack_of isDns <$> script).
Proof.
  intros Hok script.
  destruct (read_loop_returns (S (length script)) isDns wb conn w Hok)
    as (w1 & Hrun & _); [unfold script; lia|].
  destruct (read_loop_frame _ _ _ _ _ _ Hrun) as (Ht & Htr).
  exists w1. split; [done|]. split; [done|]. split; [done|].
  clear. generalize script. clear script. intros script. split; [|split].
  - induction script as [|[[b a] [e|]] rest IH].
    + by exists 0%nat.
    + by exists 0%nat.
    + cbn [forwarded]. destruct (wb b _).2.
      * by exists 1%nat.
      * destruct IH as [n Hn]. exists (S n). simpl. by rewrite Hn.
  - intros ->. induction script as [|[[b a] [e|]] rest IH]; [done|done|].
    cbn [forwarded]. constructor; [by eexists|].
    by destruct (wb b _).2.
  - intros Hs Hwb. induction Hs as [|[[b a] e] rest He _ IH]; [done|].
    simpl in He. subst e. cbn [forwarded]. rewrite Hwb.
    simpl. by rewrite IH.
Qed.

Lemma read_loop_forwards_witness :
  exists w1,
    read_loop 3 (inr ex_statsPacketConn) false (fun b _ => (len b, None))
      ex_world_io = Some (tt, w1) /\
    trace w1 = [EvWriteBack [Byte.x78; Byte.x79; Byte.x7a] None].
Proof.
  destruct (read_loop_forwards (inr ex_statsPacketConn) false
              (fun b _ => (len b, None)) ex_world_io)
    as (w1 & Hrun & Htr & _).
  - split; by eexists.
  - exists w1. split; [exact Hrun|exact Htr].
Defined.

(** ** Calls of NewPacket in any interleaving *)















(** ** The entry of a counted flow *)

Lemma uint64_add_l a b : uint64 (uint64 a + b) = uint64 (a + b).
Proof. unfold uint64. by rewrite Zplus_mod_idemp_l. Qed.

Lemma set_field_twice f v v' s :
  set_field f v' (set_field f v s) = set_field f v' s.
Proof. by destruct s, f. Qed.

Lemma set_get_field f s : set_field f (get_field f s) s = s.
Proof. by destruct s, f. Qed.

Lemma stats_loc_same w w1 uid :
  tun w1 = tun w -> mem w1 = mem w -> stats_loc w1 uid = stats_loc w uid.
Proof. unfold stats_loc. by intros -> ->. Qed.

Lemma entry_of_same w w1 uid :
  tun w1 = tun w -> mem w1 = mem w -> entry_of w1 uid = entry_of w uid.
Proof. unfold entry_of. by intros -> ->. Qed.

Lemma lookup_or_create_stats_exact uid w :
  wf w ->
  exists w1,
    lookup_or_create_stats uid w = Some (stats_loc w uid, w1) /\
    mem w1 = <[stats_loc w uid := entry_of w uid]> (mem w) /\
    t_appStats (tun w1) = <[uid := stats_loc w uid]> (t_appStats (tun w)) /\
    udpTable (tun w1) = udpTable (tun w) /\
    net w1 = net w /\ trace w1 = trace w /\ wf w1 /\
    flags (tun w1) = flags (tun w).
Proof.
  intros Hwf.
  unfold lookup_or_create_stats, stats_loc, entry_of, mbind, M_bind, getW,
    modifyW, mret, M_ret.
  destruct (t_appStats (tun w) !! uid) as [l|] eqn:E.
  - exists w. split; [done|].
    destruct (wf_lookup w uid l Hwf E) as (_ & s & Hs). rewrite Hs. simpl.
    split; [by rewrite insert_id|]. split; [by rewrite insert_id|]. done.
  - rewrite E. eexists. split; [reflexivity|]. simpl.
    do 5 (split; [done|]). split; [by apply wf_new_entry|done].
Qed.

Lemma attach_exact {A} uid (live total : field) (k : loc -> A) w :
  wf w -> total ≠ live ->
  exists w1,
    (stats ← lookup_or_create_stats uid;
     _ ← atomic_AddInt32 (stats, live) 1;
     _ ← atomic_AddUint32 (stats, total) 1;
     _ ← atomic_StoreInt64 (stats, F_deactivateAt) 0;
     mret (k stats)) w = Some (k (stats_loc w uid), w1) /\
    mem w1 =
      <[stats_loc w uid := attach_entry live total (entry_of w uid)]> (mem w) /\
    t_appStats (tun w1) = <[uid := stats_loc w uid]> (t_appStats (tun w)) /\
    udpTable (tun w1) = udpTable (tun w) /\
    net w1 = net w /\ trace w1 = trace w /\ wf w1 /\
    flags (tun w1) = flags (tun w).
Proof.
  intros Hwf Hne. unfold mbind at 1. unfold M_bind at 1.
  destruct (lookup_or_create_stats_exact uid w Hwf)
    as (w0 & -> & Hm0 & Ha0 & Hu0 & Hn0 & Htr0 & Hwf0 & Hf0).
  set (l := stats_loc w uid) in *. set (s := entry_of w uid) in *.
  unfold atomic_AddInt32, atomic_AddUint32, atomic_StoreInt64.
  unfold mbind at 1. unfold M_bind at 1.
  rewrite (atomically_run (l, live) _ w0 s)
    by (rewrite Hm0; apply lookup_insert_eq).
  cbn [fst snd]. set (w2 := set_mem _ w0).
  unfold mbind at 1. unfold M_bind at 1.
  rewrite (atomically_run (l, total) _ w2
             (set_field live (int32 (get_field live s + 1)) s))
    by (simpl; apply lookup_insert_eq).
  cbn [fst snd]. set (w3 := set_mem _ w2).
  unfold mbind at 1. unfold M_bind at 1.
  rewrite (atomically_run (l, F_deactivateAt) _ w3
             (set_field total
                (uint32 (get_field total
                           (set_field live (int32 (get_field live s + 1)) s)
                         + 1))
                (set_field live (int32 (get_field live s + 1)) s)))
    by (simpl; apply lookup_insert_eq).
  cbn [fst snd]. eexists. split; [reflexivity|]. simpl.
  split.
  { rewrite !insert_insert_eq, Hm0, insert_insert_eq. f_equal.
    unfold attach_entry. by rewrite get_set_field_ne. }
  split; [done|]. split; [done|]. split; [done|]. split; [done|].
  split; [|done].
  eapply wf_preserved; [| |exact Hwf0]; [done|].
  intros l0 Hl0. simpl.
  destruct (decide (l = l0)) as [<-|Hne0]; [by rewrite lookup_insert_eq|].
  by rewrite !lookup_insert_ne.
Qed.

Lemma release_exact env stats (live other : field) w s :
  mem w !! stats = Some s -> other ≠ live ->
  exists w1,
    release_stats env stats live other w = Some (tt, w1) /\
    mem w1 = <[stats := release_entry (Now_Unix env) live other s]> (mem w) /\
    tun w1 = tun w /\ net w1 = net w /\ trace w1 = trace w.
Proof.
  intros Hs Hne.
  unfold release_stats, atomic_AddInt32, atomic_LoadInt32, atomic_StoreInt64.
  unfold mbind at 1. unfold M_bind at 1.
  rewrite (atomically_run (stats, live) _ w s Hs).
  cbn [fst snd]. set (n := int32 (get_field live s + -1)).
  set (w0 := set_mem _ w).
  unfold mbind at 1. unfold M_bind at 1.
  rewrite (atomically_run (stats, other) _ w0 (set_field live n s))
    by (simpl; apply lookup_insert_eq).
  cbn [fst snd]. rewrite set_get_field, get_set_field_ne by done.
  set (w2 := set_mem _ w0). unfold release_entry. fold n.
  destruct (decide (int32 (n + get_field other s) = 0)).
  - rewrite (atomically_run (stats, F_deactivateAt) _ w2 (set_field live n s))
      by (simpl; apply lookup_insert_eq).
    cbn [fst snd]. eexists. split; [reflexivity|]. simpl.
    by rewrite !insert_insert_eq.
  - eexists. split; [reflexivity|]. simpl. by rewrite !insert_insert_eq.
Qed.

Lemma netConn_Read_frame (conn : netConn) b w r w1 :
  Read conn b w = Some (r, w1) -> tun w1 = tun w /\ trace w1 = trace w.
Proof.
  assert (forall c w r w1, conn_Read c b w = Some (r, w1) ->
            tun w1 = tun w /\ trace w1 = trace w) as Hraw.
  { intros c w' r' w1'. unfold conn_Read.
    destruct (on_Read (script_of c w')); by intros [= <- <-]. }
  destruct conn as [c|sc]; simpl; [apply Hraw|].
  unfold statsConn_Read, mbind, M_bind. simpl.
  destruct (conn_Read (Conn sc) b w) as [[[n err] w0]|] eqn:E; [|done].
  destruct (Hraw _ _ _ _ E) as (Ht & Htr).
  unfold atomic_AddUint64.
  destruct (atomically _ _ w0) as [[v w2]|] eqn:E2; [|done].
  destruct (atomically_frame _ _ _ _ _ E2) as (Ht2 & _ & Htr2).
  intros [= <- <-]. split; congruence.
Qed.

Lemma copy_reads_frame fuel (conn : netConn) : forall w w1,
  copy_reads fuel conn w = Some (tt, w1) ->
  tun w1 = tun w /\ trace w1 = trace w.
Proof.
  induction fuel as [|fuel IH]; intros w w1; [done|].
  cbn [copy_reads]. unfold mbind, M_bind.
  destruct (Read conn 8192 w) as [[[n err] w0]|] eqn:E; [|done].
  destruct (netConn_Read_frame _ _ _ _ _ E) as (Ht & Htr).
  destruct err as [e|].
  - by intros [= <-].
  - intros H. destruct (IH _ _ H). split; congruence.
Qed.

Lemma copy_reads_wrapped fuel c stats : forall w w1 s,
  mem w !! stats = Some s ->
  copy_reads fuel (inr (new_statsConn c stats)) w = Some (tt, w1) ->
  mem w1 =
    <[stats := set_field F_uplink
                 (uint64 (uplink s + copied (on_Read (script_of c w)))) s]>
      (mem w).
Proof.
  induction fuel as [|fuel IH]; intros w w1 s Hs; [done|].
  cbn [copy_reads]. unfold mbind at 1. unfold M_bind at 1.
  cbn [Read sum_NetConn statsConn_NetConn].
  unfold statsConn_Read. unfold mbind at 1. unfold M_bind at 1.
  cbn [Read connId_NetConn Conn new_statsConn sc_uplink].
  unfold conn_Read.
  destruct (on_Read (script_of c w)) as [|[n err] rest] eqn:E.
  - unfold mbind, M_bind.
    rewrite (atomic_AddUint64_run (stats, F_uplink) 0 w s Hs).
    intros [= <-]. done.
  - set (w0 := set_net _ w).
    unfold mbind at 1. unfold M_bind at 1.
    rewrite (atomic_AddUint64_run (stats, F_uplink) n w0 s Hs).
    set (s' := set_field F_uplink (uint64 (get_field F_uplink s + n)) s).
    set (w2 := set_mem _ w0).
    unfold mret at 1. unfold M_ret at 1. cbv beta iota.
    destruct err as [e|].
    + intros [= <-]. done.
    + intros H.
      assert (mem w2 !! stats = Some s') as Hs2
        by (simpl; apply lookup_insert_eq).
      rewrite (IH w2 w1 s' Hs2 H). simpl.
      rewrite insert_insert_eq. f_equal.
      assert (on_Read (script_of c w2) = rest) as ->.
      { unfold script_of. simpl. by rewrite lookup_insert_eq. }
      unfold s'. rewrite set_field_twice. simpl.
      destruct s. simpl. f_equal. rewrite uint64_add_l. f_equal. lia.
Qed.

(** ** NewConnection, step by step *)

Lemma NewConnection_exact env source destination conn w :
  wf w ->
  let t := tun w in
  exists r w0 logs w1,
    NewConnection_uid env t source destination
      (inbound_of t source destination) w = Some (r, w0) /\
    trace w0 = trace w ++ logs /\ Forall is_Infof logs /\
    NewConnection env source destination conn w = Some (tt, w1) /\
    let ctx := tcp_context t destination (r_inbound r) in
    let conn1 := tcp_conn w destination r conn in
    trace w1 =
      trace w ++ logs ++
      [EvDispatchLink ctx destination conn1;
       match DispatchLink env ctx destination with
       | Some err => EvErrorf "[TCP] dispatchLink failed: %s" err
       | None => EvCopy conn1
       end;
       EvClose (Res_conn conn1); EvClose (Res_linkReader conn);
       EvClose (Res_linkWriter conn1)] /\
    udpTable (tun w1) = udpTable (tun w) /\
    wf w1 /\
    flags (tun w1) = flags (tun w) /\
    if counted t destination r then
      t_appStats (tun w1) =
        <[r_uid r := stats_loc w (r_uid r)]> (t_appStats (tun w)) /\
      mem w1 =
        <[stats_loc w (r_uid r) :=
            release_entry (Now_Unix env) F_tcpConn F_udpConn
              (let s := attach_entry F_tcpConn F_tcpConnTotal
                          (entry_of w (r_uid r)) in
               match DispatchLink env ctx destination with
               | Some _ => s
               | None =>
                   set_field F_uplink
                     (uint64 (uplink s + copied (on_Read (script_of conn w))))
                     s
               end)]> (mem w)
    else mem w1 = mem w /\ tun w1 = tun w.
Proof.
  intros Hwf t. unfold NewConnection.
  unfold mbind at 1. unfold M_bind at 1. unfold getW.
  fold t. set (isDns := bool_decide _).
  set (inbound0 := mkInbound _ _ _ _ _).
  unfold mbind at 1. unfold M_bind at 1.
  destruct (NewConnection_uid_io env t source destination inbound0 w)
    as (r & w0 & Hrun0 & Hm0 & Ht0 & Hn0 & (logs & Htr0 & Hlogs) & _).
  rewrite Hrun0. exists r, w0, logs.
  assert (wf w0) as Hwf0 by (by eapply wf_same).
  change (with_sniffing t isDns ["http"; "tls"]%string
            (session_ContextWithInbound (core_WithContext context_Background)
               (r_inbound r)))
    with (tcp_context t destination (r_inbound r)).
  set (ctx := tcp_context t destination (r_inbound r)).
  change (trafficStats t && negb (r_self r) && negb isDns)
    with (counted t destination r).
  unfold tcp_conn. fold t.
  set (l := stats_loc w (r_uid r)). set (s0 := entry_of w (r_uid r)).
  destruct (counted t destination r) eqn:Hc.
  - (* the flow is counted *)
    unfold mbind at 1. unfold M_bind at 1.
    destruct (attach_exact (r_uid r) F_tcpConn F_tcpConnTotal
                (fun stats => (inr (new_statsConn conn stats) : netConn,
                               Some stats)) w0 Hwf0)
      as (w2 & Hrun2 & Hm2 & Ha2 & Hu2 & Hn2 & Htr2 & Hwf2 & Hf2); [done|].
    rewrite (stats_loc_same w w0) in Hrun2, Hm2, Ha2 by done.
    rewrite (entry_of_same w w0) in Hm2 by done.
    fold l in Hrun2, Hm2, Ha2. fold s0 in Hm2.
    cbv beta in Hrun2. rewrite Hrun2.
    set (conn1 := inr (new_statsConn conn l) : netConn).
    set (s2 := attach_entry F_tcpConn F_tcpConnTotal s0) in *.
    unfold mbind at 1. unfold M_bind at 1.
    destruct (emit_io (EvDispatchLink ctx destination conn1) w2)
      as (w3 & -> & (Hm3 & Ht3 & _) & Hn3 & Htr3).
    assert (mem w3 !! l = Some s2) as Hs3.
    { rewrite Hm3, Hm2. apply lookup_insert_eq. }
    assert (exists w4,
      match DispatchLink env ctx destination with
      | Some err => emit (EvErrorf "[TCP] dispatchLink failed: %s" err)
      | None => buf_Copy conn conn1
      end w3 = Some (tt, w4) /\
      tun w4 = tun w3 /\
      trace w4 = trace w3 ++
        [match DispatchLink env ctx destination with
         | Some err => EvErrorf "[TCP] dispatchLink failed: %s" err
         | None => EvCopy conn1
         end] /\
      mem w4 =
        <[l := match DispatchLink env ctx destination with
               | Some _ => s2
               | None =>
                   set_field F_uplink
                     (uint64 (uplink s2 + copied (on_Read (script_of conn w))))
                     s2
               end]> (mem w3))
      as (w4 & Hrun4 & Ht4 & Htr4 & Hm4).
    { destruct (DispatchLink env ctx destination) as [err|].
      - eexists. split; [reflexivity|]. simpl.
        split; [done|]. split; [done|]. by rewrite insert_id.
      - unfold buf_Copy, mbind, M_bind, getW.
        destruct (emit_io (EvCopy conn1) w3)
          as (w3' & -> & (Hm3' & Ht3' & _) & Hn3' & Htr3').
        destruct (copy_reads_returns
                    (S (length (on_Read (script_of conn w3)))) conn1 w3')
          as (w4 & Hrun & _).
        { split; rewrite Hm3'; by eexists. }
        { simpl. rewrite (script_of_net _ w3 w3' Hn3'). lia. }
        rewrite Hrun. exists w4. split; [done|].
        destruct (copy_reads_frame _ _ _ _ Hrun) as (Ht & Htr).
        split; [congruence|]. split; [congruence|].
        rewrite (copy_reads_wrapped _ _ _ _ _ s2 (eq_trans (f_equal (fun m => m !! l) Hm3') Hs3) Hrun).
        rewrite Hm3'.
        replace (script_of conn w3') with (script_of conn w); [done|].
        symmetry. apply script_of_net. congruence. }
    unfold mbind at 1. unfold M_bind at 1. rewrite Hrun4.
    unfold mbind at 1. unfold M_bind at 1.
    destruct (closeIgnore_io
                [Res_conn conn1; Res_linkReader conn; Res_linkWriter conn1] w4)
      as (w5 & -> & (Hm5 & Ht5 & _) & Htr5).
    set (s4 := match DispatchLink env ctx destination with
               | Some _ => s2
               | None => _
               end) in *.
    destruct (release_exact env l F_tcpConn F_udpConn w5 s4)
      as (w6 & Hrun6 & Hm6 & Ht6 & Hn6 & Htr6); [|done|].
    { rewrite Hm5, Hm4. apply lookup_insert_eq. }
    rewrite Hrun6. exists w6. split; [done|]. split; [done|].
    split; [done|]. split; [done|]. cbv zeta.
    split.
    { rewrite Htr6, Htr5, Htr4, Htr3, Htr2, Htr0, <- !app_assoc. done. }
    split.
    { rewrite Ht6, Ht5, Ht4, Ht3, Hu2, Ht0. done. }
    assert (mem w6 = <[l := release_entry (Now_Unix env) F_tcpConn F_udpConn s4]> (mem w))
      as Hmem.
    { rewrite Hm6, Hm5, Hm4, Hm3, Hm2, Hm0, !insert_insert_eq. done. }
    split.
    { eapply wf_preserved; [| |exact Hwf2].
      - rewrite Ht6, Ht5, Ht4, Ht3. done.
      - intros l0 Hl0. rewrite Hmem. rewrite Hm2, Hm0 in Hl0.
        destruct (decide (l = l0)) as [<-|Hne0].
        + by rewrite lookup_insert_eq.
        + rewrite lookup_insert_ne in Hl0 by done.
          by rewrite lookup_insert_ne. }
    split; [by rewrite Ht6, Ht5, Ht4, Ht3, Hf2, Ht0|].
    split; [|exact Hmem].
    rewrite Ht6, Ht5, Ht4, Ht3, Ha2, Ht0. done.
  - (* the flow is not counted *)
    unfold mbind at 1. unfold M_bind at 1.
    unfold mret at 1. unfold M_ret at 1.
    set (conn1 := inl conn : netConn).
    unfold mbind at 1. unfold M_bind at 1.
    destruct (emit_io (EvDispatchLink ctx destination conn1) w0)
      as (w3 & -> & (Hm3 & Ht3 & _) & Hn3 & Htr3).
    assert (exists w4,
      match DispatchLink env ctx destination with
      | Some err => emit (EvErrorf "[TCP] dispatchLink failed: %s" err)
      | None => buf_Copy conn conn1
      end w3 = Some (tt, w4) /\
      tun w4 = tun w3 /\ mem w4 = mem w3 /\
      trace w4 = trace w3 ++
        [match DispatchLink env ctx destination with
         | Some err => EvErrorf "[TCP] dispatchLink failed: %s" err
         | None => EvCopy conn1
         end])
      as (w4 & Hrun4 & Ht4 & Hm4 & Htr4).
    { destruct (DispatchLink env ctx destination) as [err|].
      - eexists. split; [reflexivity|]. done.
      - unfold buf_Copy, mbind, M_bind, getW.
        destruct (emit_io (EvCopy conn1) w3)
          as (w3' & -> & (Hm3' & Ht3' & _) & Hn3' & Htr3').
        destruct (copy_reads_returns
                    (S (length (on_Read (script_of conn w3)))) conn1 w3')
          as (w4 & Hrun & _ & Hraw); [done| |].
        { simpl. rewrite (script_of_net _ w3 w3' Hn3'). lia. }
        rewrite Hrun. exists w4. split; [done|].
        destruct (copy_reads_frame _ _ _ _ Hrun) as (Ht & Htr).
        destruct (Hraw conn eq_refl) as (Hm & _).
        split; [congruence|]. split; congruence. }
    unfold mbind at 1. unfold M_bind at 1. rewrite Hrun4.
    unfold mbind at 1. unfold M_bind at 1.
    destruct (closeIgnore_io
                [Res_conn conn1; Res_linkReader conn; Res_linkWriter conn1] w4)
      as (w5 & -> & (Hm5 & Ht5 & _) & Htr5).
    exists w5. split; [done|]. split; [done|]. split; [done|].
    split; [done|]. cbv zeta.
    split.
    { rewrite Htr5, Htr4, Htr3, Htr0, <- !app_assoc. done. }
    assert (tun w5 = tun w) as Ht by congruence.
    assert (mem w5 = mem w) as Hm by congruence.
    split; [by rewrite Ht|]. split; [by eapply wf_same|].
    split; [by rewrite Ht|]. done.
Qed.

Lemma NewConnection_uid_result env t source destination inbound w r w1 :
  NewConnection_uid env t source destination inbound w = Some (r, w1) ->
  r = flow_result env t (tcp_lookup env source destination) inbound.
Proof.
  unfold NewConnection_uid, flow_result, tcp_lookup, clamp_uid.
  destruct (dumpUid t || trafficStats t); [|by intros [= <- <-]].
  destruct (DumpUid _ _ _ _ _ _ _) as [u [err|]]; [by intros [= <- <-]|].
  unfold mbind, M_bind. simpl.
  destruct (debug t && _ && _).
  - destruct (GetUidInfo env _); by intros [= <- <-].
  - by intros [= <- <-].
Qed.

Lemma NewPacket_uid_result env t source destination isDns inbound w r w1 :
  NewPacket_uid env t source destination isDns inbound w = Some (r, w1) ->
  r = flow_result env t (udp_lookup env source destination) inbound.
Proof.
  unfold NewPacket_uid, flow_result, udp_lookup, clamp_uid.
  destruct (dumpUid t || trafficStats t); [|by intros [= <- <-]].
  destruct (DumpUid _ _ _ _ _ _ _) as [u [err|]]; [by intros [= <- <-]|].
  unfold mbind, M_bind. simpl.
  destruct (debug t && _ && _).
  - destruct (GetUidInfo env _); by intros [= <- <-].
  - by intros [= <- <-].
Qed.

Lemma tcp_conn_inner w destination r conn :
  netConn_inner (tcp_conn w destination r conn) = conn.
Proof. unfold tcp_conn. by destruct (counted _ _ _). Qed.

(** ** NewConnection *)

(** X9.  [NewConnection] on a well-formed registry returns, whatever the
    UID lookup, the dispatcher and the conn answer.  It hands the flow to
    the dispatcher once, with a context that carries the core instance and
    the inbound; then it copies from the conn, or logs the error if the
    dispatcher rejected the flow, and copies nothing; then it closes the
    conn, the link reader and the link writer, in this order, on either
    path.  The conn handed over and closed is the conn of the call or its
    wrapper.  The NAT table is not touched. *)
Theorem NewConnection_closes_on_every_exit (env : Env)
    (source destination : Destination) (conn : connId) (w : World) :
  wf w ->
  exists w1 logs ctx conn1 inbound,
    NewConnection env source destination conn w = Some (tt, w1) /\
    Forall is_Infof logs /\
    netConn_inner conn1 = conn /\
    ctx_core ctx = true /\ ctx_inbound ctx = Some inbound /\
    Source inbound = Some source /\
    trace w1 =
      trace w ++ logs ++
      [EvDispatchLink ctx destination conn1;
       match DispatchLink env ctx destination with
       | Some err => EvErrorf "[TCP] dispatchLink failed: %s" err
       | None => EvCopy conn1
       end;
       EvClose (Res_conn conn1); EvClose (Res_linkReader conn);
       EvClose (Res_linkWriter conn1)] /\
    udpTable (tun w1) = udpTable (tun w).
Proof.
  intros Hwf.
  destruct (NewConnection_exact env source destination conn w Hwf)
    as (r & w0 & logs & w1 & Hrun0 & _ & Hlogs & Hrun & Htr & Hu & _).
  pose proof (NewConnection_uid_result _ _ _ _ _ _ _ _ Hrun0) as Hr.
  exists w1, logs, (tcp_context (tun w) destination (r_inbound r)),
    (tcp_conn w destination r conn), (r_inbound r).
  split; [done|]. split; [done|]. split; [apply tcp_conn_inner|].
  split; [unfold tcp_context, with_sniffing; by destruct (negb _ && _)|].
  split; [unfold tcp_context, with_sniffing; by destruct (negb _ && _)|].
  split; [|by split].
  rewrite Hr. unfold flow_result.
  destruct (dumpUid (tun w) || trafficStats (tun w)); [|done].
  by destruct (tcp_lookup env source destination).2.
Qed.

Lemma ex_bridge_tcp_wf : wf ex_bridge_tcp.
Proof. apply (bool_decide_unpack _). vm_compute. exact I. Defined.

Lemma NewConnection_closes_on_every_exit_witness :
  exists w1 ctx conn1,
    NewConnection ex_env_reject ex_tcp_source ex_tcp_destination 7%positive
      ex_bridge_tcp = Some (tt, w1) /\
    trace w1 =
      [EvDispatchLink ctx ex_tcp_destination conn1;
       EvErrorf "[TCP] dispatchLink failed: %s" "rejected";
       EvClose (Res_conn conn1); EvClose (Res_linkReader 7%positive);
       EvClose (Res_linkWriter conn1)].
Proof.
  destruct (NewConnection_closes_on_every_exit ex_env_reject ex_tcp_source
              ex_tcp_destination 7%positive ex_bridge_tcp ex_bridge_tcp_wf)
    as (w1 & logs & ctx & conn1 & inbound & Hrun & _ & _ & _ & _ & _ & Htr & _).
  exists w1, ctx, conn1. split; [exact Hrun|].
  assert (logs = []) as ->.
  { assert (exists w', NewConnection ex_env_reject ex_tcp_source
                         ex_tcp_destination 7%positive ex_bridge_tcp =
                       Some (tt, w') /\ length (trace w') = 5%nat)
      as (w' & Hrun' & Hlen) by (eexists; split; vm_compute; reflexivity).
    rewrite Hrun in Hrun'. injection Hrun' as <-.
    rewrite Htr in Hlen. simpl in Hlen. rewrite length_app in Hlen.
    simpl in Hlen. destruct logs; [done|simpl in Hlen; lia]. }
  rewrite Htr. simpl. done.
Defined.

(** X10.  A counted TCP flow, on a well-formed registry with stats on: the
    destination is not the router and the flow is not the process's own.
    After [NewConnection] the app-stats map holds an entry for the flow's
    UID (the looked-up UID, 1000 for any UID below 10000, 0 if the lookup
    failed) and every other UID and entry is as before.  In that entry the
    live TCP count has gone up and down again, the TCP total is one more,
    the uplink has grown by the bytes of the reads of the copy, up to and
    with the read that failed, or by nothing if the dispatcher rejected the
    flow, and [deactivateAt] is the time of the return if no flow of the
    UID is live any more and 0 otherwise. *)
Theorem NewConnection_accounts_flow (env : Env)
    (source destination : Destination) (conn : connId) (w : World) :
  wf w ->
  trafficStats (tun w) = true ->
  Address_String (Dest_Address destination) ≠ router (tun w) ->
  let r := flow_result env (tun w) (tcp_lookup env source destination)
             (inbound_of (tun w) source destination) in
  r_self r = false ->
  let uid := r_uid r in
  let s0 := entry_of w uid in
  let ctx := tcp_context (tun w) destination (r_inbound r) in
  exists w1 stats s1,
    NewConnection env source destination conn w = Some (tt, w1) /\
    t_appStats (tun w1) !! uid = Some stats /\
    mem w1 !! stats = Some s1 /\
    (forall uid', uid' ≠ uid ->
       t_appStats (tun w1) !! uid' = t_appStats (tun w) !! uid') /\
    (forall l, l ≠ stats -> mem w1 !! l = mem w !! l) /\
    tcpConn s1 = int32 (int32 (tcpConn s0 + 1) + -1) /\
    (0 <= tcpConn s0 < 2 ^ 31 - 1 -> tcpConn s1 = tcpConn s0) /\
    tcpConnTotal s1 = uint32 (tcpConnTotal s0 + 1) /\
    uplink s1 =
      match DispatchLink env ctx destination with
      | Some _ => uplink s0
      | None => uint64 (uplink s0 + copied (on_Read (script_of conn w)))
      end /\
    deactivateAt s1 =
      (if decide (int32 (tcpConn s1 + udpConn s0) = 0)
       then Now_Unix env else 0) /\
    EvDispatchLink ctx destination (inr (new_statsConn conn stats)) ∈ trace w1.
Proof.
  intros Hwf Hon Hdns r Hself uid s0 ctx.
  destruct (NewConnection_exact env source destination conn w Hwf)
    as (r' & w0 & logs & w1 & Hrun0 & _ & _ & Hrun & Htr & _ & _ & _ & Hc).
  pose proof (NewConnection_uid_result _ _ _ _ _ _ _ _ Hrun0) as Hr.
  fold r in Hr. subst r'.
  assert (counted (tun w) destination r = true) as Hcounted.
  { unfold counted. rewrite Hon, Hself. simpl.
    by rewrite bool_decide_eq_false_2. }
  unfold tcp_conn in Htr. rewrite Hcounted in Htr, Hc.
  destruct Hc as (Ha & Hm). fold uid in Ha, Hm, Htr. fold s0 in Hm.
  fold ctx in Hm, Htr.
  set (stats := stats_loc w uid) in *.
  eexists w1, stats, _. split; [done|].
  split; [rewrite Ha; apply lookup_insert_eq|].
  split; [rewrite Hm; apply lookup_insert_eq|].
  split; [intros uid' Hne; rewrite Ha; by apply lookup_insert_ne|].
  split; [intros l Hne; rewrite Hm; by apply lookup_insert_ne|].
  assert (forall s, tcpConn s = get_field F_tcpConn s) as Htcp by done.
  set (s2 := attach_entry F_tcpConn F_tcpConnTotal s0).
  set (s4 := match DispatchLink env ctx destination with
             | Some _ => s2
             | None => set_field F_uplink _ s2
             end).
  assert (tcpConn s4 = int32 (tcpConn s0 + 1) /\
          udpConn s4 = udpConn s0 /\
          tcpConnTotal s4 = uint32 (tcpConnTotal s0 + 1) /\
          deactivateAt s4 = 0 /\
          uplink s4 =
            match DispatchLink env ctx destination with
            | Some _ => uplink s0
            | None => uint64 (uplink s0 + copied (on_Read (script_of conn w)))
            end) as (H1 & H2 & H3 & H4 & H5).
  { unfold s4, s2, attach_entry.
    destruct (DispatchLink env ctx destination); by destruct s0. }
  assert (tcpConn (release_entry (Now_Unix env) F_tcpConn F_udpConn s4) =
          int32 (int32 (tcpConn s0 + 1) + -1)) as Hlive.
  { unfold release_entry. rewrite <- H1.
    case_decide; by destruct s4. }
  split; [exact Hlive|]. split.
  { intros Hb. rewrite Hlive. rewrite (int32_id (tcpConn s0 + 1)).
    - rewrite int32_id; [lia|]. unfold is_int32. lia.
    - unfold is_int32. lia. }
  split.
  { rewrite <- H3. unfold release_entry. case_decide; by destruct s4. }
  split.
  { rewrite <- H5. unfold release_entry. case_decide; by destruct s4. }
  split.
  { rewrite Hlive. unfold release_entry.
    change (get_field F_tcpConn s4) with (tcpConn s4).
    change (get_field F_udpConn s4) with (udpConn s4).
    rewrite H1, H2.
    destruct (decide (int32 (int32 (int32 (tcpConn s0 + 1) + -1) +
                             udpConn s0) = 0)) as [Hz|Hz].
    - by destruct s4.
    - rewrite <- H4. by destruct s4. }
  rewrite Htr. apply elem_of_app. right. apply elem_of_app. right. by left.
Qed.

Lemma NewConnection_accounts_flow_witness :
  exists w1 stats s1,
    NewConnection ex_env ex_tcp_source ex_tcp_destination 7%positive
      ex_bridge_tcp = Some (tt, w1) /\
    t_appStats (tun w1) !! 10042 = Some stats /\
    mem w1 !! stats = Some s1 /\
    tcpConn s1 = 0 /\ tcpConnTotal s1 = 4 /\ uplink s1 = 167 /\
    deactivateAt s1 = 0.
Proof.
  destruct (NewConnection_accounts_flow ex_env ex_tcp_source
              ex_tcp_destination 7%positive ex_bridge_tcp ex_bridge_tcp_wf
              eq_refl)
    as (w1 & stats & s1 & Hrun & Hstats & Hs1 & _ & _ & Hlive & _ & Htot &
        Hup & Hde & _); [done|reflexivity|].
  exists w1, stats, s1. split; [exact Hrun|]. split; [exact Hstats|].
  split; [exact Hs1|].
  split; [rewrite Hlive; reflexivity|]. split; [rewrite Htot; reflexivity|].
  split; [rewrite Hup; reflexivity|]. rewrite Hde, Hlive. reflexivity.
Defined.

(** ** The UID of a flow *)

Lemma uint16_range x : 0 <= uint16 x < 65536.
Proof. unfold uint16. apply Z.mod_pos_bound. lia. Qed.

Lemma flow_result_outcome env t lookup inbound :
  uid_outcome env inbound (flow_result env t lookup inbound).
Proof.
  assert (uid_outcome env inbound (mkuidResult 0 false inbound)) as Hzero.
  { unfold uid_outcome. simpl. split; [by left|]. by repeat split. }
  unfold flow_result. destruct (dumpUid t || trafficStats t); [|done].
  destruct lookup as [u [err|]]; [done|]. cbn [fst snd].
  pose proof (uint16_range u) as Hu.
  unfold uid_outcome, clamp_uid, appStatus_of. cbn [r_uid r_self r_inbound
    Source Tag Inbound_Uid AppStatus].
  split. { case_decide; [by right; left|right; right; lia]. }
  split; [done|]. split; [done|].
  split. { intros H0. case_decide; lia. }
  split.
  { intros _. split; [|done]. unfold uint32. apply Z.mod_small.
    case_decide; lia. }
  intros Hself. apply andb_prop in Hself as [H1 H2].
  apply bool_decide_eq_true_1 in H1. apply bool_decide_eq_true_1 in H2.
  rewrite <- H2. split; [lia|done].
Qed.




(** ** NewPacket, step by step *)

Lemma NewPacket_dial_result env a w od w1 :
  NewPacket_dial env a w = Some (od, w1) ->
  let t := tun w in
  let r := flow_result env t (udp_lookup env (a_source a) (a_destination a))
             (inbound_of t (a_source a) (a_destination a)) in
  let ctx := udp_context t (a_destination a) (r_inbound r) in
  od = match dialUDP env ctx (a_destination a) 300000000000 with
       | Some _ => None
       | None =>
           Some (mkdialed (nextConn w)
                   (bool_decide (Address_String
                                   (Dest_Address (a_destination a)) =
                                 router t))
                   (r_uid r) (r_self r))
       end /\
  EvDialUDP ctx (a_destination a) 300000000000 ∈ trace w1.
Proof.
  intros H t r ctx. revert H. unfold NewPacket_dial.
  unfold mbind at 1. unfold M_bind at 1. unfold getW. fold t.
  unfold mbind at 1. unfold M_bind at 1.
  change (mkInbound (Some (a_source a)) _ 0 [] false)
    with (inbound_of t (a_source a) (a_destination a)).
  destruct (NewPacket_uid env t (a_source a) (a_destination a) _ _ w)
    as [[r' w0]|] eqn:E; [|done].
  pose proof (NewPacket_uid_result _ _ _ _ _ _ _ _ _ E) as Hr.
  fold r in Hr. subst r'.
  destruct (NewPacket_uid_io env t (a_source a) (a_destination a)
              (bool_decide (Address_String (Dest_Address (a_destination a)) =
                            router t))
              (inbound_of t (a_source a) (a_destination a)) w)
    as (r' & w0' & E' & _ & _ & _ & Hc & _).
  rewrite E in E'. injection E' as <- <-.
  change (with_sniffing t _ ["quic"%string]
            (session_ContextWithInbound context_Background (r_inbound r)))
    with ctx.
  change (5 * 60 * 1000000000) with 300000000000.
  unfold mbind at 1. unfold M_bind at 1.
  change (emit (EvDialUDP ctx (a_destination a) 300000000000) w0)
    with (Some (tt, set_trace
                      (fun tr => tr ++
                         [EvDialUDP ctx (a_destination a) 300000000000]) w0)).
  cbv beta iota.
  destruct (dialUDP env ctx (a_destination a) 300000000000) as [err|].
  - unfold mbind, M_bind, emit, modifyW, mret, M_ret. intros [= <- <-].
    split; [done|]. simpl. apply elem_of_app. left.
    apply elem_of_app. right. by left.
  - unfold mbind, M_bind, getW, modifyW, mret, M_ret. intros [= <- <-].
    split; [simpl; by rewrite Hc|]. simpl.
    apply elem_of_app. right. by left.
Qed.

Lemma NewPacket_install_exact a d w :
  wf w ->
  let cnt := trafficStats (tun w) && negb (d_self d) && negb (d_isDns d) in
  let l := stats_loc w (d_uid d) in
  let conn1 : packetConnV :=
    if cnt then inr (new_statsPacketConn (d_conn d) l) else inl (d_conn d) in
  exists w1,
    NewPacket_install a d w =
      Some ((conn1, if cnt then Some l else None), w1) /\
    mem w1 =
      (if cnt
       then <[l := attach_entry F_udpConn F_udpConnTotal
                     (entry_of w (d_uid d))]> (mem w)
       else mem w) /\
    t_appStats (tun w1) =
      (if cnt then <[d_uid d := l]> (t_appStats (tun w))
       else t_appStats (tun w)) /\
    mapping (udpTable (tun w1)) =
      <[natKey_of a := ItemConn conn1]> (mapping (udpTable (tun w))) /\
    net w1 = net w /\ trace w1 = trace w /\ wf w1 /\
    flags (tun w1) = flags (tun w).
Proof.
  intros Hwf cnt l conn1. unfold NewPacket_install.
  unfold mbind at 1. unfold M_bind at 1. unfold getW.
  unfold mbind at 1. unfold M_bind at 1.
  fold cnt. unfold conn1. destruct cnt.
  - destruct (attach_exact (d_uid d) F_udpConn F_udpConnTotal
                (fun stats => (inr (new_statsPacketConn (d_conn d) stats)
                                 : packetConnV, Some stats)) w Hwf)
      as (w1 & Hrun & Hm & Ha & Hu & Hn & Htr & Hwf1 & Hf1); [done|].
    cbv beta in Hrun. fold l in Hrun, Hm, Ha. rewrite Hrun.
    eexists. split; [reflexivity|]. simpl.
    split; [done|]. split; [done|]. split; [by rewrite Hu|].
    split; [done|]. split; [done|]. split; [done|]. exact Hf1.
  - eexists. split; [reflexivity|]. simpl. done.
Qed.

Lemma sendTo_wrapped key destination data w c l s :
  mapping (udpTable (tun w)) !! key =
    Some (ItemConn (inr (new_statsPacketConn c l))) ->
  mem w !! l = Some s ->
  exists w1,
    sendTo key destination data w = Some (true, w1) /\
    mem w1 = <[l := wrote (next_WriteTo c data w) s]> (mem w) /\
    tun w1 = tun w /\
    (forall c', on_readFrom (script_of c' w1) = on_readFrom (script_of c' w)).
Proof.
  intros E Hs.
  destruct (sendTo_hit key destination data w _ E) as (w1 & Hrun & _).
  { split; by eexists. }
  exists w1. split; [done|].
  destruct (sendTo_trace _ _ _ _ _ _ Hrun) as (Ht & _ & Hscripts).
  split; [|by split].
  revert Hrun. unfold sendTo, natTable_Get, mbind, M_bind, getW.
  rewrite E. unfold mret at 1. unfold M_ret at 1. cbv beta iota.
  cbn [WriteTo sum_PacketConn statsPacketConn_PacketConn].
  unfold statsPacketConn_WriteTo. unfold mbind, M_bind.
  cbn [packetConn new_statsPacketConn spc_uplink WriteTo connId_PacketConn].
  destruct (conn_WriteTo c data
              (mkUDPAddr (Address_IP (Dest_Address destination))
                 (Dest_Port destination)) w) as [[[n err] w0]|] eqn:E0;
    [|done].
  destruct (conn_WriteTo_frame _ _ _ _ _ _ E0) as (Hr & _ & Hm0 & _).
  rewrite <- Hr. unfold wrote. cbn [fst snd].
  destruct err as [e|].
  - rewrite decide_False by done. unfold mret, M_ret.
    cbn [PacketClose sum_PacketConn statsPacketConn_PacketConn
         connId_PacketConn packetConn].
    unfold conn_Close, mbind, M_bind, emit, modifyW, mret, M_ret.
    intros [= <-]. simpl. by rewrite Hm0, insert_id.
  - rewrite decide_True by done.
    rewrite (atomic_AddUint64_run (l, F_uplink) n w0 s)
      by (by rewrite Hm0).
    unfold mret, M_ret. intros [= <-]. simpl. by rewrite Hm0.
Qed.

Lemma read_loop_wrapped fuel isDns wb c l : forall w w1 s,
  mem w !! l = Some s ->
  read_loop fuel (inr (new_statsPacketConn c l)) isDns wb w = Some (tt, w1) ->
  mem w1 =
    <[l := received_into isDns wb (on_readFrom (script_of c w)) s]> (mem w).
Proof.
  induction fuel as [|fuel IH]; intros w w1 s Hs; [done|].
  cbn [read_loop]. unfold mbind at 1. unfold M_bind at 1.
  cbn [readFrom sum_PacketConn statsPacketConn_PacketConn].
  unfold statsPacketConn_readFrom. unfold mbind at 1. unfold M_bind at 1.
  cbn [readFrom connId_PacketConn packetConn new_statsPacketConn
       spc_downlink].
  unfold conn_readFrom.
  destruct (on_readFrom (script_of c w)) as [|[[b addr] err] rest] eqn:E.
  - rewrite decide_False by done. unfold mbind, M_bind, mret, M_ret.
    intros [= <-]. simpl. by rewrite insert_id.
  - set (w0 := set_net _ w).
    destruct err as [e|].
    + rewrite decide_False by done. unfold mbind, M_bind, mret, M_ret.
      intros [= <-]. simpl. by rewrite insert_id.
    + rewrite decide_True by done.
      unfold mbind at 1. unfold M_bind at 1.
      unfold mbind at 1. unfold M_bind at 1.
      rewrite (atomic_AddUint64_run (l, F_downlink) (len b) w0 s Hs).
      set (s' := set_field F_downlink (uint64 (get_field F_downlink s + len b)) s).
      set (w2 := set_mem _ w0).
      unfold mret at 1. unfold M_ret at 1. cbv beta iota.
      unfold mret at 1. unfold M_ret at 1. cbv beta iota.
      unfold writeBack. unfold mbind at 1. unfold M_bind at 1.
      unfold mbind at 1. unfold M_bind at 1.
      unfold emit, modifyW. cbv beta iota.
      set (to := as_UDPAddr (if isDns then None else addr)).
      set (w3 := set_trace _ w2).
      unfold mret at 1. unfold M_ret at 1. cbv beta iota.
      cbn [received_into]. fold to.
      change (set_field F_downlink (uint64 (downlink s + len b)) s) with s'.
      destruct (wb b to) as [n [e|]]; cbn [snd].
      * intros [= <-]. done.
      * intros H.
        assert (mem w3 !! l = Some s') as Hs3
          by (simpl; apply lookup_insert_eq).
        rewrite (IH w3 w1 s' Hs3 H). simpl. rewrite insert_insert_eq.
        f_equal.
        assert (on_readFrom (script_of c w3) = rest) as ->; [|done].
        unfold script_of. simpl. by rewrite lookup_insert_eq.
Qed.

Lemma NewPacket_serve_counted env a d l w s :
  mapping (udpTable (tun w)) !! natKey_of a =
    Some (ItemConn (inr (new_statsPacketConn (d_conn d) l))) ->
  mem w !! l = Some s ->
  exists w1,
    NewPacket_serve env a d (inr (new_statsPacketConn (d_conn d) l))
      (Some l) w = Some (tt, w1) /\
    mem w1 =
      <[l := release_entry (Now_Unix env) F_udpConn F_tcpConn
               (received_into (d_isDns d) (a_writeBack a)
                  (on_readFrom (script_of (d_conn d) w))
                  (wrote (next_WriteTo (d_conn d) (a_data a) w) s))]>
        (mem w) /\
    t_appStats (tun w1) = t_appStats (tun w) /\
    EvClose (Res_packetConn (inr (new_statsPacketConn (d_conn d) l)))
      ∈ trace w1.
Proof.
  intros Htab Hs. unfold NewPacket_serve.
  unfold mbind at 1. unfold M_bind at 1.
  destruct (sendTo_wrapped _ (a_destination a) (a_data a) w _ l s Htab Hs)
    as (w1 & -> & Hm1 & Ht1 & Hsc1).
  set (s1 := wrote _ s) in *.
  unfold mbind at 1. unfold M_bind at 1. unfold getW.
  unfold mbind at 1. unfold M_bind at 1.
  assert (mem w1 !! l = Some s1) as Hs1
    by (rewrite Hm1; apply lookup_insert_eq).
  destruct (read_loop_returns
              (S (length (on_readFrom (script_of (d_conn d) w1))))
              (d_isDns d) (a_writeBack a)
              (inr (new_statsPacketConn (d_conn d) l)) w1)
    as (w2 & Hrun2 & _); [split; by eexists|simpl; lia|].
  rewrite Hrun2.
  pose proof (read_loop_wrapped _ _ _ _ _ _ _ _ Hs1 Hrun2) as Hm2.
  destruct (read_loop_frame _ _ _ _ _ _ Hrun2) as (Ht2 & _).
  rewrite Hsc1 in Hm2. set (s2 := received_into _ _ _ s1) in *.
  unfold mbind at 1. unfold M_bind at 1.
  destruct (closeIgnore_io
              [Res_packetConn (inr (new_statsPacketConn (d_conn d) l));
               Res_closer (a_closer a)] w2)
    as (w3 & -> & (Hm3 & Ht3 & _) & Htr3).
  unfold mbind at 1. unfold M_bind at 1.
  unfold natTable_Delete at 1. unfold modifyW at 1.
  set (w4 := set_tun _ w3).
  assert (mem w4 = mem w3) as Hm4 by done.
  assert (trace w4 = trace w3) as Htr4 by done.
  assert (t_appStats (tun w4) = t_appStats (tun w3)) as Ht4 by done.
  clearbody w4.
  destruct (release_exact env l F_udpConn F_tcpConn w4 s2)
    as (w5 & -> & Hm5 & Ht5 & _ & Htr5); [|done|].
  { rewrite Hm4, Hm3, Hm2. apply lookup_insert_eq. }
  exists w5. split; [done|]. split.
  { rewrite Hm5, Hm4, Hm3, Hm2, Hm1, !insert_insert_eq. done. }
  split; [by rewrite Ht5, Ht4, Ht3, Ht2, Ht1|].
  rewrite Htr5, Htr4, Htr3. apply elem_of_app. right. by left.
Qed.

Lemma NewPacket_serve_flags env a d conn stats w w1 :
  NewPacket_serve env a d conn stats w = Some (tt, w1) ->
  flags (tun w1) = flags (tun w).
Proof.
  unfold NewPacket_serve.
  unfold mbind at 1. unfold M_bind at 1.
  destruct (sendTo _ _ _ w) as [[sent w0]|] eqn:E0; [|done].
  destruct (sendTo_trace _ _ _ _ _ _ E0) as (Ht0 & _).
  unfold mbind at 1. unfold M_bind at 1. unfold getW.
  unfold mbind at 1. unfold M_bind at 1.
  destruct (read_loop _ conn _ _ w0) as [[[] w2]|] eqn:E2; [|done].
  destruct (read_loop_frame _ _ _ _ _ _ E2) as (Ht2 & _).
  unfold mbind at 1. unfold M_bind at 1.
  destruct (closeIgnore_io
              [Res_packetConn conn; Res_closer (a_closer a)] w2)
    as (w3 & -> & (_ & Ht3 & _) & _).
  unfold mbind at 1. unfold M_bind at 1.
  unfold natTable_Delete at 1. unfold modifyW at 1.
  set (w4 := set_tun _ w3).
  assert (flags (tun w4) = flags (tun w)) as Hf4.
  { unfold w4. simpl. unfold flags. simpl. by rewrite Ht3, Ht2, Ht0. }
  clearbody w4.
  destruct stats as [s|].
  - intros E5. destruct (release_stats_frame _ _ _ _ _ _ E5) as (Ht5 & _).
    by rewrite Ht5.
  - by intros [= <-].
Qed.

Lemma unlock_restores_bridge key cond (t : Tun2ray) :
  mapping (udpTable t) !! key = None ->
  set_udpTable (delete key) (set_udpTable (insert key (ItemCond cond)) t) = t.
Proof.
  destruct t as [? [m] ? ? ? ? ? ? ?]. unfold set_udpTable. simpl.
  intros E. by rewrite delete_insert_id.
Qed.

Lemma NewPacket_exact env a w :
  wf w ->
  mapping (udpTable (tun w)) !! natKey_of a = None ->
  mapping (udpTable (tun w)) !! lockKey_of a = None ->
  let t := tun w in
  let r := flow_result env t (udp_lookup env (a_source a) (a_destination a))
             (inbound_of t (a_source a) (a_destination a)) in
  let ctx := udp_context t (a_destination a) (r_inbound r) in
  let l := stats_loc w (r_uid r) in
  exists w1,
    NewPacket env a w = Some (Returned, w1) /\
    EvDialUDP ctx (a_destination a) 300000000000 ∈ trace w1 /\
    flags (tun w1) = flags (tun w) /\
    mapping (udpTable (tun w1)) = mapping (udpTable (tun w)) /\
    match dialUDP env ctx (a_destination a) 300000000000 with
    | Some _ => mem w1 = mem w /\ t_appStats (tun w1) = t_appStats (tun w)
    | None =>
        EvClose (Res_packetConn (udp_conn w (a_destination a) r (nextConn w)))
          ∈ trace w1 /\
        if counted t (a_destination a) r then
          t_appStats (tun w1) = <[r_uid r := l]> (t_appStats (tun w)) /\
          mem w1 =
            <[l := release_entry (Now_Unix env) F_udpConn F_tcpConn
                     (received_into
                        (bool_decide (Address_String
                                        (Dest_Address (a_destination a)) =
                                      router t))
                        (a_writeBack a)
                        (on_readFrom (script_of (nextConn w) w))
                        (wrote (next_WriteTo (nextConn w) (a_data a) w)
                           (attach_entry F_udpConn F_udpConnTotal
                              (entry_of w (r_uid r)))))]> (mem w)
        else mem w1 = mem w /\ t_appStats (tun w1) = t_appStats (tun w)
    end.
Proof.
  intros Hwf Hnat Hlock t r ctx l. unfold NewPacket.
  unfold mbind at 1. unfold M_bind at 1.
  rewrite (sendTo_miss _ _ _ _ Hnat).
  unfold mbind at 1. unfold M_bind at 1.
  rewrite (GetOrCreateLock_fresh (lockKey_of a) w Hlock).
  unfold mbind at 1. unfold M_bind at 1.
  rewrite NewPacket_unlock_run. cbv beta iota.
  set (w2 := set_trace _ _).
  assert (mem w2 = mem w) as Hm2 by done.
  assert (net w2 = net w) as Hn2 by done.
  assert (nextConn w2 = nextConn w) as Hc2 by done.
  assert (tun w2 = tun w) as Ht2.
  { simpl. by apply unlock_restores_bridge. }
  assert (wf w2) as Hwf2 by (by eapply wf_same).
  clearbody w2.
  destruct (NewPacket_dial_runs env a w2)
    as (od & w3 & logs & ctx' & inbound & uid & self & Hrun3 & Hm3 & Ht3 &
        Hn3 & _).
  unfold mbind at 1. unfold M_bind at 1. rewrite Hrun3.
  destruct (NewPacket_dial_result _ _ _ _ _ Hrun3) as (Hod & Hdial).
  rewrite Ht2 in Hod, Hdial. rewrite Hc2 in Hod.
  fold t in Hod, Hdial. fold r in Hod, Hdial.
  fold ctx in Hod, Hdial.
  assert (wf w3) as Hwf3 by (by eapply wf_same).
  destruct (dialUDP env ctx (a_destination a) 300000000000) as [err|].
  - subst od. exists w3. split; [done|]. split; [done|].
    split; [by rewrite Ht3, Ht2|]. split; [by rewrite Ht3, Ht2|].
    split; congruence.
  - subst od. set (d := mkdialed _ _ _ _).
    unfold mbind at 1. unfold M_bind at 1.
    destruct (NewPacket_install_exact a d w3 Hwf3)
      as (w4 & Hrun4 & Hm4 & Ha4 & Htab4 & Hn4 & Htr4 & Hwf4 & Hf4).
    rewrite Ht3, Ht2 in Hf4.
    assert (forall conn1 w5,
              mapping (udpTable (tun w4)) =
                <[natKey_of a := ItemConn conn1]> (mapping (udpTable (tun w))) ->
              mapping (udpTable (tun w5)) =
                delete (natKey_of a) (mapping (udpTable (tun w4))) ->
              mapping (udpTable (tun w5)) = mapping (udpTable (tun w)))
      as Hrestore.
    { intros conn1 w5 H4 H5. rewrite H5, H4. by apply delete_insert_id. }
    rewrite Ht3, Ht2 in Hrun4, Hm4, Ha4, Htab4.
    rewrite (stats_loc_same w w3) in Hrun4, Hm4, Ha4, Htab4 by congruence.
    rewrite (entry_of_same w w3) in Hm4 by congruence.
    change (trafficStats (tun w) && negb (d_self d) && negb (d_isDns d))
      with (counted t (a_destination a) r) in Hrun4, Hm4, Ha4, Htab4.
    change (d_uid d) with (r_uid r) in Hrun4, Hm4, Ha4, Htab4.
    change (d_conn d) with (nextConn w) in Hrun4, Htab4.
    fold l in Hrun4, Hm4, Ha4, Htab4.
    rewrite Hrun4.
    unfold udp_conn. fold t. fold l.
    assert (script_of (nextConn w) w4 = script_of (nextConn w) w) as Hscript.
    { apply script_of_net. congruence. }
    destruct (counted t (a_destination a) r).
    + unfold mbind at 1. unfold M_bind at 1.
      destruct (NewPacket_serve_counted env a d l w4
                  (attach_entry F_udpConn F_udpConnTotal (entry_of w (r_uid r))))
        as (w5 & Hrun5 & Hm5 & Ha5 & Hclose).
      { rewrite Htab4. apply lookup_insert_eq. }
      { rewrite Hm4, Hm3, Hm2. apply lookup_insert_eq. }
      change (d_conn d) with (nextConn w) in Hrun5, Hm5, Hclose.
      rewrite Hrun5. exists w5. split; [done|].
      destruct (NewPacket_serve_frame _ _ _ _ _ _ _ Hrun5 eq_refl)
        as (Hmap5 & Htr5).
      split.
      { rewrite Htr5, Htr4. apply elem_of_app. by left. }
      split; [by rewrite (NewPacket_serve_flags _ _ _ _ _ _ _ Hrun5)|].
      split; [eapply Hrestore; [exact Htab4|exact Hmap5]|].
      split; [done|]. split; [by rewrite Ha5, Ha4|].
      rewrite Hm5, Hm4, Hm3, Hm2, insert_insert_eq.
      unfold next_WriteTo. rewrite Hscript. done.
    + unfold mbind at 1. unfold M_bind at 1.
      destruct (NewPacket_serve_runs env a d (inl (nextConn w)) None w4)
        as (w5 & between & Hrun5 & Htr5 & Hraw5 & _);
        [by rewrite Htab4, lookup_insert_eq|done|done|done|].
      rewrite Hrun5. exists w5. split; [done|].
      split.
      { rewrite Htr5, Htr4. apply elem_of_app. by left. }
      split; [by rewrite (NewPacket_serve_flags _ _ _ _ _ _ _ Hrun5)|].
      split.
      { destruct (NewPacket_serve_frame _ _ _ _ _ _ _ Hrun5 eq_refl)
          as (Hmap5 & _). eapply Hrestore; [exact Htab4|exact Hmap5]. }
      split.
      { rewrite Htr5. apply elem_of_app. right. apply elem_of_app. right.
        by left. }
      destruct (Hraw5 _ eq_refl eq_refl) as (Hm5 & Ha5).
      cbv iota in Hm4, Ha4. split; [congruence|unfold t; congruence].
Qed.



(** ** The accounts of a UDP flow *)




(** ** A bridge that keeps no stats *)

(** X13.  With [trafficStats] off, on a well-formed registry:
    [GetTrafficStatsEnabled] answers false, [ReadAppTraffics] returns nil
    without a call of the listener, [ResetAppTraffics] does nothing, and
    the two handlers neither make nor change an entry: [NewConnection]
    hands the conn of the call to the dispatcher unwrapped and leaves the
    entries and the bridge as they were, and [NewPacket], setting up a
    flow, closes the dialled conn unwrapped and leaves the entries and the
    app-stats map as they were. *)
Theorem stats_off_keeps_registry (env : Env) (w : World) :
  wf w ->
  trafficStats (tun w) = false ->
  GetTrafficStatsEnabled w = Some (false, w) /\
  ReadAppTraffics w = Some (None, w) /\
  ResetAppTraffics w = Some (tt, w) /\
  (forall source destination conn,
     exists w1 ctx,
       NewConnection env source destination conn w = Some (tt, w1) /\
       mem w1 = mem w /\ tun w1 = tun w /\
       EvDispatchLink ctx destination (inl conn) ∈ trace w1) /\
  (forall a,
     mapping (udpTable (tun w)) !! natKey_of a = None ->
     mapping (udpTable (tun w)) !! lockKey_of a = None ->
     exists w1 ctx,
       NewPacket env a w = Some (Returned, w1) /\
       mem w1 = mem w /\ t_appStats (tun w1) = t_appStats (tun w) /\
       EvDialUDP ctx (a_destination a) 300000000000 ∈ trace w1 /\
       (dialUDP env ctx (a_destination a) 300000000000 = None ->
        EvClose (Res_packetConn (inl (nextConn w))) ∈ trace w1)).
Proof.
  intros Hwf Hoff.
  split. { unfold GetTrafficStatsEnabled, mbind, M_bind, getW, mret, M_ret.
           by rewrite Hoff. }
  split; [by apply ReadAppTraffics_off|].
  split; [by apply ResetAppTraffics_off|].
  split.
  - intros source destination conn.
    destruct (NewConnection_exact env source destination conn w Hwf)
      as (r & w0 & logs & w1 & _ & _ & _ & Hrun & Htr & _ & _ & _ & Hc).
    assert (counted (tun w) destination r = false) as Hcounted
      by (unfold counted; by rewrite Hoff).
    unfold tcp_conn in Htr. rewrite Hcounted in Htr, Hc.
    destruct Hc as (Hm & Ht).
    exists w1, (tcp_context (tun w) destination (r_inbound r)).
    split; [done|]. split; [done|]. split; [done|].
    rewrite Htr. apply elem_of_app. right. apply elem_of_app. right. by left.
  - intros a Hnat Hlock.
    destruct (NewPacket_exact env a w Hwf Hnat Hlock)
      as (w1 & Hrun & Hdial & _ & _ & H).
    set (r := flow_result env (tun w) _ _) in *.
    assert (counted (tun w) (a_destination a) r = false) as Hcounted
      by (unfold counted; by rewrite Hoff).
    unfold udp_conn in H. rewrite Hcounted in H.
    exists w1, (udp_context (tun w) (a_destination a) (r_inbound r)).
    split; [done|].
    destruct (dialUDP env _ (a_destination a) 300000000000).
    + destruct H as (Hm & Ha). by repeat split.
    + destruct H as (Hclose & Hm & Ha). by repeat split.
Qed.

Lemma ex_bridge_off_wf : wf ex_bridge_off.
Proof. apply (bool_decide_unpack _). vm_compute. exact I. Defined.

Lemma stats_off_keeps_registry_witness :
  ReadAppTraffics ex_bridge_off = Some (None, ex_bridge_off) /\
  exists w1,
    NewPacket ex_env (ex_packet [Byte.x01]) ex_bridge_off =
      Some (Returned, w1) /\
    mem w1 = ∅.
Proof.
  destruct (stats_off_keeps_registry ex_env ex_bridge_off ex_bridge_off_wf
              eq_refl) as (_ & Hread & _ & _ & Hudp).
  split; [exact Hread|].
  destruct (Hudp (ex_packet [Byte.x01]) eq_refl eq_refl)
    as (w1 & ctx & Hrun & Hm & _).
  exists w1. split; [exact Hrun|exact Hm].
Defined.

(** ** ResetAppTraffics, and what follows it *)

Lemma filter_none {A} (P : A -> Prop) `{forall x, Decision (P x)} (l : list A) :
  Forall (fun x => ~ P x) l -> filter P l = [].
Proof.
  induction 1 as [|x l Hx _ IH]; [done|].
  rewrite filter_cons, decide_False by done. exact IH.
Qed.

Lemma update_all_id f ls (m : gmap loc appStats) :
  (forall l s, l ∈ ls -> m !! l = Some s -> f s = s) ->
  update_all f ls m = m.
Proof.
  unfold update_all. revert m. induction ls as [|l ls IH]; intros m Hf; [done|].
  simpl. rewrite alter_id.
  - apply IH. intros l' s Hl'. apply Hf. by right.
  - intros s. apply Hf. by left.
Qed.

(** X15.  After [ResetAppTraffics], on a well-formed registry with stats
    on: a second [ResetAppTraffics] changes neither an entry nor the
    app-stats map, and a [ReadAppTraffics] reports one record for each
    entry left in the map, each with both windows and both totals at zero
    and with a live flow, by the test of the reset itself. *)
Theorem ResetAppTraffics_then_quiet (w : World) :
  trafficStats (tun w) = true -> wf w ->
  exists w1 w2 w3 exports,
    ResetAppTraffics w = Some (tt, w1) /\
    ResetAppTraffics w1 = Some (tt, w2) /\
    mem w2 = mem w1 /\ t_appStats (tun w2) = t_appStats (tun w1) /\
    ReadAppTraffics w1 = Some (None, w3) /\
    trace w3 = trace w1 ++ (EvUpdateStats <$> exports) /\
    length exports = size (t_appStats (tun w1)) /\
    (forall e, e ∈ exports ->
       Uplink e = 0 /\ Downlink e = 0 /\
       UplinkTotal e = 0 /\ DownlinkTotal e = 0 /\
       int32 (TcpConn e + UdpConn e) ≠ 0).
Proof.
  intros Hon Hwf.
  pose proof (ResetAppTraffics_run w Hon Hwf) as Hrun1.
  set (w1 := set_tun _ _) in Hrun1.
  assert (wf w1) as Hwf1 by (by eapply ResetAppTraffics_wf).
  assert (trafficStats (tun w1) = true) as Hon1 by done.
  set (ents := map_to_list (t_appStats (tun w))) in *.
  assert (forall uid stat,
            t_appStats (tun w1) !! uid = Some stat ->
            exists s, mem w1 !! stat = Some (zero_entry s) /\ ~ idle s)
    as Hleft.
  { intros uid stat. simpl. rewrite delete_all_lookup.
    case_decide as Hdel; [done|]. intros Hu.
    destruct (wf_lookup w uid stat Hwf Hu) as [Hin [s Hs]].
    exists s. split.
    - destruct Hwf as [Hnd _]. by rewrite update_all_in, Hs.
    - intros Hidle. apply Hdel. apply list_elem_of_fmap.
      exists (uid, stat). split; [done|].
      apply list_elem_of_filter. split.
      + simpl. by rewrite (lookup_total_correct _ _ _ Hs).
      + by apply elem_of_map_to_list. }
  set (ents1 := map_to_list (t_appStats (tun w1))).
  assert (forall e, e ∈ ents1 ->
            exists s, mem w1 !! e.2 = Some (zero_entry s) /\ ~ idle s)
    as Hents1.
  { intros [uid stat] Hin. apply elem_of_map_to_list in Hin.
    by apply (Hleft uid stat). }
  pose proof (ResetAppTraffics_run w1 Hon1 Hwf1) as Hrun2.
  fold ents1 in Hrun2.
  rewrite (filter_none _ ents1) in Hrun2.
  2: { apply Forall_forall. intros e Hin.
       destruct (Hents1 e Hin) as (s & Hs & Hidle).
       rewrite (lookup_total_correct _ _ _ Hs). by destruct s. }
  pose proof (ReadAppTraffics_run w1 Hon1 Hwf1) as Hrun3.
  fold ents1 in Hrun3.
  eexists w1, _, _, _. split; [exact Hrun1|]. split; [exact Hrun2|].
  split.
  { simpl. apply update_all_id.
    intros l s Hl Hs. apply list_elem_of_fmap in Hl as (e & -> & Hin).
    destruct (Hents1 e Hin) as (s0 & Hs0 & _).
    assert (s = zero_entry s0) as -> by (simpl in Hs0; congruence).
    by destruct s0. }
  split; [done|]. split; [exact Hrun3|].
  split; [reflexivity|]. split.
  { rewrite length_fmap. apply length_map_to_list. }
  intros e He. apply list_elem_of_fmap in He as (e0 & -> & Hin).
  destruct (Hents1 e0 Hin) as (s & Hs & Hidle).
  rewrite (lookup_total_correct _ _ _ Hs).
  do 4 (split; [reflexivity|]). by destruct s.
Qed.

Lemma ResetAppTraffics_then_quiet_witness :
  exists w1 w3,
    ResetAppTraffics ex_world = Some (tt, w1) /\
    ResetAppTraffics w1 = Some (tt, w1) /\
    ReadAppTraffics w1 = Some (None, w3) /\
    trace w3 = [EvUpdateStats (mkAppStats 10042 1 0 1 0 0 0 0 0 0)].
Proof.
  destruct (ResetAppTraffics_then_quiet ex_world eq_refl ex_world_wf)
    as (w1 & w2 & w3 & exports & Hrun1 & Hrun2 & _ & _ & Hrun3 & _).
  assert (ResetAppTraffics ex_world =
            Some (tt, mkWorld
                        (mkTun2ray "1.2.3.4" (mknatTable ∅) false false false
                           false false true {[ 10042 := 1%positive ]})
                        {[ 1%positive := mkappStats 1 0 1 0 0 0 0 0 0;
                           2%positive := mkappStats 0 0 1 0 0 0 0 0 99 ]}
                        ∅ 1%positive 1%positive [])) as Hc
    by (vm_compute; reflexivity).
  rewrite Hrun1 in Hc. injection Hc as ->.
  eexists _, _. split; [exact Hrun1|].
  split; [vm_compute; reflexivity|].
  split; [vm_compute; reflexivity|]. reflexivity.
Defined.

(** ** The context of a flow *)

Lemma with_sniffing_ok t destination protocols ctx :
  ctx_content ctx = None ->
  sniffing_ok t destination protocols
    (with_sniffing t
       (bool_decide (Address_String (Dest_Address destination) = router t))
       protocols ctx).
Proof.
  intros Hc. unfold sniffing_ok, with_sniffing.
  destruct (decide (Address_String (Dest_Address destination) = router t))
    as [Hd|Hd].
  - rewrite (bool_decide_eq_true_2 _ Hd). simpl. rewrite Hc. by left.
  - rewrite (bool_decide_eq_false_2 _ Hd). simpl.
    destruct (sniffing t) eqn:Hs, (fakedns t) eqn:Hf; simpl;
      rewrite ?Hc, ?Hs, ?Hf; simpl.
    + split; [done|]. split; [by left|]. split; [done|].
      split; [split; [done|by intros [_ ?]]|].
      split; [by destruct (overrideDestination t)|]. done.
    + split; [done|]. split; [by left|]. split; [done|].
      split; [split; [done|by intros [? _]]|].
      split; [by destruct (overrideDestination t)|]. done.
    + split; [done|]. split; [by right|]. split; [done|].
      split; [done|].
      split; [by destruct (overrideDestination t)|]. done.
    + by right.
Qed.

(** X16.  The context a handler hands to the dispatcher.  That of
    [NewConnection] carries the core instance, that of [NewPacket] does
    not.  Neither carries a sniffing request for a flow to the router, or
    when [sniffing] and [fakedns] are both off.  Otherwise the request is
    enabled, metadata-only exactly when [fakedns] is on and [sniffing] is
    off, route-only exactly when [overrideDestination] is off, and its
    protocols are "fakedns" if [fakedns] is on, followed by "http" and
    "tls" for TCP, or "quic" for UDP, if [sniffing] is on; a metadata-only
    request lists "fakedns" alone. *)
Theorem flow_context (env : Env) (w : World) :
  wf w ->
  (forall source destination conn,
     exists w1 ctx conn1,
       NewConnection env source destination conn w = Some (tt, w1) /\
       EvDispatchLink ctx destination conn1 ∈ trace w1 /\
       ctx_core ctx = true /\
       sniffing_ok (tun w) destination ["http"; "tls"]%string ctx) /\
  (forall a,
     mapping (udpTable (tun w)) !! natKey_of a = None ->
     mapping (udpTable (tun w)) !! lockKey_of a = None ->
     exists w1 ctx,
       NewPacket env a w = Some (Returned, w1) /\
       EvDialUDP ctx (a_destination a) 300000000000 ∈ trace w1 /\
       ctx_core ctx = false /\
       sniffing_ok (tun w) (a_destination a) ["quic"%string] ctx).
Proof.
  intros Hwf. split.
  - intros source destination conn.
    destruct (NewConnection_exact env source destination conn w Hwf)
      as (r & w0 & logs & w1 & _ & _ & _ & Hrun & Htr & _).
    exists w1, (tcp_context (tun w) destination (r_inbound r)),
      (tcp_conn w destination r conn).
    split; [done|]. split.
    { rewrite Htr. apply elem_of_app. right. apply elem_of_app. right.
      by left. }
    split; [unfold tcp_context, with_sniffing; by destruct (negb _ && _)|].
    by apply with_sniffing_ok.
  - intros a Hnat Hlock.
    destruct (NewPacket_exact env a w Hwf Hnat Hlock) as (w1 & Hrun & Hdial & _).
    eexists w1, _. split; [done|]. split; [exact Hdial|].
    split; [unfold udp_context, with_sniffing; by destruct (negb _ && _)|].
    by apply with_sniffing_ok.
Qed.

Lemma flow_context_witness :
  exists w1 ctx,
    NewPacket ex_env (ex_packet [Byte.x01]) ex_bridge = Some (Returned, w1) /\
    EvDialUDP ctx ex_udp_destination 300000000000 ∈ trace w1 /\
    sniffing_ok (tun ex_bridge) ex_udp_destination ["quic"%string] ctx.
Proof.
  destruct (flow_context ex_env ex_bridge ex_bridge_wf) as [_ Hudp].
  destruct (Hudp (ex_packet [Byte.x01]) eq_refl eq_refl)
    as (w1 & ctx & Hrun & Hdial & _ & Hok).
  exists w1, ctx. split; [exact Hrun|]. split; [exact Hdial|exact Hok].
Defined.

(** ** Calls one after the other, from the constructor on *)

Lemma run_call_keeps env c w :
  wf w -> mapping (udpTable (tun w)) = ∅ ->
  exists w1,
    run_call env c w = Some (tt, w1) /\
    wf w1 /\ mapping (udpTable (tun w1)) = ∅ /\
    flags (tun w1) = flags (tun w) /\
    (trafficStats (tun w) = false ->
     mem w1 = mem w /\ t_appStats (tun w1) = t_appStats (tun w)).
Proof.
  intros Hwf Htab. destruct c as [source destination conn|a| | |]; simpl.
  - destruct (NewConnection_exact env source destination conn w Hwf)
      as (r & w0 & logs & w1 & _ & _ & _ & Hrun & _ & Hu & Hwf1 & Hf & Hc).
    exists w1. split; [done|]. split; [done|].
    split; [by rewrite Hu|]. split; [done|].
    intros Hoff. unfold counted in Hc. rewrite Hoff in Hc. simpl in Hc.
    destruct Hc as (Hm & Ht). by rewrite Ht.
  - assert (mapping (udpTable (tun w)) !! natKey_of a = None) as Hnat
      by (by rewrite Htab, lookup_empty).
    assert (mapping (udpTable (tun w)) !! lockKey_of a = None) as Hlock
      by (by rewrite Htab, lookup_empty).
    destruct (NewPacket_exact env a w Hwf Hnat Hlock)
      as (w1 & Hrun & _ & Hf & Hmap & H).
    destruct (NewPacket_runs env a w Hwf Hnat Hlock)
      as (w1' & ? & ? & ? & ? & Hrun' & _ & _ & _ & _ & _ & _ & Hwf1).
    rewrite Hrun in Hrun'. injection Hrun' as <-.
    unfold mbind, M_bind. rewrite Hrun. exists w1.
    split; [done|]. split; [done|]. split; [by rewrite Hmap|].
    split; [done|]. intros Hoff.
    unfold counted in H. rewrite Hoff in H. simpl in H.
    destruct (dialUDP env _ _ _); [done|]. by destruct H as (_ & ?).
  - unfold mbind, M_bind. destruct (trafficStats (tun w)) eqn:Hon.
    + pose proof (ReadAppTraffics_run w Hon Hwf) as Hrun.
      rewrite Hrun. eexists. split; [reflexivity|].
      split; [by eapply ReadAppTraffics_wf|]. simpl.
      split; [done|]. split; [done|]. done.
    + rewrite (ReadAppTraffics_off w Hon).
      exists w. split; [done|]. split; [done|]. split; [done|]. split; [done|]. done.
  - destruct (trafficStats (tun w)) eqn:Hon.
    + pose proof (ResetAppTraffics_run w Hon Hwf) as Hrun.
      rewrite Hrun. eexists. split; [reflexivity|].
      split; [by eapply ResetAppTraffics_wf|]. simpl.
      split; [done|]. split; [done|]. done.
    + rewrite (ResetAppTraffics_off w Hon).
      exists w. split; [done|]. split; [done|]. split; [done|]. split; [done|]. done.
  - exists w. split; [done|]. split; [done|]. split; [done|]. split; [done|]. done.
Qed.

Lemma run_calls_keep env calls : forall w,
  wf w -> mapping (udpTable (tun w)) = ∅ ->
  exists w1,
    run_calls env calls w = Some (tt, w1) /\
    wf w1 /\ mapping (udpTable (tun w1)) = ∅ /\
    flags (tun w1) = flags (tun w) /\
    (trafficStats (tun w) = false ->
     mem w1 = mem w /\ t_appStats (tun w1) = t_appStats (tun w)).
Proof.
  induction calls as [|c calls IH]; intros w Hwf Htab.
  - exists w. split; [done|]. split; [done|]. split; [done|]. split; [done|]. done.
  - cbn [run_calls]. unfold mbind, M_bind.
    destruct (run_call_keeps env c w Hwf Htab)
      as (w0 & -> & Hwf0 & Htab0 & Hf0 & Hoff0).
    destruct (IH w0 Hwf0 Htab0) as (w1 & Hrun & Hwf1 & Htab1 & Hf1 & Hoff1).
    exists w1. split; [done|]. split; [done|]. split; [done|].
    split; [congruence|]. intros Hoff.
    assert (trafficStats (tun w0) = false) as Hoff'.
    { unfold flags in Hf0. injection Hf0 as _ _ _ _ _ _ ->. done. }
    destruct (Hoff0 Hoff), (Hoff1 Hoff'). split; congruence.
Qed.

(** X17.  A bridge from the constructor, and any calls of the two
    handlers, of [ReadAppTraffics], of [ResetAppTraffics] and of
    [GetTrafficStatsEnabled] on it, one after the other, whatever the
    collaborators answer: no call panics, every call returns, and after
    each of them the registry is well formed, the NAT table is empty, and
    the router address and the options are those the constructor was
    given.  If the bridge was made with [trafficStats] off, there is no
    entry at any time. *)
Theorem bridge_calls_never_panic (env : Env) (setup : option error)
    (r : string) (sn ov fk dbg du ts : bool) (t : Tun2ray)
    (conns : gmap connId connScript) (nc : connId) (nd : condId)
    (calls : list apiCall) :
  NewTun2ray setup r sn ov fk dbg du ts = inl t ->
  exists w1,
    run_calls env calls (mkWorld t ∅ conns nc nd []) = Some (tt, w1) /\
    wf w1 /\ mapping (udpTable (tun w1)) = ∅ /\
    flags (tun w1) = (r, fk, sn, ov, dbg, du, ts) /\
    (ts = false -> mem w1 = ∅ /\ t_appStats (tun w1) = ∅).
Proof.
  intros Hnew.
  assert (t = mkTun2ray r (mknatTable ∅) fk sn ov dbg du ts ∅) as ->.
  { unfold NewTun2ray in Hnew. destruct setup; [done|]. by injection Hnew. }
  set (w := mkWorld _ ∅ conns nc nd []).
  destruct (run_calls_keep env calls w) as (w1 & Hrun & Hwf1 & Htab & Hf & Hoff).
  - by apply wf_no_entries.
  - done.
  - exists w1. split; [done|]. split; [done|]. split; [done|].
    split; [done|]. intros ->. by destruct (Hoff eq_refl).
Qed.

Lemma bridge_calls_never_panic_witness :
  exists w1,
    run_calls ex_env ex_calls
      (mkWorld (mkTun2ray "1.2.3.4" (mknatTable ∅) true true false false
                  true true ∅) ∅ ∅ 20%positive 1%positive []) =
      Some (tt, w1) /\
    wf w1 /\ mapping (udpTable (tun w1)) = ∅.
Proof.
  destruct (bridge_calls_never_panic ex_env None "1.2.3.4" true false true
              false true true _ ∅ 20%positive 1%positive ex_calls eq_refl)
    as (w1 & Hrun & Hwf & Htab & _).
  exists w1. split; [exact Hrun|]. split; [exact Hwf|exact Htab].
Defined.

(** ** A write between the swap and the add *)


(** ** The entry of the NAT table at the end of a flow *)



(** ** One record for each UID *)

(** X19.  [ReadAppTraffics] with stats on, on a well-formed registry whose
    keys are [uint16], as the keys of the map are: the listener is called
    once for each UID of the map, in the order of the range, with the UID
    as it is in the map; no UID is reported twice; and the live counts of
    a record are those of the UID's entry.  The bridge is not changed. *)
Theorem ReadAppTraffics_one_record_per_uid (w : World) :
  trafficStats (tun w) = true -> wf w ->
  (forall uid stat, t_appStats (tun w) !! uid = Some stat -> is_uint16 uid) ->
  exists w1 exports,
    ReadAppTraffics w = Some (None, w1) /\
    trace w1 = trace w ++ (EvUpdateStats <$> exports) /\
    Uid <$> exports = (map_to_list (t_appStats (tun w))).*1 /\
    NoDup (Uid <$> exports) /\
    (forall e, e ∈ exports ->
       exists stat s,
         t_appStats (tun w) !! Uid e = Some stat /\ mem w !! stat = Some s /\
         TcpConn e = tcpConn s /\ UdpConn e = udpConn s) /\
    tun w1 = tun w.
Proof.
  intros Hon Hwf Hkeys.
  eexists _, _. split; [by apply ReadAppTraffics_run|]. simpl.
  split; [reflexivity|].
  set (ents := map_to_list (t_appStats (tun w))).
  assert (forall e, e ∈ ents -> int32 e.1 = e.1) as Hid.
  { intros [uid stat] Hin. apply elem_of_map_to_list in Hin.
    apply int32_id. specialize (Hkeys uid stat Hin).
    unfold is_uint16 in Hkeys. unfold is_int32. simpl. lia. }
  assert (Uid <$> ((fun e => export_entry e.1 (mem w !!! e.2)) <$> ents) =
          ents.*1) as Huids.
  { rewrite <- list_fmap_compose. apply list_fmap_ext.
    intros i e Hi. simpl. apply Hid. by eapply list_elem_of_lookup_2. }
  split; [exact Huids|]. split.
  { rewrite Huids. apply NoDup_fst_map_to_list. }
  split; [|done].
  intros e He. apply list_elem_of_fmap in He as ([uid stat] & -> & Hin).
  pose proof (Hid _ Hin) as Hu. simpl in Hu.
  apply elem_of_map_to_list in Hin.
  destruct (wf_lookup w uid stat Hwf Hin) as (_ & s & Hs).
  exists stat, s. simpl. rewrite Hu. split; [done|]. split; [done|].
  by rewrite (lookup_total_correct _ _ _ Hs).
Qed.

Lemma ReadAppTraffics_one_record_per_uid_witness :
  exists w1 exports,
    ReadAppTraffics ex_world = Some (None, w1) /\
    Uid <$> exports = (map_to_list (t_appStats (tun ex_world))).*1 /\
    NoDup (Uid <$> exports).
Proof.
  destruct (ReadAppTraffics_one_record_per_uid ex_world eq_refl ex_world_wf)
    as (w1 & exports & Hrun & _ & Huids & Hnd & _).
  - intros uid stat E. simpl in E.
    apply lookup_insert_Some in E as [[<- _]|[_ E]]; [by vm_compute|].
    apply lookup_singleton_Some in E as [<- _]. by vm_compute.
  - exists w1, exports. split; [exact Hrun|]. split; [exact Huids|exact Hnd].
Defined.

(** ** A flow and the snapshot after it *)

(** X20.  The first flow on a new bridge with stats on, and the snapshot
    after it.  A TCP flow that is counted (its destination is not the
    router and it is not the process's own) leaves one entry, and
    [ReadAppTraffics] then calls the listener once, with the UID of the
    flow, no live flow, a TCP total of 1, an uplink window and an uplink
    total that are both the bytes of the copy (none if the dispatcher
    rejected the flow), and the time of the flow's end as
    [DeactivateAt]. *)
Theorem first_flow_then_snapshot (env : Env) (setup : option error)
    (r : string) (sn ov fk dbg du : bool) (t : Tun2ray)
    (conns : gmap connId connScript) (nc : connId) (nd : condId)
    (source destination : Destination) (conn : connId) :
  NewTun2ray setup r sn ov fk dbg du true = inl t ->
  Address_String (Dest_Address destination) ≠ r ->
  let res := flow_result env t (tcp_lookup env source destination)
               (inbound_of t source destination) in
  r_self res = false ->
  let w := mkWorld t ∅ conns nc nd [] in
  let ctx := tcp_context t destination (r_inbound res) in
  let bytes :=
    match DispatchLink env ctx destination with
    | Some _ => 0
    | None => uint64 (copied (on_Read (script_of conn w)))
    end in
  exists w1 w2 e,
    NewConnection env source destination conn w = Some (tt, w1) /\
    ReadAppTraffics w1 = Some (None, w2) /\
    trace w2 = trace w1 ++ [EvUpdateStats e] /\
    Uid e = r_uid res /\
    TcpConn e = 0 /\ UdpConn e = 0 /\
    TcpConnTotal e = 1 /\ UdpConnTotal e = 0 /\
    Uplink e = int64 bytes /\ UplinkTotal e = int64 bytes /\
    DeactivateAt e = int32 (Now_Unix env).
Proof.
  intros Hnew Hdns.
  assert (t = mkTun2ray r (mknatTable ∅) fk sn ov dbg du true ∅) as ->.
  { unfold NewTun2ray in Hnew. destruct setup; [done|]. by injection Hnew. }
  set (t := mkTun2ray _ _ _ _ _ _ _ _ _).
  intros res Hself w ctx bytes.
  assert (wf w) as Hwf by (by apply wf_no_entries).
  destruct (NewConnection_exact env source destination conn w Hwf)
    as (r' & w0 & logs & w1 & Hrun0 & _ & _ & Hrun & _ & _ & Hwf1 & Hf & Hc).
  pose proof (NewConnection_uid_result _ _ _ _ _ _ _ _ Hrun0) as Hr.
  change (tun w) with t in Hr, Hc, Hf. fold res in Hr. subst r'.
  assert (counted t destination res = true) as Hcounted.
  { unfold counted. rewrite Hself. simpl.
    by rewrite bool_decide_eq_false_2. }
  rewrite Hcounted in Hc. destruct Hc as (Ha & Hm). fold ctx in Hm.
  set (uid := r_uid res) in *. set (l := stats_loc w uid) in *.
  assert (entry_of w uid = appStats_zero) as Hzero by done.
  rewrite Hzero in Hm.
  change (t_appStats t) with (∅ : gmap Z loc) in Ha.
  rewrite insert_empty in Ha.
  change (mem w) with (∅ : gmap loc appStats) in Hm.
  rewrite insert_empty in Hm.
  assert (trafficStats (tun w1) = true) as Hon1.
  { unfold flags in Hf. by injection Hf as _ _ _ _ _ _ ->. }
  pose proof (ReadAppTraffics_run w1 Hon1 Hwf1) as Hrun2.
  rewrite Ha, map_to_list_singleton in Hrun2. simpl in Hrun2.
  rewrite Hm, lookup_total_singleton, decide_True in Hrun2 by done.
  eexists w1, _, _. split; [exact Hrun|]. split; [exact Hrun2|].
  split; [reflexivity|].
  assert (0 <= uid < 65536) as Hrange.
  { destruct (flow_result_outcome env t (tcp_lookup env source destination)
                (inbound_of t source destination)) as (Hu & _).
    fold res in Hu. fold uid in Hu. lia. }
  split. { simpl. apply int32_id. unfold is_int32. lia. }
  unfold bytes.
  destruct (DispatchLink env ctx destination) as [err|]; simpl.
  - by repeat split.
  - set (b := copied _).
    assert (uint64 (0 + uint64 (0 + b)) = uint64 b) as ->.
    { rewrite !Z.add_0_l. apply uint64_idem. }
    rewrite Z.add_0_l. by repeat split.
Qed.

Lemma first_flow_then_snapshot_witness :
  exists w1 w2,
    NewConnection ex_env ex_tcp_source ex_tcp_destination 7%positive
      (mkWorld (mkTun2ray "1.2.3.4" (mknatTable ∅) true true false false
                  true true ∅)
         ∅ {[ 7%positive :=
                mkconnScript [(100, None); (7, Some "reset"%string)]
                  [] [] [] ]}
         20%positive 1%positive []) = Some (tt, w1) /\
    ReadAppTraffics w1 = Some (None, w2) /\
    trace w2 =
      trace w1 ++
      [EvUpdateStats (mkAppStats 10042 0 0 1 0 107 0 107 0 1700000000)].
Proof.
  destruct (first_flow_then_snapshot ex_env None "1.2.3.4" true false true
              false true _
              {[ 7%positive :=
                   mkconnScript [(100, None); (7, Some "reset"%string)]
                     [] [] [] ]}
              20%positive 1%positive ex_tcp_source ex_tcp_destination
              7%positive eq_refl)
    as (w1 & w2 & e & Hrun & Hread & Htr & _); [done|reflexivity|].
  exists w1, w2. split; [exact Hrun|]. split; [exact Hread|].
  assert (exists w1' w2',
            NewConnection ex_env ex_tcp_source ex_tcp_destination 7%positive
              (mkWorld (mkTun2ray "1.2.3.4" (mknatTable ∅) true true false
                          false true true ∅)
                 ∅ {[ 7%positive :=
                        mkconnScript [(100, None); (7, Some "reset"%string)]
                          [] [] [] ]}
                 20%positive 1%positive []) = Some (tt, w1') /\
            ReadAppTraffics w1' = Some (None, w2') /\
            trace w2' =
              trace w1' ++
              [EvUpdateStats
                 (mkAppStats 10042 0 0 1 0 107 0 107 0 1700000000)])
    as (w1' & w2' & Hrun' & Hread' & Htr')
    by (eexists _, _; split; [vm_compute; reflexivity|];
        split; vm_compute; reflexivity).
  rewrite Hrun in Hrun'. injection Hrun' as <-.
  rewrite Hread in Hread'. injection Hread' as <-. exact Htr'.
Defined.

(** ** The process's own flows *)

(** X21.  A flow whose looked-up UID is the process's own, [os.Getuid()],
    above zero, on a well-formed registry, whether stats are on or off:
    neither handler counts it.  [NewConnection] hands the conn of the call
    to the dispatcher unwrapped and leaves the entries and the bridge as
    they were; [NewPacket], setting up the flow, leaves the entries and
    the app-stats map as they were and, after a dial that succeeds, closes
    the dialled conn unwrapped. *)
Theorem own_flows_not_counted (env : Env) (w : World) :
  wf w ->
  dumpUid (tun w) || trafficStats (tun w) = true ->
  (forall source destination conn u,
     tcp_lookup env source destination = (u, None) ->
     0 < uint16 u -> uint16 u = Getuid env ->
     exists w1 ctx,
       NewConnection env source destination conn w = Some (tt, w1) /\
       mem w1 = mem w /\ tun w1 = tun w /\
       EvDispatchLink ctx destination (inl conn) ∈ trace w1) /\
  (forall a u,
     mapping (udpTable (tun w)) !! natKey_of a = None ->
     mapping (udpTable (tun w)) !! lockKey_of a = None ->
     udp_lookup env (a_source a) (a_destination a) = (u, None) ->
     0 < uint16 u -> uint16 u = Getuid env ->
     exists w1 ctx,
       NewPacket env a w = Some (Returned, w1) /\
       mem w1 = mem w /\ t_appStats (tun w1) = t_appStats (tun w) /\
       EvDialUDP ctx (a_destination a) 300000000000 ∈ trace w1 /\
       (dialUDP env ctx (a_destination a) 300000000000 = None ->
        EvClose (Res_packetConn (inl (nextConn w))) ∈ trace w1)).
Proof.
  intros Hwf Hlookup.
  assert (forall lookup inbound u,
            lookup = (u, None) -> 0 < uint16 u -> uint16 u = Getuid env ->
            r_self (flow_result env (tun w) lookup inbound) = true) as Hself.
  { intros lookup inbound u -> Hpos Heq. unfold flow_result.
    rewrite Hlookup. simpl.
    by rewrite bool_decide_eq_true_2, bool_decide_eq_true_2. }
  split.
  - intros source destination conn u Hl Hpos Heq.
    destruct (NewConnection_exact env source destination conn w Hwf)
      as (r & w0 & logs & w1 & Hrun0 & _ & _ & Hrun & Htr & _ & _ & _ & Hc).
    pose proof (NewConnection_uid_result _ _ _ _ _ _ _ _ Hrun0) as Hr.
    assert (counted (tun w) destination r = false) as Hcounted.
    { unfold counted. rewrite Hr, (Hself _ _ u Hl Hpos Heq). simpl.
      by rewrite andb_false_r. }
    unfold tcp_conn in Htr. rewrite Hcounted in Htr, Hc.
    destruct Hc as (Hm & Ht).
    exists w1, (tcp_context (tun w) destination (r_inbound r)).
    split; [done|]. split; [done|]. split; [done|].
    rewrite Htr. apply elem_of_app. right. apply elem_of_app. right. by left.
  - intros a u Hnat Hlock Hl Hpos Heq.
    destruct (NewPacket_exact env a w Hwf Hnat Hlock)
      as (w1 & Hrun & Hdial & _ & _ & H).
    set (r := flow_result env (tun w) _ _) in *.
    assert (counted (tun w) (a_destination a) r = false) as Hcounted.
    { unfold counted, r. rewrite (Hself _ _ u Hl Hpos Heq). simpl.
      by rewrite andb_false_r. }
    unfold udp_conn in H. rewrite Hcounted in H.
    exists w1, (udp_context (tun w) (a_destination a) (r_inbound r)).
    split; [done|].
    destruct (dialUDP env _ (a_destination a) 300000000000).
    + destruct H as (Hm & Ha). by repeat split.
    + destruct H as (Hclose & Hm & Ha). by repeat split.
Qed.

Lemma own_flows_not_counted_witness :
  exists w1 ctx,
    NewConnection ex_env_self ex_tcp_source ex_tcp_destination 7%positive
      ex_bridge_tcp = Some (tt, w1) /\
    mem w1 = mem ex_bridge_tcp /\
    EvDispatchLink ctx ex_tcp_destination (inl 7%positive) ∈ trace w1.
Proof.
  destruct (own_flows_not_counted ex_env_self ex_bridge_tcp ex_bridge_tcp_wf
              eq_refl) as [Htcp _].
  destruct (Htcp ex_tcp_source ex_tcp_destination 7%positive 10100 eq_refl)
    as (w1 & ctx & Hrun & Hm & _ & Hin); [by vm_compute|by vm_compute|].
  exists w1, ctx. split; [exact Hrun|]. split; [exact Hm|exact Hin].
Defined.

